(** * Grid-search orchestration for 1-D CNN regressors: a shallow embedding

    This development embeds [model_developement.py] (class
    [Model_Development]) and states the properties of its partitioner,
    resume guard, cross-validation trainer, reporter, combination generator
    and model factory.

    Conventions.
    - Python integers are [Z]; list lengths are [nat], injected with
      [Z.of_nat] where the code mixes them with integers.
    - A Python exception is a value of [exn]; code that can raise returns
      a [result].
    - External collaborators (Keras [fit], the weight initialiser, the input
      series) are Section variables; small executable models are given for
      the parts of pandas, scikit-learn and Keras (the checks made when a
      layer is built and added to a model) whose behaviour the code relies
      on. *)

From Stdlib Require Import ZArith List String Ascii Bool Lia.
From Stdlib Require Import Decimal DecimalString DecimalZ.
Import ListNotations.

Set Implicit Arguments.
Set Default Proof Using "Type".

Local Open Scope string_scope.
Local Open Scope Z_scope.

(** ** Exceptions and the error monad *)

Inductive exn : Type :=
| TypeError
| ValueError
| KeyError
| IndexError
| NameError
| AttributeError
| ZeroDivisionError
| FileExistsError
| FitFailure.

Inductive result (A : Type) : Type :=
| Ok (a : A)
| Raise (e : exn).

Arguments Ok {A} a.
Arguments Raise {A} e.

Definition rbind {A B : Type} (r : result A) (k : A -> result B) : result B :=
  match r with
  | Ok a => k a
  | Raise e => Raise e
  end.

Declare Scope result_scope.
Delimit Scope result_scope with result.
Notation "x <- r ;; k" := (rbind r (fun x => k))
  (at level 100, r at next level, right associativity) : result_scope.
Local Open Scope result_scope.

Fixpoint rmap {A B : Type} (f : A -> result B) (l : list A) : result (list B) :=
  match l with
  | [] => Ok []
  | a :: l' =>
      b <- f a ;;
      bs <- rmap f l' ;;
      Ok (b :: bs)
  end.

Fixpoint rfold {A B : Type} (f : A -> B -> result A) (a : A) (l : list B)
  : result A :=
  match l with
  | [] => Ok a
  | b :: l' =>
      a' <- f a b ;;
      rfold f a' l'
  end.

(** ** Python primitives used by the class *)

Module Py.

(** [str(n)] for an integer. *)
Definition str (n : Z) : string := NilZero.string_of_int (Z.to_int n).

(** [int(s)] for a string: an optional sign followed by decimal digits.
    (Python also accepts surrounding blanks and underscores between
    digits; the keys parsed here contain neither.) *)
Definition int (s : string) : result Z :=
  let digits :=
    match s with
    | String "+" s' => match s' with String "-" _ => "" | _ => s' end
    | _ => s
    end in
  match NilZero.int_of_string digits with
  | Some d => Ok (Z.of_int d)
  | None => Raise ValueError
  end.

(** [s.startswith(p)]. *)
Definition startswith (s p : string) : bool := String.prefix p s.

(** [s.split(sep)] for a one-character separator. *)
Fixpoint split (sep : ascii) (s : string) : list string :=
  match s with
  | EmptyString => [EmptyString]
  | String c s' =>
      if Ascii.eqb c sep then EmptyString :: split sep s'
      else
        match split sep s' with
        | [] => [String c EmptyString]
        | w :: ws => String c w :: ws
        end
  end.

(** [s.replace(old, new)]: every non-overlapping occurrence of [old],
    scanning from the left.  [skip] counts the characters of an
    occurrence that has just been replaced and are still to be dropped. *)
Fixpoint replace_from (old new s : string) (skip : nat) : string :=
  match s with
  | EmptyString => EmptyString
  | String c s' =>
      match skip with
      | S k => replace_from old new s' k
      | O =>
          if String.prefix old s
          then new ++ replace_from old new s' (String.length old - 1)
          else String c (replace_from old new s' 0)
      end
  end.

(** With an empty [old], Python inserts [new] before every character and
    at the end. *)
Fixpoint intersperse (new s : string) : string :=
  match s with
  | EmptyString => new
  | String c s' => new ++ String c (intersperse new s')
  end.

Definition replace (s old new : string) : string :=
  match old with
  | EmptyString => intersperse new s
  | _ => replace_from old new s 0
  end.

(** [ceil(a / b)] on integers.  The quotient is a float in Python; it is
    exact enough for [ceil] to agree with the integer ceiling for every
    length a list can have (below 2^53). *)
Definition ceil_div (a b : Z) : result Z :=
  if b =? 0 then Raise ZeroDivisionError else Ok (- ((- a) / b)).

(** [range(k)]. *)
Definition range (k : Z) : list Z := map Z.of_nat (seq 0 (Z.to_nat k)).

(** [enumerate(l)]. *)
Definition enumerate {A : Type} (l : list A) : list (Z * A) :=
  combine (range (Z.of_nat (List.length l))) l.

(** [l[a:b]]: negative bounds count from the end, and both are clamped to
    the length. *)
Definition clamp (n i : Z) : Z :=
  if i <? 0 then Z.max 0 (i + n) else Z.min i n.

Definition slice {A : Type} (l : list A) (a b : Z) : list A :=
  let n := Z.of_nat (List.length l) in
  let a' := clamp n a in
  let b' := clamp n b in
  firstn (Z.to_nat (b' - a')) (skipn (Z.to_nat a') l).

(** [l[i]]. *)
Definition index {A : Type} (l : list A) (i : Z) : result A :=
  let n := Z.of_nat (List.length l) in
  let j := if i <? 0 then i + n else i in
  if j <? 0 then Raise IndexError
  else match nth_error l (Z.to_nat j) with
       | Some a => Ok a
       | None => Raise IndexError
       end.

(** [l[:b]]. *)
Definition slice_to {A : Type} (l : list A) (b : Z) : list A := slice l 0 b.

(** Dictionaries keep insertion order; [d.update({k: v})] and
    [d[k] = v] overwrite in place or append. *)
Definition dict (V : Type) : Type := list (string * V).

Fixpoint setitem {V : Type} (d : dict V) (k : string) (v : V) : dict V :=
  match d with
  | [] => [(k, v)]
  | (k', v') :: d' =>
      if String.eqb k' k then (k, v) :: d' else (k', v') :: setitem d' k v
  end.

Fixpoint getitem {V : Type} (d : dict V) (k : string) : result V :=
  match d with
  | [] => Raise KeyError
  | (k', v') :: d' => if String.eqb k' k then Ok v' else getitem d' k
  end.

Definition keys {V : Type} (d : dict V) : list string := map fst d.

End Py.

(** ** Values stored in [self.all_models]

    The field holds the string [""] until [build_all_models] replaces it by
    the list of built models.  The partitioner only uses [len], [list] and
    slicing on it, which both kinds of value support. *)

Section Values.

Variable Model : Type.

#[warnings="-register-all"]
Inductive value : Type :=
| VModel (m : Model)
| VStr (s : string)
| VList (l : list value).

Definition py_len (v : value) : result Z :=
  match v with
  | VModel _ => Raise TypeError
  | VStr s => Ok (Z.of_nat (String.length s))
  | VList l => Ok (Z.of_nat (List.length l))
  end.

(** [list(v)]: the characters of a string, a copy of a list. *)
Definition py_list (v : value) : result (list value) :=
  match v with
  | VModel _ => Raise TypeError
  | VStr s =>
      Ok (map (fun c => VStr (String c EmptyString)) (list_ascii_of_string s))
  | VList l => Ok l
  end.

Definition py_getslice (v : value) (a b : Z) : result value :=
  match v with
  | VModel _ => Raise TypeError
  | VStr s =>
      Ok (VStr (string_of_list_ascii (Py.slice (list_ascii_of_string s) a b)))
  | VList l => Ok (VList (Py.slice l a b))
  end.

(** *** [partitions_split] *)

Definition partitions_split (all_models : value) (partition_length : Z)
  : result (list value) :=
  n <- py_len all_models ;;
  if n <=? partition_length then
    py_list all_models
  else
    k <- Py.ceil_div n partition_length ;;
    rmap (fun x => py_getslice all_models
                     (x * partition_length) ((x + 1) * partition_length))
         (Py.range k).

(** *** [dict_partitions] *)

Definition partition_key (n : Z) : string := "models" ++ Py.str n.

Definition dict_partitions (all_models : value) (partition_length : Z)
  : result (Py.dict value) :=
  n <- py_len all_models ;;
  if n <=? partition_length then
    ps <- partitions_split all_models partition_length ;;
    Ok [(partition_key partition_length, VList ps)]
  else
    ps <- partitions_split all_models partition_length ;;
    Ok (fold_left
          (fun all_partitions '(ind, partition) =>
             Py.setitem all_partitions
               (partition_key ((ind + 1) * partition_length)) partition)
          (Py.enumerate ps) []).

(** *** [get_partition_number]

    The dictionary is rebuilt with the default partition length. *)

Definition default_partition_length : Z := 60.

Definition key_number (key : string) : result Z :=
  match nth_error (Py.split "s" key) 1 with
  | Some part => Py.int part
  | None => Raise IndexError
  end.

Definition get_partition_number (all_models : value) : result (list Z) :=
  d <- dict_partitions all_models default_partition_length ;;
  rmap key_number (Py.keys d).

End Values.

Arguments VModel {Model} m.
Arguments VStr {Model} s.
Arguments VList {Model} l.

(** ** The parts of pandas the reporter uses

    A [DataFrame] is a column store: a number of rows and, per column name,
    that many cells, in column order. *)

Section Pandas.

Variable Metric : Type.

Inductive cell : Type :=
| CInt (z : Z)
| CVal (v : Metric)
| CNaN.

Record DataFrame : Type := mkDataFrame {
  nrows : nat;
  columns : list (string * list cell)
}.

(** [pd.DataFrame()] and [pd.DataFrame(columns=names)]. *)
Definition df_empty : DataFrame := mkDataFrame 0 [].

Definition df_with_columns (names : list string) : DataFrame :=
  mkDataFrame 0 (map (fun k => (k, [])) names).

(** [df[key] = values] for a list or array: on a frame without rows a
    non-empty value first gives the frame its rows (the columns already
    there are filled with NaN); otherwise the lengths must agree. *)
Definition df_setitem (df : DataFrame) (key : string) (values : list cell)
  : result DataFrame :=
  let n := List.length values in
  if andb (Nat.eqb (nrows df) 0) (negb (Nat.eqb n 0)) then
    Ok (mkDataFrame n
          (Py.setitem (map (fun '(k, _) => (k, repeat CNaN n)) (columns df))
                      key values))
  else if Nat.eqb n (nrows df) then
    Ok (mkDataFrame (nrows df) (Py.setitem (columns df) key values))
  else Raise ValueError.

(** [df[key] = scalar]. *)
Definition df_setitem_scalar (df : DataFrame) (key : string) (c : cell)
  : DataFrame :=
  mkDataFrame (nrows df) (Py.setitem (columns df) key (repeat c (nrows df))).

Definition column_or_nan (df : DataFrame) (key : string) : list cell :=
  match Py.getitem (columns df) key with
  | Ok col => col
  | Raise _ => repeat CNaN (nrows df)
  end.

Definition has_column (df : DataFrame) (key : string) : bool :=
  existsb (String.eqb key) (Py.keys (columns df)).

(** [df.append(other)]: the rows of [other] after those of [df], over the
    union of the columns (those of [df] first); a cell of a column a side
    does not have is NaN. *)
Definition df_append (df other : DataFrame) : DataFrame :=
  let names :=
    (Py.keys (columns df)
       ++ filter (fun k => negb (has_column df k)) (Py.keys (columns other)))%list in
  mkDataFrame (nrows df + nrows other)
    (map (fun k => (k, (column_or_nan df k ++ column_or_nan other k)%list)) names).

(** The rows of a frame, each as the cells of its columns by name. *)
Definition df_rows (df : DataFrame) : list (list (string * cell)) :=
  map (fun i => map (fun '(k, col) => (k, nth i col CNaN)) (columns df))
      (seq 0 (nrows df)).

(** [np.arange(a, b, 1)]. *)
Definition arange (a b : Z) : list Z :=
  map (fun i => a + Z.of_nat i) (seq 0 (Z.to_nat (b - a))).

(** *** [reporting]

    [history.history] maps a metric name to its per-epoch values. *)
Definition History : Type := Py.dict (list Metric).

Definition reporting (model : Z) (results : History) : result DataFrame :=
  let report := df_with_columns ["models"; "epochs"] in
  loss <- Py.getitem results "loss" ;;
  report <- df_setitem report "epochs"
              (map CInt (arange 1 (Z.of_nat (List.length loss) + 1))) ;;
  let report := df_setitem_scalar report "models" (CInt model) in
  fold_left
    (fun acc '(key, values) =>
       report <- acc ;;
       df_setitem report key (map CVal values))
    results (Ok report).

End Pandas.

Arguments CInt {Metric} z.
Arguments CNaN {Metric}.
Arguments df_empty {Metric}.
Arguments df_with_columns {Metric} names.

(** ** scikit-learn's [TimeSeriesSplit(n_splits).split(X)]

    With the default gap and sizes: the series of [n_samples] rows is cut in
    [n_splits + 1] blocks; fold [i] trains on everything before its test
    block and tests on the block.  A fold is the pair of the train indices
    and the test indices. *)

Definition cv_fold : Type := (list nat * list nat)%type.

Definition TimeSeriesSplit (n_splits : Z) (n_samples : nat) : result (list cv_fold) :=
  if n_splits <=? 1 then Raise ValueError
  else
    let n_folds := n_splits + 1 in
    if n_folds >? Z.of_nat n_samples then Raise ValueError
    else
      let test_size := (n_samples / Z.to_nat n_folds)%nat in
      let first := (n_samples - Z.to_nat n_splits * test_size)%nat in
      Ok (map (fun j =>
                 let test_start := (first + j * test_size)%nat in
                 (seq 0 test_start, seq test_start test_size))
              (seq 0 (Z.to_nat n_splits))).

(** ** Configuration ([parameters.CNN_params], [parameters.CNN_hyper_params])

    The [parameters] module is configuration; the class reads these fields
    of it.  [Rate] is the type of the learning rate. *)

Record CNN_params (Rate : Type) : Type := mkParams {
  folds : Z;
  epochs : Z;
  batch_size : Z;
  initial_learning_rate : Rate
}.

Record CNN_hyper_params : Type := mkHyperParams {
  filter_num1 : list Z;
  filter_num2 : list Z;
  num_of_dense : list Z;
  dense_len1 : list Z;
  dense_len2 : list Z
}.

(** One row of the array of combinations: [combin[0]] to [combin[4]]. *)
Definition combination : Type := (Z * Z * Z * Z * Z)%type.

(** [itertools.product] of five ranges, the first one outermost. *)
Definition product5 (r1 r2 r3 r4 r5 : list Z) : list combination :=
  flat_map (fun a =>
  flat_map (fun b =>
  flat_map (fun c =>
  flat_map (fun d =>
  map (fun e => (a, b, c, d, e)) r5) r4) r3) r2) r1.

(** ** The architecture built by the factory

    Keras is a collaborator of the class.  Of a layer the embedding keeps
    the arguments the factory passes; of a model it keeps the layers added
    and the shape of its output.  Keras checks the arguments of a layer
    when the layer is constructed and the shapes when the layer is added to
    a model whose input shape is known; both checks raise ValueError.
    Shapes are written without the batch dimension. *)

Section Factory.

(** [Init] is the type of the initialiser object handed to the factory. *)
Variables Init Rate : Type.

Inductive layer : Type :=
| Conv1D (filters kernel_size strides : Z) (padding : string)
         (use_bias : bool) (input_shape : option (list Z))
         (kernel_initializer bias_initializer : Init)
| PReLU (alpha_initializer : Init)
| MaxPool1D
| Flatten
| Dense (units : Z) (use_bias : bool)
        (kernel_initializer bias_initializer : Init).

(** The input shape a layer declares ([input_shape=...]). *)
Definition layer_input_shape (l : layer) : option (list Z) :=
  match l with
  | Conv1D _ _ _ _ _ shape _ _ => shape
  | _ => None
  end.

Record compile_config : Type := mkCompile {
  optimizer_learning_rate : Rate;   (* Adam *)
  loss : string;
  metrics : list string
}.

(** [models.Sequential()] after a number of [add] calls and, possibly,
    [compile].  [output_shape] is the shape of the output of the last
    layer, known once the first layer has declared its input shape. *)
Record Sequential : Type := mkSequential {
  layers : list layer;
  output_shape : option (list Z);
  compiled : option compile_config
}.

(** The checks of the layer constructors: a count of filters or units, a
    kernel size or a stride that is not positive is refused, and so is a
    padding other than "valid", "same" and "causal". *)
Definition check_arguments (l : layer) : result unit :=
  match l with
  | Conv1D filters kernel_size strides padding _ _ _ _ =>
      if (filters <=? 0) || (kernel_size <=? 0) || (strides <=? 0)
         || negb (existsb (String.eqb padding) ["valid"; "same"; "causal"])
      then Raise ValueError
      else Ok tt
  | Dense units _ _ _ => if units <=? 0 then Raise ValueError else Ok tt
  | PReLU _ | MaxPool1D | Flatten => Ok tt
  end.

(** The shape of the output of a layer called on an input of shape
    [input].  A convolution and a pooling take (steps, channels); the
    pooling has the default window and stride of 2 and no padding, so it
    needs two steps at least. *)
Definition compute_output_shape (l : layer) (input : list Z)
  : result (list Z) :=
  match l with
  | Conv1D filters kernel_size strides padding _ _ _ _ =>
      match input with
      | [steps; channels] =>
          let length :=
            if String.eqb padding "valid" then steps - kernel_size + 1
            else steps in
          let length := (length + strides - 1) / strides in
          if (channels <=? 0) || (length <=? 0) then Raise ValueError
          else Ok [length; filters]
      | _ => Raise ValueError
      end
  | PReLU _ => Ok input
  | MaxPool1D =>
      match input with
      | [steps; channels] =>
          if steps <? 2 then Raise ValueError
          else Ok [(steps - 2) / 2 + 1; channels]
      | _ => Raise ValueError
      end
  | Flatten => Ok [fold_right Z.mul 1 input]
  | Dense units _ _ _ =>
      match input with
      | [] => Raise ValueError
      | _ => Ok (removelast input ++ [units])%list
      end
  end.

(** [model.add(layer)], the layer being constructed in the call.  The
    first layer is called on the input shape it declares, a later one on
    the output of the model; a model whose first layer declares no shape
    is not built yet and takes any layer. *)
Definition add (model : Sequential) (l : layer) : result Sequential :=
  _ <- check_arguments l ;;
  let input :=
    match layers model with
    | [] => layer_input_shape l
    | _ => output_shape model
    end in
  match input with
  | Some shape =>
      shape <- compute_output_shape l shape ;;
      Ok (mkSequential (layers model ++ [l])%list (Some shape)
            (compiled model))
  | None =>
      Ok (mkSequential (layers model ++ [l])%list None (compiled model))
  end.

Definition compile (model : Sequential) (c : compile_config) : Sequential :=
  mkSequential (layers model) (output_shape model) (Some c).

(** *** [model_builder]

    [data_shape] is [self.data.shape]; [floor(filter_size / 2)] is the
    integer quotient. *)
Definition model_builder (data_shape : list Z) (params : CNN_params Rate)
    (conv1_filter_num conv2_filter_num num_of_dense dense1_length
       dense2_length : Z)
    (init_method : Init) (filter_size : Z) : result Sequential :=
  let model := mkSequential [] None None in
  model <- add model (Conv1D conv1_filter_num filter_size 1 "same" true
                        (Some (tl data_shape)) init_method init_method) ;;
  model <- add model (PReLU init_method) ;;
  model <- add model MaxPool1D ;;
  model <- add model (Conv1D conv2_filter_num (filter_size / 2) 1 "same"
                        true None init_method init_method) ;;
  model <- add model (PReLU init_method) ;;
  model <- add model MaxPool1D ;;
  model <- add model Flatten ;;
  model <-
    rfold
      (fun model i =>
         if i <? 1 then
           model <- add model (Dense dense1_length true
                                 init_method init_method) ;;
           add model (PReLU init_method)
         else
           model <- add model (Dense dense2_length true
                                 init_method init_method) ;;
           add model (PReLU init_method))
      model (Py.range num_of_dense) ;;
  model <- add model (Dense 1 true init_method init_method) ;;
  model <- add model (PReLU init_method) ;;
  Ok (compile model
        (mkCompile (initial_learning_rate params) "MAPE" ["MAE"; "RMSE"])).

Definition default_filter_size : Z := 5.

End Factory.

Arguments MaxPool1D {Init}.
Arguments Flatten {Init}.

(** ** The class [Model_Development] *)

Section ModelDevelopment.

(** The collaborators: [Model] is the state of a trainable Keras model,
    [Sample] and [Target] are the rows of the training series and of the
    targets, [Metric] the per-epoch values of a history. *)
Variables Model Sample Target Metric Callback Init Rate : Type.

Record fit_args : Type := mkFitArgs {
  fit_x : list Sample;
  fit_y : list Target;
  fit_verbose : Z;
  fit_epochs : Z;
  fit_batch_size : Z;
  fit_shuffle : bool;
  fit_validation_data : list Sample * list Target;
  fit_callbacks : list Callback
}.

(** [model.fit(...)] trains the model in place and returns its history,
    or raises.  [new_model] is Keras allocating the weights of a compiled
    architecture. *)
Variable fit : Model -> fit_args -> result (Model * History Metric).
Variable new_model : Sequential Init Rate -> Model.

(** The fields of an instance; [data_shape] is [self.data.shape], the only
    part of the input array the class reads. *)
Record Model_Development : Type := mkModelDevelopment {
  data_shape : list Z;
  params : CNN_params Rate;
  hyper_params : CNN_hyper_params;
  mode : string;
  all_models : value Model
}.

(** *** [__init__] *)
Definition __init__ (input_data_shape : list Z) (model_params : CNN_params Rate)
    (model_hp_params : CNN_hyper_params) (running_mode : string)
  : result Model_Development :=
  if negb (String.eqb running_mode "test" || String.eqb running_mode "full")
  then Raise ValueError
  else Ok (mkModelDevelopment input_data_shape model_params model_hp_params
             running_mode (VStr "")).

(** *** [all_combinations]

    [None] is Python's [None], returned when neither branch is taken.  The
    warning logged in test mode is left out.  The rows of the numpy array
    are kept as tuples of integers: numpy stores the tuples as they are
    when the values of the ranges are 64-bit integers. *)
Definition all_combinations (self : Model_Development)
  : result (option (list combination)) :=
  let combinations :=
    product5 (filter_num1 (hyper_params self)) (filter_num2 (hyper_params self))
             (num_of_dense (hyper_params self)) (dense_len1 (hyper_params self))
             (dense_len2 (hyper_params self)) in
  if String.eqb (mode self) "full" then Ok (Some combinations)
  else if String.eqb (mode self) "test" then
    Ok (Some (Py.slice_to combinations 10))
  else Ok None.

(** *** [build_all_models]

    The models are built in the order of the combinations; the first
    combination the factory refuses ends the call, and [self.all_models]
    is assigned only after all of them are built. *)
Definition build_all_models (self : Model_Development) (initialisation : Init)
  : result Model_Development :=
  combinations <- all_combinations self ;;
  match combinations with
  | None => Raise TypeError
  | Some combinations =>
      models <-
        rmap (fun combin : combination =>
                let '(c0, c1, c2, c3, c4) := combin in
                model <- model_builder (data_shape self) (params self)
                           c0 c1 c2 c3 c4 initialisation
                           default_filter_size ;;
                Ok (VModel (new_model model)))
             combinations ;;
      Ok (mkModelDevelopment (data_shape self) (params self)
            (hyper_params self) (mode self) (VList models))
  end.

(** *** The world the orchestration acts on

    The files below the working directory by path, and the trace of the
    calls made to the collaborators. *)
Inductive node : Type :=
| Directory
| CsvFile (df : DataFrame Metric)
| H5File (m : Model)
| OtherFile.

Inductive event : Type :=
| EPrint (s : string)
| EMkdir (path : string)
| EFit (m : Model) (a : fit_args)
| ESave (path : string) (m : Model)
| ECsv (path : string) (df : DataFrame Metric).

Record world : Type := mkWorld {
  fs : Py.dict node;
  events : list event
}.

(** State and exceptions: what was done before a raise stays done. *)
Definition M (A : Type) : Type := world -> result A * world.

Definition ret {A : Type} (a : A) : M A := fun w => (Ok a, w).

Definition bind {A B : Type} (m : M A) (k : A -> M B) : M B :=
  fun w =>
    match m w with
    | (Ok a, w') => k a w'
    | (Raise e, w') => (Raise e, w')
    end.

Definition lift {A : Type} (r : result A) : M A := fun w => (r, w).

Definition emit (e : event) : M unit :=
  fun w => (Ok tt, mkWorld (fs w) (events w ++ [e])%list).

Fixpoint mfold {A S : Type} (body : S -> A -> M S) (s : S) (l : list A) : M S :=
  match l with
  | [] => ret s
  | a :: l' => bind (body s a) (fun s' => mfold body s' l')
  end.

(** [os.listdir()]: the names directly in the working directory. *)
Definition is_top_level (path : string) : bool :=
  negb (existsb (Ascii.eqb "/") (list_ascii_of_string path)).

Definition listdir : M (list string) :=
  fun w => (Ok (filter is_top_level (Py.keys (fs w))), w).

Definition print (s : string) : M unit := emit (EPrint s).

(** [os.mkdir(path)]. *)
Definition mkdir (path : string) : M unit :=
  fun w =>
    if existsb (String.eqb path) (Py.keys (fs w)) then (Raise FileExistsError, w)
    else (Ok tt, mkWorld (Py.setitem (fs w) path Directory)
                   (events w ++ [EMkdir path])%list).

(** [tf.keras.models.save_model(model, filepath)], overwriting.  Every
    call in the class is preceded by the [mkdir] of the directory of
    [filepath]. *)
Definition save_model (model : Model) (filepath : string) : M unit :=
  fun w => (Ok tt, mkWorld (Py.setitem (fs w) filepath (H5File model))
                     (events w ++ [ESave filepath model])%list).

(** [df.to_csv(path, index=False)]. *)
Definition to_csv (df : DataFrame Metric) (path : string) : M unit :=
  fun w => (Ok tt, mkWorld (Py.setitem (fs w) path (CsvFile df))
                     (events w ++ [ECsv path df])%list).

Definition call_fit (model : Model) (a : fit_args) : M (Model * History Metric) :=
  bind (emit (EFit model a)) (fun _ => lift (fit model a)).

Declare Scope world_scope.
Notation "x <-- m ;; k" := (bind m (fun x => k))
  (at level 100, m at next level, right associativity) : world_scope.
Notation "m ;;; k" := (bind m (fun _ => k))
  (at level 100, right associativity) : world_scope.
Local Open Scope world_scope.

(** *** [existence_check] *)
Definition existence_check (item : string) : M bool :=
  let file_name := Py.replace item "models" "report" in
  files <-- listdir ;;
  ret (existsb (fun file => Py.startswith file file_name) files).

(** *** The cross-validation loops

    [auto_grid_cv] and [manual_grid_cv] contain the same two nested loops,
    over the models of a partition and over the folds; the only difference
    is the name of the partition number.  [history] and [report] are the
    local variables of the enclosing function, [None] for a variable that
    is not bound yet.  [tqdm] only decorates the iteration. *)

Section Training.

Variable self : Model_Development.
Variable training_data : list Sample.
Variable targets : list Target.
Variable callback_list : list Callback.
Variable series_cv : list cv_fold.

(** The arguments of the [fit] call for one fold. *)
Definition fold_fit_args (f : cv_fold) : fit_args :=
  mkFitArgs
    (Py.slice_to training_data (Z.of_nat (List.length (fst f))))
    (Py.slice_to targets (Z.of_nat (List.length (fst f))))
    0 (epochs (params self)) (batch_size (params self)) false
    (Py.slice_to training_data (Z.of_nat (List.length (snd f))),
     Py.slice_to targets (Z.of_nat (List.length (snd f))))
    callback_list.

(** [for i in range(len(series_cv)): history = model.fit(...)]. *)
Definition fit_folds (model : value Model) (history : option (History Metric))
  : M (value Model * option (History Metric)) :=
  mfold
    (fun '(model, history) i =>
       match model with
       | VModel m =>
           f <-- lift (Py.index series_cv i) ;;
           r <-- call_fit m (fold_fit_args f) ;;
           ret (VModel (fst r), Some (snd r))
       | _ => lift (Raise AttributeError)
       end)
    (model, history)
    (Py.range (Z.of_nat (List.length series_cv))).

Definition saved_models_dir (partition_num : Z) (now : string) : string :=
  "saved_models" ++ Py.str partition_num ++ "_" ++ now.

Definition report_path (partition_num : Z) (now : string) : string :=
  "report" ++ Py.str partition_num ++ "_" ++ now ++ ".csv".

Definition model_file (partition_num : Z) (now : string) (index : Z)
  : string :=
  saved_models_dir partition_num now ++ "/"
    ++ "model_" ++ Py.str index ++ ".h5".

(** The body of [for ind, model in enumerate(tqdm(partition))]: the
    folds, the report of the model, the saved file. *)
Definition train_models_body (partition_num : Z) (now : string)
    (locals : DataFrame Metric * option (History Metric))
    (item : Z * value Model)
  : M (DataFrame Metric * option (History Metric)) :=
  let '(report, history) := locals in
  let '(ind, model) := item in
  trained <-- fit_folds model history ;;
  let '(model, history) := trained in
  h <-- lift (match history with
              | Some h => Ok h
              | None => Raise NameError
              end) ;;
  r <-- lift (reporting (ind + partition_num - 60) h) ;;
  let report := df_append report r in
  m <-- lift (match model with
              | VModel m => Ok m
              | _ => Raise AttributeError
              end) ;;
  save_model m (model_file partition_num now (ind + partition_num - 60)) ;;;
  ret (report, history).

Definition train_models (partition_num : Z) (now : string)
    (partition : list (value Model))
    (report : DataFrame Metric) (history : option (History Metric))
  : M (DataFrame Metric * option (History Metric)) :=
  mfold (train_models_body partition_num now) (report, history)
        (Py.enumerate partition).

(** The body of [for part in partitions] in [auto_grid_cv]; the loop
    carries [numb_ind], [report] and [history]. *)
Definition auto_grid_cv_body (partitions : Py.dict (value Model))
    (partition_numb : list Z) (now : string)
    (locals : Z * DataFrame Metric * option (History Metric))
    (part : string)
  : M (Z * DataFrame Metric * option (History Metric)) :=
  let '(numb_ind, report, history) := locals in
  let numb_ind := numb_ind + 1 in
  found <-- existence_check part ;;
  if found : bool then
    print "Report already exists" ;;;
    ret (numb_ind, report, history)
  else
    print "New report" ;;;
    partition_num <-- lift (Py.index partition_numb numb_ind) ;;
    mkdir (saved_models_dir partition_num now) ;;;
    batch <-- lift (Py.getitem partitions part) ;;
    models <-- lift (py_list batch) ;;
    trained <-- train_models partition_num now models report history ;;
    let '(report, history) := trained in
    to_csv report (report_path partition_num now) ;;;
    ret (numb_ind, report, history).

End Training.

(** *** [auto_grid_cv]

    [now] is the formatted time of the call. *)
Definition auto_grid_cv (self : Model_Development)
    (training_data : list Sample) (targets : list Target)
    (callback_list : list Callback) (now : string) : M unit :=
  partitions <-- lift (dict_partitions (all_models self)
                         default_partition_length) ;;
  partition_numb <-- lift (get_partition_number (all_models self)) ;;
  let numb_ind := -1 in
  let report := df_empty in
  series_cv <-- lift (TimeSeriesSplit (folds (params self))
                        (List.length training_data)) ;;
  mfold (auto_grid_cv_body self training_data targets callback_list
           series_cv partitions partition_numb now)
        (numb_ind, report, None) (Py.keys partitions) ;;;
  ret tt.

(** *** [manual_grid_cv]

    The call reseeds TensorFlow's global generator first; [fit] is a
    function of the model and of its arguments here. *)
Definition manual_grid_cv (self : Model_Development)
    (partition : value Model) (partition_num : Z)
    (training_data : list Sample) (targets : list Target)
    (callback_list : list Callback) (now : string) : M unit :=
  mkdir (saved_models_dir partition_num now) ;;;
  let report := df_empty in
  series_cv <-- lift (TimeSeriesSplit (folds (params self))
                        (List.length training_data)) ;;
  models <-- lift (py_list partition) ;;
  trained <-- train_models self training_data targets callback_list
                series_cv partition_num now models report None ;;
  to_csv (fst trained) (report_path partition_num now).

End ModelDevelopment.

Arguments __init__ {Model Rate} input_data_shape model_params model_hp_params
  running_mode.
Arguments Directory {Model Metric}.
Arguments OtherFile {Model Metric}.
Arguments CsvFile {Model Metric} df.
Arguments H5File {Model Metric} m.
Arguments EPrint {Model Sample Target Metric Callback} s.
Arguments EMkdir {Model Sample Target Metric Callback} path.
Arguments EFit {Model Sample Target Metric Callback} m a.
Arguments ESave {Model Sample Target Metric Callback} path m.
Arguments ECsv {Model Sample Target Metric Callback} path df.

(** ** A small concrete setting

    Used to run the embedding: a model is a tag plus the number of [fit]
    calls it has gone through, samples, targets and metric values are
    integers, and a [fit] call reports, as its one-metric history, the
    sizes of the training and validation data it was given. *)

Module Concrete.

Definition Model : Type := Z.

Definition fit (m : Model) (a : fit_args Z Z unit)
  : result (Model * History Z) :=
  Ok (m + 1,
      [("loss", [Z.of_nat (List.length (fit_x a));
                 Z.of_nat (List.length (fst (fit_validation_data a)))])]).

Definition the_params : CNN_params unit := mkParams 2 1 32 tt.

Definition an_empty_range : CNN_hyper_params := mkHyperParams [] [2] [1] [16] [16].

(** An instance holding [n] built models, tagged 0, 100, 200, ... *)
Definition instance (n : nat) : Model_Development Model unit :=
  mkModelDevelopment [6; 8; 1] the_params an_empty_range "full"
    (VList (map (fun i => VModel (Z.of_nat i * 100)) (seq 0 n))).

Definition series : list Z := [10; 11; 12; 13; 14; 15].
Definition series_targets : list Z := [0; 1; 2; 3; 4; 5].

Definition empty_world : world Model Z Z Z unit := mkWorld [] [].

(** The folds scikit-learn makes of six samples with two splits. *)
Definition two_folds : list cv_fold :=
  [([0; 1], [2; 3]); ([0; 1; 2; 3], [4; 5])]%nat.

(** The arguments and the validation data of the [fit] calls of a trace. *)
Definition fit_calls (evs : list (event Model Z Z Z unit))
  : list (fit_args Z Z unit) :=
  flat_map (fun e => match e with EFit _ a => [a] | _ => [] end) evs.

End Concrete.

(** ** Notions used to state the properties *)

(** Strings made of decimal digits and the minus sign only. *)
Definition is_numeric_char (c : ascii) : bool :=
  existsb (Ascii.eqb c) (list_ascii_of_string "-0123456789").

Fixpoint numeric (s : string) : bool :=
  match s with
  | EmptyString => true
  | String c s' => is_numeric_char c && numeric s'
  end.

(** A list of models as the value [build_all_models] stores. *)
Definition models_value {Model : Type} (ms : list Model) : value Model :=
  VList (map VModel ms).

(** The batch starting at position [x * n] of [ms], of at most [n] items. *)
Definition chunk {A : Type} (n : nat) (ms : list A) (x : nat) : list A :=
  firstn n (skipn (x * n) ms).

(** One dense block of the factory: a dense layer and its activation. *)
Definition dense_block {Init : Type} (init_method : Init) (units : Z)
  : list (layer Init) :=
  [Dense units true init_method init_method; PReLU init_method].

(** The data and the combinations the factory accepts: data of at least
    four time steps and one channel, positive filter counts, a filter size
    whose half is a kernel size, and a positive width for every dense
    block there is. *)
Definition buildable (data_shape : list Z)
    (conv1_filter_num conv2_filter_num num_of_dense dense1_length
       dense2_length filter_size : Z) : bool :=
  match tl data_shape with
  | [steps; channels] =>
      (4 <=? steps) && (1 <=? channels)
      && (1 <=? conv1_filter_num) && (1 <=? conv2_filter_num)
      && (2 <=? filter_size)
      && ((num_of_dense <? 1) || (1 <=? dense1_length))
      && ((num_of_dense <? 2) || (1 <=? dense2_length))
  | _ => false
  end.

(** At least one of the five hyperparameter ranges is empty. *)
Definition has_empty_range (hp : CNN_hyper_params) : Prop :=
  filter_num1 hp = [] \/ filter_num2 hp = [] \/ num_of_dense hp = []
  \/ dense_len1 hp = [] \/ dense_len2 hp = [].

(** The rows of a series at the given positions ([series[indices]]). *)
Definition take_indices {A : Type} (series : list A) (indices : list nat)
  : list A :=
  flat_map (fun i => match nth_error series i with
                     | Some a => [a]
                     | None => []
                     end) indices.

Section Chains.

Variables Model Sample Target Metric Callback : Type.
Variable fit :
  Model -> fit_args Sample Target Callback -> result (Model * History Metric).

(** Successive [fit] calls on one model, one per argument record, each on
    the model as the previous call left it: the list of the results. *)
Fixpoint run_chain (m : Model) (args : list (fit_args Sample Target Callback))
  : result (list (Model * History Metric)) :=
  match args with
  | [] => Ok []
  | a :: args' =>
      r <- fit m a ;;
      rs <- run_chain (fst r) args' ;;
      Ok (r :: rs)
  end.

(** The trace of these calls. *)
Fixpoint fit_events (m : Model) (args : list (fit_args Sample Target Callback))
    (steps : list (Model * History Metric))
  : list (event Model Sample Target Metric Callback) :=
  match args, steps with
  | a :: args', s :: steps' => EFit m a :: fit_events (fst s) args' steps'
  | _, _ => []
  end.

(** The files written by [save_model] in a trace, with the model saved. *)
Definition saved (evs : list (event Model Sample Target Metric Callback))
  : list (string * Model) :=
  flat_map (fun e => match e with
                     | ESave path m => [(path, m)]
                     | _ => []
                     end) evs.

(** The model and the bound history after the calls. *)
Definition final_model (m : Model) (steps : list (Model * History Metric))
  : Model :=
  last (map fst steps) m.

Definition final_history (h : option (History Metric))
    (steps : list (Model * History Metric)) : option (History Metric) :=
  last (map (fun s => Some (snd s)) steps) h.

End Chains.

(** ** Notions for the further properties *)

(** The configuration of the end-to-end scenario: two combinations, on
    six samples of eight time steps and one channel. *)
Module Scenario.

Definition ranges : CNN_hyper_params := mkHyperParams [4; 8] [2] [1] [16] [16].

Definition instance (running_mode : string) : Model_Development Z unit :=
  mkModelDevelopment [6; 8; 1] Concrete.the_params ranges running_mode
    (VStr "").

End Scenario.

(** Ranges of 64-bit integers, which the array of combinations stores as
    they are. *)
Definition int64 (v : Z) : Prop := - 2 ^ 63 <= v < 2 ^ 63.

Definition int64_ranges (hp : CNN_hyper_params) : Prop :=
  Forall int64 (filter_num1 hp) /\ Forall int64 (filter_num2 hp)
  /\ Forall int64 (num_of_dense hp) /\ Forall int64 (dense_len1 hp)
  /\ Forall int64 (dense_len2 hp).

(** A combination the factory accepts on data of the given shape, with
    the default filter size. *)
Definition buildable_combination (data_shape : list Z) (combin : combination)
  : bool :=
  let '(c0, c1, c2, c3, c4) := combin in
  buildable data_shape c0 c1 c2 c3 c4 default_filter_size.

(** The number of combinations of five ranges. *)
Definition product_size (hp : CNN_hyper_params) : nat :=
  (List.length (filter_num1 hp) * List.length (filter_num2 hp)
   * List.length (num_of_dense hp) * List.length (dense_len1 hp)
   * List.length (dense_len2 hp))%nat.

(** The initialisers a layer is built with. *)
Definition layer_initializers {Init : Type} (l : layer Init) : list Init :=
  match l with
  | Conv1D _ _ _ _ _ _ k b => [k; b]
  | PReLU a => [a]
  | Dense _ _ k b => [k; b]
  | MaxPool1D | Flatten => []
  end.

Section Observations.

Variables Model Sample Target Metric Callback : Type.

(** The report files written in a trace. *)
Definition csv_written (evs : list (event Model Sample Target Metric Callback))
  : list string :=
  flat_map (fun e => match e with
                     | ECsv path _ => [path]
                     | _ => []
                     end) evs.

(** The [fit] calls of a trace. *)
Definition fits (evs : list (event Model Sample Target Metric Callback))
  : list (Model * fit_args Sample Target Callback) :=
  flat_map (fun e => match e with
                     | EFit m a => [(m, a)]
                     | _ => []
                     end) evs.

(** The directories made in a trace. *)
Definition dirs_made (evs : list (event Model Sample Target Metric Callback))
  : list string :=
  flat_map (fun e => match e with
                     | EMkdir path => [path]
                     | _ => []
                     end) evs.

(** The names of the working directory that start with "report": what the
    resume guard looks at. *)
Definition report_names (w : world Model Sample Target Metric Callback)
  : list string :=
  filter (String.prefix "report") (filter is_top_level (Py.keys (fs w))).

(** The guard's condition for the batch key [K]. *)
Definition reported (K : Z) (w : world Model Sample Target Metric Callback)
  : Prop :=
  exists file, In file (Py.keys (fs w)) /\ is_top_level file = true
               /\ String.prefix ("report" ++ Py.str K) file = true.

(** The trace of [w'] continues the trace of [w]. *)
Definition extends (w w' : world Model Sample Target Metric Callback) : Prop :=
  exists evs, events w' = (events w ++ evs)%list.

(** No path of [w] is missing in [w']. *)
Definition grows (w w' : world Model Sample Target Metric Callback) : Prop :=
  forall path, In path (Py.keys (fs w)) -> In path (Py.keys (fs w')).

(** Between [w] and [w'] no path went missing, the names the guard looks at
    are the same and no report was written. *)
Definition no_report_change (w w' : world Model Sample Target Metric Callback)
  : Prop :=
  grows w w'
  /\ report_names w' = report_names w
  /\ csv_written (events w') = csv_written (events w).

(** A relation between the worlds before and after that a computation
    keeps, whatever its outcome. *)
Definition preserves (R : world Model Sample Target Metric Callback
                          -> world Model Sample Target Metric Callback -> Prop)
    {A : Type} (c : M Model Sample Target Metric Callback A) : Prop :=
  forall w, R w (snd (c w)).

End Observations.

(** * Properties *)

(** ** Facts about the Python primitives *)

Lemma rmap_ok {A B : Type} (f : A -> B) (l : list A) :
  rmap (fun a => Ok (f a)) l = Ok (map f l).
Proof.
  induction l as [|a l IH]; simpl; [reflexivity|].
  rewrite IH. reflexivity.
Qed.

Lemma rmap_ext {A B : Type} (f g : A -> result B) (l : list A) :
  (forall a, In a l -> f a = g a) -> rmap f l = rmap g l.
Proof.
  induction l as [|a l IH]; simpl; intros H; [reflexivity|].
  rewrite (H a) by auto. rewrite IH by auto. reflexivity.
Qed.

Lemma numeric_uint (d : uint) : numeric (NilEmpty.string_of_uint d) = true.
Proof. induction d; simpl; auto. Qed.

Lemma numeric_str (n : Z) : numeric (Py.str n) = true.
Proof.
  unfold Py.str, NilZero.string_of_int, NilZero.string_of_uint.
  destruct (Z.to_int n) as [d|d]; destruct d; simpl; auto using numeric_uint.
Qed.

Lemma to_int_not_nil (n : Z) : Z.to_int n <> Pos Nil /\ Z.to_int n <> Neg Nil.
Proof.
  destruct n; simpl; split; try discriminate;
    intros [= H]; revert H; apply DecimalPos.Unsigned.to_uint_nonnil.
Qed.

Lemma int_numeric (s : string) :
  numeric s = true ->
  Py.int s =
    match NilZero.int_of_string s with
    | Some d => Ok (Z.of_int d)
    | None => Raise ValueError
    end.
Proof.
  unfold Py.int. destruct s as [|c s]; [reflexivity|].
  simpl numeric. intros H. apply andb_prop in H. destruct H as [Hc _].
  destruct c as [[|] [|] [|] [|] [|] [|] [|] [|]]; try reflexivity;
    discriminate Hc.
Qed.

(** [int(str(n)) == n]. *)
Lemma int_str (n : Z) : Py.int (Py.str n) = Ok n.
Proof.
  rewrite int_numeric by apply numeric_str.
  unfold Py.str. destruct (to_int_not_nil n) as [H1 H2].
  rewrite NilZero.isi by assumption.
  rewrite DecimalZ.of_to. reflexivity.
Qed.

Lemma str_inj (a b : Z) : Py.str a = Py.str b -> a = b.
Proof.
  intros H. assert (E : Py.int (Py.str a) = Py.int (Py.str b)) by (rewrite H; reflexivity).
  rewrite !int_str in E. congruence.
Qed.

Lemma split_numeric (s : string) :
  numeric s = true -> Py.split "s" s = [s].
Proof.
  induction s as [|c s IH]; simpl; [reflexivity|].
  intros H. apply andb_prop in H. destruct H as [Hc Hs].
  rewrite (IH Hs).
  destruct c as [[|] [|] [|] [|] [|] [|] [|] [|]]; try reflexivity;
    discriminate Hc.
Qed.

Lemma replace_numeric (s : string) :
  numeric s = true -> Py.replace_from "models" "report" s 0 = s.
Proof.
  induction s as [|c s IH]; simpl; [reflexivity|].
  intros H. apply andb_prop in H. destruct H as [Hc Hs].
  rewrite (IH Hs).
  destruct c as [[|] [|] [|] [|] [|] [|] [|] [|]]; try reflexivity;
    discriminate Hc.
Qed.

(** The number of a partition key is read back from the key. *)
Lemma key_number_partition_key (n : Z) : key_number (partition_key n) = Ok n.
Proof.
  unfold key_number, partition_key.
  assert (E : Py.split "s" ("models" ++ Py.str n) = ["model"; Py.str n]).
  { simpl. rewrite split_numeric by apply numeric_str. reflexivity. }
  rewrite E. simpl. apply int_str.
Qed.

Lemma partition_key_inj (a b : Z) : partition_key a = partition_key b -> a = b.
Proof.
  intros H.
  assert (E : key_number (partition_key a) = key_number (partition_key b))
    by (rewrite H; reflexivity).
  rewrite !key_number_partition_key in E. congruence.
Qed.

(** The report prefix of a partition key. *)
Lemma replace_partition_key (n : Z) :
  Py.replace (partition_key n) "models" "report" = "report" ++ Py.str n.
Proof.
  unfold Py.replace, partition_key. simpl.
  rewrite replace_numeric by apply numeric_str.
  destruct (Py.str n); reflexivity.
Qed.

(** ** The partitioner *)

Section Partitioner.

Context {Model : Type}.

Lemma firstn_plus {A : Type} (a b : nat) (l : list A) :
  firstn (a + b) l = (firstn a l ++ firstn b (skipn a l))%list.
Proof.
  revert l. induction a as [|a IH]; intros l; [reflexivity|].
  destruct l as [|y l]; simpl.
  - rewrite firstn_nil. reflexivity.
  - rewrite IH. reflexivity.
Qed.

Lemma chunk_length {A : Type} (p : nat) (l : list A) (x : nat) :
  List.length (chunk p l x) = Nat.min p (List.length l - x * p).
Proof. unfold chunk. rewrite length_firstn, length_skipn. reflexivity. Qed.

Lemma chunk_nth {A : Type} (p : nat) (l : list A) (x j : nat) :
  (j < p)%nat -> nth_error (chunk p l x) j = nth_error l (x * p + j).
Proof.
  intros H. unfold chunk. rewrite nth_error_firstn, nth_error_skipn.
  destruct (Nat.ltb_spec j p); [reflexivity | lia].
Qed.

Lemma chunk_map {A B : Type} (f : A -> B) (p : nat) (l : list A) (x : nat) :
  chunk p (map f l) x = map f (chunk p l x).
Proof. unfold chunk. rewrite skipn_map, firstn_map. reflexivity. Qed.

Lemma concat_chunks {A : Type} (p : nat) (l : list A) (k : nat) :
  List.concat (map (chunk p l) (seq 0 k)) = firstn (k * p) l.
Proof.
  induction k as [|k IH]; [reflexivity|].
  rewrite seq_S, map_app, concat_app, IH. simpl.
  rewrite app_nil_r. replace (p + k * p)%nat with (k * p + p)%nat by lia.
  rewrite firstn_plus. reflexivity.
Qed.

(** A slice [l[x*pl : (x+1)*pl]] with a positive [pl] is a chunk. *)
Lemma slice_chunk {A : Type} (l : list A) (pl : Z) (x : nat) :
  0 < pl ->
  Py.slice l (Z.of_nat x * pl) ((Z.of_nat x + 1) * pl)
  = chunk (Z.to_nat pl) l x.
Proof.
  intros Hpl. set (p := Z.to_nat pl).
  assert (Ep : pl = Z.of_nat p) by (unfold p; lia).
  rewrite Ep.
  replace (Z.of_nat x * Z.of_nat p) with (Z.of_nat (x * p)) by lia.
  replace ((Z.of_nat x + 1) * Z.of_nat p) with (Z.of_nat (x * p + p)) by lia.
  unfold Py.slice, Py.clamp, chunk.
  destruct (Z.ltb_spec (Z.of_nat (x * p)) 0); [lia|].
  destruct (Z.ltb_spec (Z.of_nat (x * p + p)) 0); [lia|].
  destruct (Nat.le_gt_cases (List.length l) (x * p)) as [Hge|Hlt].
  - replace (Z.to_nat (Z.min (Z.of_nat (x * p)) (Z.of_nat (List.length l))))
      with (List.length l) by lia.
    rewrite skipn_all. rewrite (skipn_all2 l Hge). rewrite !firstn_nil.
    reflexivity.
  - replace (Z.to_nat (Z.min (Z.of_nat (x * p)) (Z.of_nat (List.length l))))
      with (x * p)%nat by lia.
    destruct (Nat.le_gt_cases (x * p + p) (List.length l)) as [Hfull|Hlast].
    + f_equal. lia.
    + rewrite !firstn_all2; [reflexivity | |]; rewrite length_skipn; lia.
Qed.

(** The integer ceiling computed by [ceil(n / pl)]. *)
Lemma ceil_div_spec (n pl : Z) :
  0 < pl ->
  exists k, Py.ceil_div n pl = Ok k /\ (k - 1) * pl < n <= k * pl.
Proof.
  intros Hpl. unfold Py.ceil_div.
  destruct (Z.eqb_spec pl 0); [lia|].
  eexists; split; [reflexivity|].
  pose proof (Z.div_mod (- n) pl ltac:(lia)) as E.
  pose proof (Z.mod_pos_bound (- n) pl Hpl) as B.
  lia.
Qed.

(** What [partitions_split] computes on more models than a partition
    holds: the chunks, in order. *)
Lemma partitions_split_chunks (ms : list Model) (pl : Z) :
  0 < pl -> pl < Z.of_nat (List.length ms) ->
  exists k : nat,
    (Z.of_nat k - 1) * pl < Z.of_nat (List.length ms) <= Z.of_nat k * pl /\
    partitions_split (models_value ms) pl
    = Ok (map models_value (map (chunk (Z.to_nat pl) ms) (seq 0 k))).
Proof.
  intros Hpl Hbig.
  destruct (ceil_div_spec (Z.of_nat (List.length ms)) Hpl) as (k & Ek & Hk).
  exists (Z.to_nat k).
  assert (0 <= k) by nia.
  split; [rewrite Z2Nat.id by assumption; exact Hk|].
  unfold partitions_split, models_value. cbn [py_len rbind].
  rewrite length_map.
  destruct (Z.leb_spec (Z.of_nat (List.length ms)) pl); [lia|].
  rewrite Ek. cbn [rbind]. unfold Py.range.
  etransitivity.
  { apply (rmap_ok (fun x => VList (Py.slice (map VModel ms) (x * pl) ((x + 1) * pl)))). }
  f_equal. rewrite !map_map. apply map_ext. intros x.
  rewrite slice_chunk by assumption. rewrite chunk_map. reflexivity.
Qed.

Lemma partitions_split_small (ms : list Model) (pl : Z) :
  Z.of_nat (List.length ms) <= pl ->
  partitions_split (models_value ms) pl = Ok (map VModel ms).
Proof.
  intros Hsmall. unfold partitions_split, models_value. cbn [py_len rbind].
  rewrite length_map.
  destruct (Z.leb_spec (Z.of_nat (List.length ms)) pl); [reflexivity | lia].
Qed.

End Partitioner.

(** C1 (as amended).  For a stored list of models and a positive partition
    length: when the list has at most [partition_length] models,
    [partitions_split] returns the models themselves, as a flat list (it is
    [dict_partitions] that uses this list as the single batch); otherwise it
    returns ceil(len / partition_length) batches, each non-empty and of
    exactly [partition_length] models except possibly the last, batch [x]
    holding the models at positions [x * partition_length + j] in their
    original order, so that the batches are disjoint and their concatenation
    is the original list. *)
Theorem partitions_split_batches {Model : Type} (ms : list Model)
    (partition_length : Z) :
  0 < partition_length ->
  let p := Z.to_nat partition_length in
  (Z.of_nat (List.length ms) <= partition_length ->
   partitions_split (models_value ms) partition_length = Ok (map VModel ms))
  /\
  (partition_length < Z.of_nat (List.length ms) ->
   exists batches : list (list Model),
     partitions_split (models_value ms) partition_length
     = Ok (map models_value batches)
     /\ List.concat batches = ms
     /\ (Z.of_nat (List.length batches) - 1) * partition_length
          < Z.of_nat (List.length ms)
          <= Z.of_nat (List.length batches) * partition_length
     /\ (forall x b, nth_error batches x = Some b ->
           (1 <= List.length b <= p)%nat
           /\ (S x < List.length batches -> List.length b = p)%nat
           /\ (forall j, (j < List.length b)%nat ->
                 nth_error b j = nth_error ms (x * p + j)))
     /\ (forall x1 x2 b1 b2 j1 j2,
           nth_error batches x1 = Some b1 -> nth_error batches x2 = Some b2 ->
           (j1 < List.length b1)%nat -> (j2 < List.length b2)%nat ->
           (x1 * p + j1 = x2 * p + j2)%nat -> x1 = x2 /\ j1 = j2)).
Proof.
  intros Hpl p. split; [apply partitions_split_small|].
  intros Hbig.
  destruct (partitions_split_chunks ms Hpl Hbig) as (k & Hk & E).
  fold p in E.
  assert (Ep : partition_length = Z.of_nat p) by (unfold p; lia).
  assert (Hkp : ((k - 1) * p < List.length ms <= k * p)%nat) by nia.
  assert (Hp : (0 < p)%nat) by lia.
  assert (Hnth : forall x b,
             nth_error (map (chunk p ms) (seq 0 k)) x = Some b ->
             (x < k)%nat /\ b = chunk p ms x).
  { intros x b Hx. rewrite nth_error_map, nth_error_seq in Hx.
    destruct (Nat.ltb_spec x k); [|discriminate].
    simpl in Hx. split; [assumption | congruence]. }
  assert (Hlen : forall x, (x < k)%nat ->
             (1 <= List.length (chunk p ms x) <= p)%nat).
  { intros x Hx. rewrite chunk_length.
    assert (x * p <= (k - 1) * p)%nat by (apply Nat.mul_le_mono_r; lia).
    lia. }
  exists (map (chunk p ms) (seq 0 k)).
  split; [exact E|].
  split; [rewrite concat_chunks; apply firstn_all2; lia|].
  split; [rewrite length_map, length_seq; exact Hk|].
  split.
  - intros x b Hx. apply Hnth in Hx. destruct Hx as [Hx ->].
    split; [apply Hlen; assumption|]. split.
    + rewrite length_map, length_seq. intros Hnext. rewrite chunk_length.
      assert (S x * p <= (k - 1) * p)%nat by (apply Nat.mul_le_mono_r; lia).
      lia.
    + intros j Hj. apply chunk_nth. specialize (Hlen x Hx). lia.
  - intros x1 x2 b1 b2 j1 j2 H1 H2 Hj1 Hj2 Hpos.
    apply Hnth in H1. apply Hnth in H2.
    destruct H1 as [Hx1 ->]. destruct H2 as [Hx2 ->].
    specialize (Hlen x1 Hx1) as L1. specialize (Hlen x2 Hx2) as L2.
    assert (x1 = x2) by nia. subst x2. split; [reflexivity | lia].
Qed.

Lemma partitions_split_batches_witness :
  0 < 2 /\
  exists batches : list (list nat),
    partitions_split (models_value [7; 8; 9]%nat) 2
    = Ok (map models_value batches)
    /\ List.concat batches = [7; 8; 9]%nat.
Proof.
  split; [lia|].
  destruct (@partitions_split_batches nat [7; 8; 9]%nat 2 ltac:(lia))
    as [_ Hbig].
  destruct Hbig as (batches & E & Hcat & _); [simpl; lia|].
  exists batches. split; assumption.
Defined.

(** C1 as stated fails: with two models and the default partition length
    the result is the two models, not a one-element sequence holding a
    batch of two. *)
Lemma partitions_split_small_is_flat :
  partitions_split (models_value [7; 8]%nat) 60 = Ok [VModel 7%nat; VModel 8%nat]
  /\ partitions_split (models_value [7; 8]%nat) 60
     <> Ok [models_value [7; 8]%nat].
Proof. split; [reflexivity | discriminate]. Qed.

(** ** The partition dictionary *)

Section PartitionDictionary.

Context {Model : Type}.

Lemma setitem_fresh {V : Type} (d : Py.dict V) (k : string) (v : V) :
  ~ In k (Py.keys d) -> Py.setitem d k v = (d ++ [(k, v)])%list.
Proof.
  induction d as [|[k' v'] d IH]; simpl; intros Hk; [reflexivity|].
  destruct (String.eqb_spec k' k) as [->|Hne]; [tauto|].
  rewrite IH by tauto. reflexivity.
Qed.

Lemma fold_partition_keys (pl : Z) (l : list (Z * value Model))
    (acc : Py.dict (value Model)) :
  NoDup (Py.keys acc ++ map (fun a => partition_key ((fst a + 1) * pl)) l)%list ->
  fold_left
    (fun all_partitions '(ind, partition) =>
       Py.setitem all_partitions (partition_key ((ind + 1) * pl)) partition)
    l acc
  = (acc ++ map (fun '(ind, partition) =>
                   (partition_key ((ind + 1) * pl), partition)) l)%list.
Proof.
  revert acc. induction l as [|[ind partition] l IH]; intros acc Hnd; simpl.
  - rewrite app_nil_r. reflexivity.
  - simpl in Hnd. pose proof (NoDup_remove_2 _ _ _ Hnd) as Hfresh.
    rewrite setitem_fresh by (intros Hin; apply Hfresh, in_or_app; auto).
    rewrite IH.
    + rewrite <- app_assoc. reflexivity.
    + unfold Py.keys in *. rewrite map_app, <- app_assoc. exact Hnd.
Qed.

Lemma map_fst_combine {A B : Type} (l : list A) (l' : list B) :
  List.length l = List.length l' -> map fst (combine l l') = l.
Proof.
  revert l'. induction l as [|a l IH]; intros [|b l'] H; simpl in *;
    try discriminate; [reflexivity|].
  rewrite IH by congruence. reflexivity.
Qed.

Lemma range_length (k : nat) : List.length (Py.range (Z.of_nat k)) = k.
Proof. unfold Py.range. rewrite length_map, length_seq. lia. Qed.

Lemma enumerate_indices {A : Type} (l : list A) :
  map fst (Py.enumerate l) = Py.range (Z.of_nat (List.length l)).
Proof. unfold Py.enumerate. apply map_fst_combine, range_length. Qed.

Lemma enumerate_length {A : Type} (l : list A) :
  List.length (Py.enumerate l) = List.length l.
Proof.
  unfold Py.enumerate. rewrite length_combine, range_length. lia.
Qed.

Lemma partition_keys_nodup (pl : Z) (k : nat) :
  0 < pl ->
  NoDup (map (fun index => partition_key ((index + 1) * pl))
             (Py.range (Z.of_nat k))).
Proof.
  intros Hpl. unfold Py.range. rewrite Nat2Z.id, map_map.
  apply NoDup_map_NoDup_ForallPairs; [|apply seq_NoDup].
  intros i j _ _ E. apply partition_key_inj in E. nia.
Qed.

Lemma rmap_key_number (zs : list Z) :
  rmap key_number (map partition_key zs) = Ok zs.
Proof.
  induction zs as [|z zs IH]; simpl; [reflexivity|].
  rewrite key_number_partition_key, IH. reflexivity.
Qed.

(** The dictionary built from more models than a partition holds. *)
Lemma dict_partitions_large (ms : list Model) (pl : Z)
    (batches : list (list Model)) :
  0 < pl -> pl < Z.of_nat (List.length ms) ->
  partitions_split (models_value ms) pl = Ok (map models_value batches) ->
  dict_partitions (models_value ms) pl
  = Ok (map (fun '(index, b) =>
               (partition_key ((index + 1) * pl), models_value b))
            (Py.enumerate batches)).
Proof.
  intros Hpl Hbig E. unfold dict_partitions.
  unfold models_value at 1. cbn [py_len rbind]. rewrite length_map.
  destruct (Z.leb_spec (Z.of_nat (List.length ms)) pl); [lia|].
  rewrite E. cbn [rbind]. f_equal.
  rewrite fold_partition_keys.
  - simpl. unfold Py.enumerate. rewrite length_map.
    generalize (Py.range (Z.of_nat (List.length batches))). intros r.
    clear E. revert r.
    induction batches as [|b bs IH]; intros [|i r]; simpl; try reflexivity.
    f_equal. apply IH.
  - simpl.
    rewrite <- (map_map fst (fun i => partition_key ((i + 1) * pl))).
    rewrite enumerate_indices. apply partition_keys_nodup. assumption.
Qed.

Lemma keys_of_partitions (pl : Z) (batches : list (list Model)) :
  Py.keys (map (fun '(index, b) =>
                  (partition_key ((index + 1) * pl), models_value b))
               (Py.enumerate batches))
  = map partition_key
      (map (fun index => (index + 1) * pl)
           (Py.range (Z.of_nat (List.length batches)))).
Proof.
  unfold Py.keys. rewrite <- enumerate_indices, !map_map.
  apply map_ext. intros [index b]. reflexivity.
Qed.

End PartitionDictionary.

(** C7.  For a stored list of models and a positive partition length the
    keys of the partition dictionary are the batch keys: a list of at most
    [partition_length] models gives the single key
    "models<partition_length>", and otherwise batch number [index] (from 0)
    has the key "models<(index+1) * partition_length>"; the numbers that
    [get_partition_number] reads back from the keys are these batch keys. *)
Theorem dict_partitions_keys {Model : Type} (ms : list Model)
    (partition_length : Z) :
  0 < partition_length ->
  exists d : Py.dict (value Model),
    dict_partitions (models_value ms) partition_length = Ok d
    /\ (Z.of_nat (List.length ms) <= partition_length ->
        d = [(partition_key partition_length, models_value ms)]
        /\ rmap key_number (Py.keys d) = Ok [partition_length])
    /\ (partition_length < Z.of_nat (List.length ms) ->
        exists batches : list (list Model),
          partitions_split (models_value ms) partition_length
          = Ok (map models_value batches)
          /\ d = map (fun '(index, b) =>
                        (partition_key ((index + 1) * partition_length),
                         models_value b))
                     (Py.enumerate batches)
          /\ rmap key_number (Py.keys d)
             = Ok (map (fun index => (index + 1) * partition_length)
                       (Py.range (Z.of_nat (List.length batches)))))
    /\ (partition_length = default_partition_length ->
        get_partition_number (models_value ms) = rmap key_number (Py.keys d)).
Proof.
  intros Hpl.
  assert (Hget : forall d,
             dict_partitions (models_value ms) partition_length = Ok d ->
             partition_length = default_partition_length ->
             get_partition_number (models_value ms)
             = rmap key_number (Py.keys d)).
  { intros d E ->. unfold get_partition_number. rewrite E. reflexivity. }
  destruct (Z.le_gt_cases (Z.of_nat (List.length ms)) partition_length)
    as [Hsmall|Hbig].
  - exists [(partition_key partition_length, models_value ms)].
    assert (E : dict_partitions (models_value ms) partition_length
                = Ok [(partition_key partition_length, models_value ms)]).
    { unfold dict_partitions. rewrite partitions_split_small by assumption.
      unfold models_value at 1. cbn [py_len rbind]. rewrite length_map.
      destruct (Z.leb_spec (Z.of_nat (List.length ms)) partition_length);
        [reflexivity | lia]. }
    split; [exact E|]. split; [|split].
    + intros _. split; [reflexivity|].
      simpl. rewrite key_number_partition_key. reflexivity.
    + intros Hbig. lia.
    + apply Hget, E.
  - destruct (partitions_split_chunks ms Hpl Hbig) as (k & _ & E).
    set (batches := map (chunk (Z.to_nat partition_length) ms) (seq 0 k)) in E.
    pose proof (dict_partitions_large ms batches Hpl Hbig E) as Ed.
    eexists. split; [exact Ed|]. split; [|split].
    + intros Hsmall. lia.
    + intros _. exists batches. split; [exact E|]. split; [reflexivity|].
      rewrite keys_of_partitions. apply rmap_key_number.
    + apply Hget, Ed.
Qed.

Lemma dict_partitions_keys_witness :
  0 < 2 /\
  exists d : Py.dict (value nat),
    dict_partitions (models_value [7; 8; 9]%nat) 2 = Ok d
    /\ rmap key_number (Py.keys d) = Ok [2; 4].
Proof.
  split; [lia|].
  destruct (@dict_partitions_keys nat [7; 8; 9]%nat 2 ltac:(lia))
    as (d & E & _ & Hbig & _).
  exists d. split; [exact E|].
  destruct Hbig as (batches & Es & -> & Hk); [simpl; lia|].
  rewrite Hk. f_equal.
  assert (L : List.length batches = 2%nat).
  { apply (f_equal (fun r => match r with Ok l => List.length l | Raise _ => 0%nat end)) in Es.
    rewrite length_map in Es. symmetry. exact Es. }
  rewrite L. reflexivity.
Defined.

(** ** A freshly constructed instance *)

(** C10.  On an instance as [__init__] leaves it, on which
    [build_all_models] has not been called, the stored model sequence is
    the empty string; [partitions_split] then returns an empty list and
    [dict_partitions] a dictionary with the single-batch key mapped to an
    empty batch ("models60" with the default length), and neither raises. *)
Theorem fresh_instance_partitions {Model Rate : Type}
    (input_data_shape : list Z) (model_params : CNN_params Rate)
    (model_hp_params : CNN_hyper_params) (running_mode : string)
    (self : Model_Development Model Rate) (partition_length : Z) :
  __init__ input_data_shape model_params model_hp_params running_mode = Ok self ->
  0 <= partition_length ->
  all_models self = VStr ""
  /\ partitions_split (all_models self) partition_length = Ok []
  /\ dict_partitions (all_models self) partition_length
     = Ok [(partition_key partition_length, VList [])]
  /\ dict_partitions (all_models self) default_partition_length
     = Ok [("models60", VList [])].
Proof.
  unfold __init__. intros Hinit Hpl.
  destruct (negb _) in Hinit; [discriminate|].
  injection Hinit as <-. cbn [all_models].
  assert (E : forall pl, 0 <= pl ->
            partitions_split (@VStr Model "") pl = Ok []).
  { intros pl H. unfold partitions_split. cbn [py_len rbind String.length].
    destruct (Z.leb_spec (Z.of_nat 0) pl); [reflexivity | lia]. }
  assert (D : forall pl, 0 <= pl ->
            dict_partitions (@VStr Model "") pl
            = Ok [(partition_key pl, VList [])]).
  { intros pl H. unfold dict_partitions. rewrite (E pl H).
    cbn [py_len rbind String.length].
    destruct (Z.leb_spec (Z.of_nat 0) pl); [reflexivity | lia]. }
  split; [reflexivity|]. split; [apply E; assumption|].
  split; [apply D; assumption|].
  apply (D default_partition_length). unfold default_partition_length. lia.
Qed.

Lemma fresh_instance_partitions_witness :
  exists self : Model_Development nat unit,
    __init__ [6; 8; 1] Concrete.the_params Concrete.an_empty_range "full" = Ok self
    /\ partitions_split (all_models self) 60 = Ok []
    /\ dict_partitions (all_models self) 60 = Ok [("models60", VList [])].
Proof.
  eexists. split; [reflexivity|].
  destruct (@fresh_instance_partitions nat unit [6; 8; 1] Concrete.the_params
              Concrete.an_empty_range "full" _ 60 eq_refl ltac:(lia))
    as (_ & E & D & _).
  split; [exact E | exact D].
Defined.

(** ** The combination generator *)

Lemma flat_map_nil {A B : Type} (l : list A) :
  flat_map (fun _ : A => @nil B) l = [].
Proof. induction l; simpl; auto. Qed.

Lemma product5_empty (r1 r2 r3 r4 r5 : list Z) :
  r1 = [] \/ r2 = [] \/ r3 = [] \/ r4 = [] \/ r5 = [] ->
  product5 r1 r2 r3 r4 r5 = [].
Proof.
  unfold product5. intros [->|[->|[->|[->| ->]]]]; simpl;
    repeat (try reflexivity; rewrite ?flat_map_nil;
            try (erewrite flat_map_ext; [apply flat_map_nil|]; intros ?)).
Qed.

(** C8 (as amended).  For every instance accepted by [__init__] whose
    hyperparameter ranges include an empty one, the combination generator
    raises nothing and returns the empty sequence of combinations, in both
    running modes. *)
Theorem all_combinations_empty_range {Model Rate : Type}
    (input_data_shape : list Z) (model_params : CNN_params Rate)
    (model_hp_params : CNN_hyper_params) (running_mode : string)
    (self : Model_Development Model Rate) :
  __init__ input_data_shape model_params model_hp_params running_mode = Ok self ->
  has_empty_range model_hp_params ->
  all_combinations self = Ok (Some []).
Proof.
  unfold __init__. intros Hinit Hempty. unfold has_empty_range in Hempty.
  destruct (String.eqb running_mode "test") eqn:Htest;
    destruct (String.eqb running_mode "full") eqn:Hfull;
    simpl in Hinit; try discriminate; injection Hinit as <-;
    unfold all_combinations; cbn [mode hyper_params];
    rewrite ?Hfull, ?Htest, (product5_empty Hempty); reflexivity.
Qed.

Lemma all_combinations_empty_range_witness :
  exists self : Model_Development nat unit,
    __init__ [6; 8; 1] Concrete.the_params Concrete.an_empty_range "test" = Ok self
    /\ has_empty_range Concrete.an_empty_range
    /\ all_combinations self = Ok (Some []).
Proof.
  eexists. split; [reflexivity|].
  assert (H : has_empty_range Concrete.an_empty_range) by (left; reflexivity).
  split; [exact H|].
  exact (@all_combinations_empty_range nat unit [6; 8; 1] Concrete.the_params
           Concrete.an_empty_range "test" _ eq_refl H).
Defined.

(** C8 as stated fails: with an empty first range the generator returns
    the empty sequence and raises no error. *)
Lemma all_combinations_empty_range_returns :
  has_empty_range (hyper_params (Concrete.instance 0))
  /\ all_combinations (Concrete.instance 0) = Ok (Some [])
  /\ forall e, all_combinations (Concrete.instance 0) <> Raise e.
Proof.
  split; [left; reflexivity|]. split; [reflexivity|].
  intros e. discriminate.
Qed.

Lemma last_cons {A : Type} (a d : A) (l : list A) :
  last (a :: l) d = last l a.
Proof.
  revert a d. induction l as [|b l IH]; intros a d; [reflexivity|].
  change (last (a :: b :: l) d) with (last (b :: l) d).
  rewrite (IH b d), (IH b a). reflexivity.
Qed.

(** ** The model factory *)

(** Case analysis on the comparisons of a goal, dropping the cases the
    hypotheses exclude. *)
Ltac split_tests :=
  repeat (cbn [andb orb negb rbind];
          match goal with
          | |- context [Z.leb ?a ?b] =>
              destruct (Z.leb_spec a b);
              try (exfalso; Z.div_mod_to_equations; lia)
          | |- context [Z.ltb ?a ?b] =>
              destruct (Z.ltb_spec a b);
              try (exfalso; Z.div_mod_to_equations; lia)
          end);
  cbn [andb orb negb rbind]; try reflexivity.

Section FactoryFacts.

Context {Init Rate : Type}.
Variable init_method : Init.
Variables dense1_length dense2_length : Z.

(** One dense block added to a model whose output is a vector. *)
Lemma add_dense_block (model : Sequential Init Rate) (width units : Z) :
  layers model <> [] -> output_shape model = Some [width] ->
  rbind (add model (Dense units true init_method init_method))
        (fun model => add model (PReLU init_method))
  = if 1 <=? units
    then Ok (mkSequential (layers model ++ dense_block init_method units)%list
               (Some [units]) (compiled model))
    else Raise ValueError.
Proof.
  intros Hl Hs. unfold add at 1. cbn [check_arguments].
  split_tests.
  destruct (layers model) as [|l0 ls] eqn:El; [contradiction|].
  rewrite Hs. cbn [compute_output_shape removelast List.app rbind].
  unfold add. cbn [check_arguments rbind layers output_shape compiled List.app].
  cbn [compute_output_shape rbind].
  unfold dense_block. rewrite <- app_assoc. reflexivity.
Qed.

(** The loop over the dense blocks appends one block per index, and stops
    at the first width that is not positive. *)
Lemma dense_loop (l : list Z) (model : Sequential Init Rate) (width : Z) :
  layers model <> [] -> output_shape model = Some [width] ->
  rfold
    (fun model i =>
       if i <? 1 then
         model <- add model (Dense dense1_length true
                               init_method init_method) ;;
         add model (PReLU init_method)
       else
         model <- add model (Dense dense2_length true
                               init_method init_method) ;;
         add model (PReLU init_method))
    model l
  = if forallb (fun i => 1 <=? (if i <? 1 then dense1_length
                                else dense2_length)) l
    then Ok (mkSequential
               (layers model
                ++ flat_map (fun i => dense_block init_method
                               (if i <? 1 then dense1_length
                                else dense2_length)) l)%list
               (Some [last (map (fun i => if i <? 1 then dense1_length
                                          else dense2_length) l) width])
               (compiled model))
    else Raise ValueError.
Proof.
  revert model width. induction l as [|i l IH]; intros model width Hl Hs.
  - cbn [rfold forallb flat_map map last]. rewrite app_nil_r, <- Hs.
    destruct model; reflexivity.
  - cbn [rfold forallb flat_map map].
    assert (Estep :
              (if i <? 1 then
                 model <- add model (Dense dense1_length true
                                       init_method init_method) ;;
                 add model (PReLU init_method)
               else
                 model <- add model (Dense dense2_length true
                                       init_method init_method) ;;
                 add model (PReLU init_method))
              = rbind (add model (Dense (if i <? 1 then dense1_length
                                         else dense2_length) true
                                    init_method init_method))
                      (fun model => add model (PReLU init_method)))
      by (destruct (i <? 1); reflexivity).
    rewrite Estep, (@add_dense_block model width _ Hl Hs).
    destruct (1 <=? (if i <? 1 then dense1_length else dense2_length));
      [|reflexivity].
    cbn [rbind andb]. rewrite (IH _ (if i <? 1 then dense1_length
                                     else dense2_length)).
    + cbn [layers compiled]. rewrite <- app_assoc.
      destruct (forallb _ l); [|reflexivity].
      rewrite last_cons. reflexivity.
    + cbn [layers]. destruct (layers model); discriminate.
    + reflexivity.
Qed.

Lemma later_blocks (k s : nat) :
  (1 <= s)%nat ->
  flat_map (fun i => dense_block init_method
               (if i <? 1 then dense1_length else dense2_length))
           (map Z.of_nat (seq s k))
  = List.concat (repeat (dense_block init_method dense2_length) k).
Proof.
  revert s. induction k as [|k IH]; intros s Hs; simpl; [reflexivity|].
  rewrite IH by lia.
  destruct (Z.ltb_spec (Z.of_nat s) 1); [lia | reflexivity].
Qed.

Lemma dense_blocks (num_of_dense : Z) :
  flat_map (fun i => dense_block init_method
               (if i <? 1 then dense1_length else dense2_length)) (Py.range num_of_dense)
  = match Z.to_nat num_of_dense with
    | O => []
    | S k => (dense_block init_method dense1_length
              ++ List.concat (repeat (dense_block init_method dense2_length) k))%list
    end.
Proof.
  unfold Py.range. destruct (Z.to_nat num_of_dense) as [|k]; [reflexivity|].
  simpl seq. simpl map. simpl flat_map.
  rewrite later_blocks by lia. reflexivity.
Qed.

Lemma later_widths (k s : nat) :
  (1 <= s)%nat ->
  forallb (fun i => 1 <=? (if i <? 1 then dense1_length else dense2_length))
          (map Z.of_nat (seq s k))
  = (Nat.eqb k 0 || (1 <=? dense2_length))%bool.
Proof.
  revert s. induction k as [|k IH]; intros s Hs; [reflexivity|].
  cbn [seq map forallb Nat.eqb orb]. rewrite IH by lia.
  destruct (Z.ltb_spec (Z.of_nat s) 1); [lia|].
  destruct (1 <=? dense2_length), (Nat.eqb k 0); reflexivity.
Qed.

(** The widths the loop checks: the first when there is a block, the
    second when there are two. *)
Lemma dense_widths (num_of_dense : Z) :
  forallb (fun i => 1 <=? (if i <? 1 then dense1_length else dense2_length))
          (Py.range num_of_dense)
  = (((num_of_dense <? 1) || (1 <=? dense1_length))
     && ((num_of_dense <? 2) || (1 <=? dense2_length)))%bool.
Proof.
  unfold Py.range. destruct (Z.to_nat num_of_dense) as [|k] eqn:E.
  - cbn [seq map forallb].
    destruct (Z.ltb_spec num_of_dense 1); [|lia].
    destruct (Z.ltb_spec num_of_dense 2); [reflexivity | lia].
  - cbn [seq map forallb]. rewrite later_widths by lia.
    change (0 <? 1) with true. cbv iota.
    destruct (Z.ltb_spec num_of_dense 1); [lia|]. cbn [orb].
    f_equal. destruct k as [|k].
    + destruct (Z.ltb_spec num_of_dense 2); [reflexivity | lia].
    + destruct (Z.ltb_spec num_of_dense 2); [lia | reflexivity].
Qed.

End FactoryFacts.

(** What the factory returns: the model of the fixed topology when the
    data and the combination are accepted, and ValueError otherwise. *)
Lemma model_builder_returns {Init Rate : Type} (data_shape : list Z)
    (params : CNN_params Rate)
    (conv1_filter_num conv2_filter_num num_of_dense dense1_length
       dense2_length : Z)
    (init_method : Init) (filter_size : Z) :
  model_builder data_shape params conv1_filter_num conv2_filter_num
    num_of_dense dense1_length dense2_length init_method filter_size
  = if buildable data_shape conv1_filter_num conv2_filter_num num_of_dense
         dense1_length dense2_length filter_size
    then
      Ok (mkSequential
            ([Conv1D conv1_filter_num filter_size 1 "same" true
                (Some (tl data_shape)) init_method init_method;
              PReLU init_method;
              MaxPool1D;
              Conv1D conv2_filter_num (filter_size / 2) 1 "same" true None
                init_method init_method;
              PReLU init_method;
              MaxPool1D;
              Flatten]
             ++ flat_map (fun i => dense_block init_method
                            (if i <? 1 then dense1_length
                             else dense2_length))
                  (Py.range num_of_dense)
             ++ [Dense 1 true init_method init_method; PReLU init_method])%list
            (Some [1])
            (Some (mkCompile (initial_learning_rate params) "MAPE"
                     ["MAE"; "RMSE"])))
    else Raise ValueError.
Proof.
  unfold model_builder, buildable. cbv zeta.
  change (String.eqb "same" "valid") with false.
  destruct (tl data_shape) as [|steps [|channels [|x rest]]].
  1, 2, 4:
    unfold add at 1;
    cbn [check_arguments compute_output_shape layer_input_shape layers
         output_shape compiled rbind];
    match goal with
    | |- context [if ?b then Raise ValueError else Ok tt] => destruct b
    end; reflexivity.
  rewrite <- andb_assoc, <- (dense_widths dense1_length dense2_length).
  do 7 (unfold add at 1;
        cbn [check_arguments compute_output_shape layer_input_shape layers
             output_shape compiled rbind List.app];
        change (String.eqb "same" "valid") with false;
        change (existsb (String.eqb "same") ["valid"; "same"; "causal"])
          with true;
        change (1 <=? 0) with false; cbv iota;
        split_tests).
  cbn [fold_right].
  erewrite (@dense_loop _ _ init_method dense1_length dense2_length);
    [|discriminate | reflexivity].
  destruct (forallb _ (Py.range num_of_dense)); [|reflexivity].
  cbn [rbind layers compiled]. unfold add at 1.
  cbn [check_arguments compute_output_shape layers output_shape compiled
       rbind List.app removelast].
  change (1 <=? 0) with false. cbv iota. cbn [rbind].
  unfold add, compile.
  cbn [check_arguments compute_output_shape layers output_shape compiled
       rbind List.app].
  rewrite <- app_assoc. reflexivity.
Qed.

(** C9 (as amended).  For every combination the factory accepts (data of
    at least four time steps and one channel, positive filter counts, a
    filter size of at least 2, and a positive width for every dense block
    there is) the factory returns a model of the fixed topology: a first
    convolution with [conv1_filter_num] filters, activation, pooling, a
    second convolution whose filter count is the combination's
    [conv2_filter_num] and whose kernel size is floor(filter_size / 2)
    (2 with the default [filter_size] of 5), activation, pooling, flatten,
    then N dense blocks of which block 1 has width d1 and blocks 2..N have
    width d2, and a single-unit output with its activation. *)
Theorem model_builder_topology {Init Rate : Type} (data_shape : list Z)
    (params : CNN_params Rate)
    (conv1_filter_num conv2_filter_num num_of_dense dense1_length
       dense2_length : Z)
    (init_method : Init) (filter_size steps channels : Z) :
  tl data_shape = [steps; channels] ->
  4 <= steps -> 1 <= channels ->
  1 <= conv1_filter_num -> 1 <= conv2_filter_num -> 2 <= filter_size ->
  (1 <= num_of_dense -> 1 <= dense1_length) ->
  (2 <= num_of_dense -> 1 <= dense2_length) ->
  exists model,
    model_builder data_shape params conv1_filter_num conv2_filter_num
      num_of_dense dense1_length dense2_length init_method filter_size
    = Ok model
    /\ layers model
       = ([Conv1D conv1_filter_num filter_size 1 "same" true
             (Some (tl data_shape)) init_method init_method;
           PReLU init_method;
           MaxPool1D;
           Conv1D conv2_filter_num (filter_size / 2) 1 "same" true None
             init_method init_method;
           PReLU init_method;
           MaxPool1D;
           Flatten]
          ++ match Z.to_nat num_of_dense with
             | O => []
             | S k =>
                 dense_block init_method dense1_length
                 ++ List.concat
                      (repeat (dense_block init_method dense2_length) k)
             end
          ++ [Dense 1 true init_method init_method; PReLU init_method])%list
    /\ default_filter_size / 2 = 2.
Proof.
  intros Hshape Hsteps Hchannels H1 H2 Hsize Hd1 Hd2.
  eexists. split; [|split; [|reflexivity]].
  - rewrite model_builder_returns.
    replace (buildable _ _ _ _ _ _ _) with true; [reflexivity|].
    unfold buildable. rewrite Hshape. symmetry.
    repeat (apply andb_true_intro; split); try (apply Z.leb_le; assumption).
    + destruct (Z.ltb_spec num_of_dense 1); [reflexivity|].
      apply Z.leb_le, Hd1. lia.
    + destruct (Z.ltb_spec num_of_dense 2); [reflexivity|].
      apply Z.leb_le, Hd2. lia.
  - cbn [layers]. rewrite dense_blocks. reflexivity.
Qed.

Lemma model_builder_topology_witness :
  exists model,
    model_builder [6; 8; 1] Concrete.the_params 4 7 2 16 12 tt
      default_filter_size
    = Ok model
    /\ layers model
       = [Conv1D 4 5 1 "same" true (Some [8; 1]) tt tt; PReLU tt; MaxPool1D;
          Conv1D 7 2 1 "same" true None tt tt; PReLU tt; MaxPool1D;
          Flatten;
          Dense 16 true tt tt; PReLU tt;
          Dense 12 true tt tt; PReLU tt;
          Dense 1 true tt tt; PReLU tt].
Proof.
  destruct (@model_builder_topology unit unit [6; 8; 1] Concrete.the_params
              4 7 2 16 12 tt default_filter_size 8 1)
    as (model & Hbuild & Hlayers & _);
    try reflexivity; try (unfold default_filter_size; lia).
  exists model. split; [exact Hbuild | exact Hlayers].
Defined.

(** C9 as stated fails: the second convolution of the model built for the
    combination (4, 7, 1, 16, 16) on data of eight time steps has 7
    filters, not floor(5 / 2) = 2. *)
Lemma second_convolution_filters :
  exists model,
    model_builder [6; 8; 1] Concrete.the_params 4 7 1 16 16 tt
      default_filter_size
    = Ok model
    /\ nth 3 (layers model) Flatten = Conv1D 7 2 1 "same" true None tt tt
    /\ 7 <> default_filter_size / 2.
Proof.
  eexists. split; [vm_compute; reflexivity|].
  split; [reflexivity | discriminate].
Qed.

(** ** The cross-validation trainer *)

Section TrainingFacts.

Context {Model Sample Target Metric Callback Rate : Type}.
Variable fit :
  Model -> fit_args Sample Target Callback -> result (Model * History Metric).
Variable self : Model_Development Model Rate.
Variable training_data : list Sample.
Variable targets : list Target.
Variable callback_list : list Callback.
Variable series_cv : list cv_fold.

Abbreviation World := (world Model Sample Target Metric Callback).
Abbreviation args_of := (fold_fit_args self training_data targets callback_list).

Lemma bind_ok {A B : Type} (m : M Model Sample Target Metric Callback A)
    (k : A -> M Model Sample Target Metric Callback B)
    (w w' : World) (b : B) :
  bind m k w = (Ok b, w') ->
  exists a w1, m w = (Ok a, w1) /\ k a w1 = (Ok b, w').
Proof.
  unfold bind. destruct (m w) as [[a|e] w1]; [|discriminate].
  intros H. exists a, w1. split; [reflexivity | exact H].
Qed.

Lemma lift_ok {A : Type} (r : result A) (w w' : World) (a : A) :
  lift r w = (Ok a, w') -> r = Ok a /\ w' = w.
Proof. unfold lift. intros [= -> ->]. split; reflexivity. Qed.

(** Inversion of a successful run, one statement at a time. *)
Ltac bind_inv H a w :=
  apply bind_ok in H; destruct H as (a & w & ? & H).

Ltac lift_inv H :=
  apply lift_ok in H; destruct H as [H ->].

Lemma index_nth {A : Type} (l : list A) (s : nat) (a : A) :
  nth_error l s = Some a -> Py.index l (Z.of_nat s) = Ok a.
Proof.
  intros H. unfold Py.index.
  destruct (Z.ltb_spec (Z.of_nat s) 0); [lia|].
  destruct (Z.ltb_spec (Z.of_nat s) 0); [lia|].
  rewrite Nat2Z.id, H. reflexivity.
Qed.

Lemma skipn_nth {A : Type} (l : list A) (s : nat) (a : A) :
  nth_error l s = Some a -> skipn s l = a :: skipn (S s) l.
Proof.
  revert l. induction s as [|s IH]; intros [|b l] H; try discriminate.
  - injection H as ->. reflexivity.
  - simpl in H. apply IH in H. exact H.
Qed.

(** The loop over the folds makes the chain of [fit] calls of the folds
    it still has to visit. *)
Lemma fit_folds_from (k s : nat) (m : Model) (h : option (History Metric))
    (w w' : World) (v' : value Model) (h' : option (History Metric)) :
  (s + k = List.length series_cv)%nat ->
  mfold
    (fun '(model, history) i =>
       match model with
       | VModel m =>
           bind (lift (Py.index series_cv i)) (fun f =>
           bind (call_fit fit m (args_of f)) (fun r =>
           ret (VModel (fst r), Some (snd r))))
       | _ => lift (Raise AttributeError)
       end)
    (VModel m, h) (map Z.of_nat (seq s k)) w = (Ok (v', h'), w') ->
  exists steps,
    run_chain fit m (map args_of (skipn s series_cv)) = Ok steps
    /\ List.length steps = k
    /\ v' = VModel (final_model m steps)
    /\ h' = final_history h steps
    /\ w' = mkWorld (fs w)
              (events w
               ++ fit_events m (map args_of (skipn s series_cv)) steps)%list.
Proof.
  revert s m h w. induction k as [|k IH]; intros s m h w Hlen Hrun.
  - simpl in Hrun. injection Hrun as <- <- <-.
    rewrite skipn_all2 by lia. exists []. simpl.
    repeat split. rewrite app_nil_r. destruct w; reflexivity.
  - cbn [seq map mfold] in Hrun.
    destruct (nth_error series_cv s) as [f|] eqn:Hf;
      [|apply nth_error_None in Hf; lia].
    apply bind_ok in Hrun. destruct Hrun as ([v1 h1] & w1 & Hbody & Hrest).
    apply bind_ok in Hbody. destruct Hbody as (f' & w2 & Hidx & Hbody).
    apply lift_ok in Hidx. destruct Hidx as [Hidx ->].
    rewrite (index_nth _ _ Hf) in Hidx. injection Hidx as <-.
    apply bind_ok in Hbody. destruct Hbody as ([m1 hist1] & w3 & Hfit & Hret).
    unfold ret in Hret. injection Hret as <- <- <-.
    unfold call_fit, bind, emit, lift in Hfit. cbn in Hfit.
    injection Hfit as Hfit <-.
    apply IH in Hrest; [|lia].
    destruct Hrest as (steps & Hchain & Hsteps & -> & -> & ->).
    rewrite (skipn_nth _ _ Hf). cbn [map run_chain].
    rewrite Hfit. cbn [rbind fst]. rewrite Hchain. cbn [rbind].
    exists ((m1, hist1) :: steps). split; [reflexivity|].
    split; [simpl; congruence|].
    unfold final_model, final_history. cbn [map fst snd].
    rewrite !last_cons. split; [reflexivity|]. split; [reflexivity|].
    cbn [fs events fit_events fst]. rewrite <- app_assoc. reflexivity.
Qed.

Lemma fit_folds_ok (m : Model) (h : option (History Metric))
    (w w' : World) (v' : value Model) (h' : option (History Metric)) :
  fit_folds fit self training_data targets callback_list series_cv
    (VModel m) h w = (Ok (v', h'), w') ->
  exists steps,
    run_chain fit m (map args_of series_cv) = Ok steps
    /\ List.length steps = List.length series_cv
    /\ v' = VModel (final_model m steps)
    /\ h' = final_history h steps
    /\ w' = mkWorld (fs w)
              (events w ++ fit_events m (map args_of series_cv) steps)%list.
Proof.
  unfold fit_folds, Py.range. rewrite Nat2Z.id. intros H.
  apply (fit_folds_from (List.length series_cv) 0) in H; [|lia].
  exact H.
Qed.

Lemma fit_events_length (m : Model)
    (args : list (fit_args Sample Target Callback))
    (steps : list (Model * History Metric)) :
  List.length steps = List.length args ->
  List.length (fit_events m args steps) = List.length args.
Proof.
  revert m steps. induction args as [|a args IH]; intros m [|s steps] H;
    simpl in *; try discriminate; try reflexivity.
  rewrite IH by congruence. reflexivity.
Qed.

Lemma fit_events_nth (m : Model)
    (args : list (fit_args Sample Target Callback))
    (steps : list (Model * History Metric)) (i : nat)
    (a : fit_args Sample Target Callback) :
  List.length steps = List.length args ->
  nth_error args i = Some a ->
  exists mi, nth_error (fit_events m args steps) i = Some (EFit mi a).
Proof.
  revert m steps i. induction args as [|a0 args IH]; intros m [|s steps] i H Hi;
    simpl in *; try discriminate; try (destruct i; discriminate).
  destruct i as [|i]; simpl in *.
  - injection Hi as ->. exists m. reflexivity.
  - apply IH; [congruence | assumption].
Qed.

Lemma saved_fit_events (m : Model)
    (args : list (fit_args Sample Target Callback))
    (steps : list (Model * History Metric)) :
  saved (fit_events m args steps) = [].
Proof.
  revert m steps. induction args as [|a args IH]; intros m [|s steps];
    simpl; try reflexivity. apply IH.
Qed.

(** One pass of the loop over the models of a partition. *)
Lemma train_models_body_ok (partition_num : Z) (now : string)
    (report report' : DataFrame Metric)
    (history history' : option (History Metric))
    (ind : Z) (m : Model) (w w' : World) :
  train_models_body fit self training_data targets callback_list series_cv
    partition_num now (report, history) (ind, VModel m) w
  = (Ok (report', history'), w') ->
  exists steps h r,
    run_chain fit m (map args_of series_cv) = Ok steps
    /\ List.length steps = List.length series_cv
    /\ final_history history steps = Some h
    /\ reporting (ind + partition_num - 60) h = Ok r
    /\ report' = df_append report r
    /\ history' = Some h
    /\ w' = mkWorld
              (Py.setitem (fs w)
                 (model_file partition_num now (ind + partition_num - 60))
                 (H5File (final_model m steps)))
              (events w
               ++ fit_events m (map args_of series_cv) steps
               ++ [ESave (model_file partition_num now
                            (ind + partition_num - 60))
                         (final_model m steps)])%list.
Proof.
  unfold train_models_body. intros H.
  bind_inv H trained w1. destruct trained as [v1 h1].
  match goal with Hfolds : fit_folds _ _ _ _ _ _ _ _ _ = _ |- _ =>
    apply fit_folds_ok in Hfolds;
    destruct Hfolds as (steps & Hchain & Hlen & -> & -> & ->)
  end.
  bind_inv H h w2.
  match goal with Hh : lift _ _ = _ |- _ => lift_inv Hh; rename Hh into Hh end.
  destruct (final_history history steps) as [h0|] eqn:Hfinal;
    [|discriminate].
  match goal with Hh : Ok h0 = Ok h |- _ => injection Hh as -> end.
  bind_inv H r w3.
  match goal with Hr : lift (reporting _ _) _ = _ |- _ => lift_inv Hr end.
  bind_inv H m' w4.
  match goal with Hm : lift (Ok _) _ = _ |- _ =>
    lift_inv Hm; injection Hm as <-
  end.
  bind_inv H u w5.
  match goal with Hsave : save_model _ _ _ = _ |- _ =>
    unfold save_model in Hsave; injection Hsave as <- <-
  end.
  unfold ret in H. injection H as <- <- <-.
  exists steps, h, r. cbn [fs events].
  rewrite <- app_assoc. repeat (split; [first [assumption | reflexivity]|]).
  reflexivity.
Qed.

(** Conversely, the loop over the folds runs to its end whenever the chain
    of [fit] calls succeeds. *)
Lemma fit_folds_runs_from (k s : nat) (m : Model) (h : option (History Metric))
    (w : World) (steps : list (Model * History Metric)) :
  (s + k = List.length series_cv)%nat ->
  run_chain fit m (map args_of (skipn s series_cv)) = Ok steps ->
  mfold
    (fun '(model, history) i =>
       match model with
       | VModel m =>
           bind (lift (Py.index series_cv i)) (fun f =>
           bind (call_fit fit m (args_of f)) (fun r =>
           ret (VModel (fst r), Some (snd r))))
       | _ => lift (Raise AttributeError)
       end)
    (VModel m, h) (map Z.of_nat (seq s k)) w
  = (Ok (VModel (final_model m steps), final_history h steps),
     mkWorld (fs w)
       (events w ++ fit_events m (map args_of (skipn s series_cv)) steps)%list).
Proof.
  revert s m h w steps. induction k as [|k IH]; intros s m h w steps Hlen Hchain.
  - rewrite skipn_all2 in * by lia. simpl in Hchain. injection Hchain as <-.
    simpl. rewrite app_nil_r. destruct w; reflexivity.
  - destruct (nth_error series_cv s) as [f|] eqn:Hf;
      [|apply nth_error_None in Hf; lia].
    rewrite (skipn_nth _ _ Hf) in *. cbn [map run_chain] in Hchain.
    destruct (fit m (args_of f)) as [[m1 h1]|e] eqn:Hfit; [|discriminate].
    cbn [rbind fst] in Hchain.
    destruct (run_chain fit m1 (map args_of (skipn (S s) series_cv)))
      as [steps'|e] eqn:Hrest; [|discriminate].
    injection Hchain as <-.
    cbn [seq map mfold]. unfold bind at 1. unfold bind at 1.
    unfold lift at 1. rewrite (index_nth _ _ Hf).
    unfold bind at 1. unfold call_fit, bind, emit, lift. rewrite Hfit.
    unfold ret at 1. cbn [fst snd].
    rewrite (IH (S s) m1 (Some h1) _ steps' ltac:(lia) Hrest).
    unfold final_model, final_history. cbn [map fst snd fit_events fs events].
    rewrite !last_cons, <- app_assoc. reflexivity.
Qed.

Lemma train_models_body_runs (partition_num : Z) (now : string)
    (report : DataFrame Metric) (history : option (History Metric))
    (ind : Z) (m : Model) (w : World)
    (steps : list (Model * History Metric)) (h : History Metric)
    (r : DataFrame Metric) :
  run_chain fit m (map args_of series_cv) = Ok steps ->
  final_history history steps = Some h ->
  reporting (ind + partition_num - 60) h = Ok r ->
  train_models_body fit self training_data targets callback_list series_cv
    partition_num now (report, history) (ind, VModel m) w
  = (Ok (df_append report r, Some h),
     mkWorld
       (Py.setitem (fs w)
          (model_file partition_num now (ind + partition_num - 60))
          (H5File (final_model m steps)))
       (events w
        ++ fit_events m (map args_of series_cv) steps
        ++ [ESave (model_file partition_num now (ind + partition_num - 60))
                  (final_model m steps)])%list).
Proof.
  intros Hchain Hfinal Hr. unfold train_models_body, fit_folds, Py.range.
  rewrite Nat2Z.id. unfold bind at 1.
  rewrite (fit_folds_runs_from (List.length series_cv) 0 m history w
             (steps := steps) ltac:(lia) Hchain).
  rewrite Hfinal. unfold bind, lift, save_model, ret. rewrite Hr.
  cbn [fs events]. rewrite <- app_assoc. reflexivity.
Qed.

End TrainingFacts.

(** ** The reporter *)

Section ReporterFacts.

Context {Metric : Type}.

Lemma getitem_missing {V : Type} (d : Py.dict V) (k : string) :
  ~ In k (Py.keys d) -> Py.getitem d k = Raise KeyError.
Proof.
  induction d as [|[k' v] d IH]; simpl; intros H; [reflexivity|].
  destruct (String.eqb_spec k' k); [tauto|]. apply IH. tauto.
Qed.

Lemma getitem_in {V : Type} (d : Py.dict V) (k : string) (v : V) :
  NoDup (Py.keys d) -> In (k, v) d -> Py.getitem d k = Ok v.
Proof.
  induction d as [|[k' v'] d IH]; simpl; intros Hnd Hin; [contradiction|].
  inversion Hnd as [|? ? Hfresh Hrest]; subst.
  destruct Hin as [[= -> ->]|Hin].
  - rewrite String.eqb_refl. reflexivity.
  - destruct (String.eqb_spec k' k) as [->|_]; [|apply IH; assumption].
    exfalso. apply Hfresh. apply (in_map fst) in Hin. exact Hin.
Qed.

(** A dictionary built from its keys. *)
Lemma getitem_map_keys {V : Type} (g : string -> V) (names : list string)
    (k : string) :
  Py.getitem (map (fun k => (k, g k)) names) k
  = if existsb (String.eqb k) names then Ok (g k) else Raise KeyError.
Proof.
  induction names as [|k' names IH]; simpl; [reflexivity|].
  rewrite (String.eqb_sym k k').
  destruct (String.eqb_spec k' k) as [->|_]; [reflexivity | exact IH].
Qed.

Lemma has_column_keys (df : DataFrame Metric) (k : string) :
  has_column df k = false -> ~ In k (Py.keys (columns df)).
Proof.
  unfold has_column. intros H Hin.
  assert (E : existsb (String.eqb k) (Py.keys (columns df)) = true).
  { apply existsb_exists. exists k. split; [exact Hin | apply String.eqb_refl]. }
  congruence.
Qed.

(** [append] puts the cells of the second frame below those of the first,
    column by column. *)
Lemma append_column (df other : DataFrame Metric) (k : string) :
  column_or_nan (df_append df other) k
  = (column_or_nan df k ++ column_or_nan other k)%list.
Proof.
  unfold df_append, column_or_nan at 1. cbn [columns nrows].
  rewrite (getitem_map_keys
             (fun k => (column_or_nan df k ++ column_or_nan other k)%list)).
  destruct (existsb _ _) eqn:E; [reflexivity|].
  rewrite existsb_app in E. apply orb_false_elim in E. destruct E as [E1 E2].
  assert (H1 : ~ In k (Py.keys (columns df))) by (apply has_column_keys, E1).
  assert (H2 : ~ In k (Py.keys (columns other))).
  { intros Hin.
    assert (E : existsb (String.eqb k)
                  (filter (fun k0 => negb (has_column df k0))
                     (Py.keys (columns other))) = true).
    { apply existsb_exists. exists k. split; [|apply String.eqb_refl].
      apply filter_In. split; [exact Hin|].
      unfold has_column. rewrite E1. reflexivity. }
    congruence. }
  unfold column_or_nan.
  rewrite (getitem_missing _ _ H1), (getitem_missing _ _ H2).
  apply repeat_app.
Qed.

Lemma arange_from_1 (n : nat) :
  arange 1 (Z.of_nat n + 1) = map Z.of_nat (seq 1 n).
Proof.
  unfold arange. replace (Z.to_nat (Z.of_nat n + 1 - 1)) with n by lia.
  rewrite <- seq_shift, map_map. apply map_ext. intros i. lia.
Qed.

(** The frame after the two fixed columns are set. *)
Lemma reporting_header (model : Z) (n : nat) :
  rbind (df_setitem (df_with_columns ["models"; "epochs"]) "epochs"
           (map (@CInt Metric) (arange 1 (Z.of_nat n + 1))))
        (fun report => Ok (df_setitem_scalar report "models" (CInt model)))
  = Ok (mkDataFrame n [("models", repeat (CInt model) n);
                       ("epochs", map CInt (map Z.of_nat (seq 1 n)))]).
Proof.
  rewrite arange_from_1. unfold df_setitem, df_with_columns.
  cbn [nrows columns map]. rewrite !length_map, length_seq.
  destruct n as [|n]; reflexivity.
Qed.

(** The loop over the metrics, on a frame of [n] rows. *)
Lemma reporting_metrics (n : nat) (results : History Metric)
    (df : DataFrame Metric) :
  nrows df = n ->
  Forall (fun kv => List.length (snd kv) = n) results ->
  NoDup (Py.keys (columns df) ++ Py.keys results)%list ->
  fold_left
    (fun acc '(key, values) =>
       rbind acc (fun report => df_setitem report key (map (@CVal Metric) values)))
    results (Ok df)
  = Ok (mkDataFrame n
          (columns df
           ++ map (fun '(key, values) => (key, map (@CVal Metric) values)) results)%list).
Proof.
  revert df. induction results as [|[key values] results IH];
    intros df Hn Hlen Hnd; simpl.
  - rewrite app_nil_r. destruct df; simpl in *; congruence.
  - inversion Hlen as [|? ? Hv Hrest]; subst. simpl in Hv.
    simpl in Hnd. pose proof (NoDup_remove_2 _ _ _ Hnd) as Hfresh.
    assert (Estep : df_setitem df key (map (@CVal Metric) values)
                    = Ok (mkDataFrame (nrows df)
                            (columns df ++ [(key, map (@CVal Metric) values)])%list)).
    { unfold df_setitem. rewrite length_map, Hv.
      destruct (Nat.eqb_spec (nrows df) 0) as [->|]; simpl;
        rewrite ?Nat.eqb_refl;
        rewrite setitem_fresh
          by (intros Hin; apply Hfresh, in_or_app; auto);
        reflexivity. }
    rewrite Estep. rewrite IH; cbn [nrows columns].
    + rewrite <- app_assoc. reflexivity.
    + reflexivity.
    + assumption.
    + unfold Py.keys in *. rewrite map_app, <- app_assoc. exact Hnd.
Qed.

(** The columns of the report of a history all of whose metrics have the
    epochs of its "loss" and other names than the two fixed columns. *)
Lemma reporting_columns (model : Z) (results : History Metric)
    (loss : list Metric) (r : DataFrame Metric) :
  reporting model results = Ok r ->
  Py.getitem results "loss" = Ok loss ->
  Forall (fun kv => List.length (snd kv) = List.length loss) results ->
  NoDup ("models" :: "epochs" :: Py.keys results) ->
  nrows r = List.length loss
  /\ Py.keys (columns r) = "models" :: "epochs" :: Py.keys results
  /\ column_or_nan r "models" = repeat (CInt model) (List.length loss)
  /\ column_or_nan r "epochs"
     = map (fun i => CInt (Z.of_nat i)) (seq 1 (List.length loss))
  /\ (forall key values,
        In (key, values) results ->
        column_or_nan r key = map (@CVal Metric) values).
Proof.
  intros Hr Hloss Hlen Hnd. unfold reporting in Hr. rewrite Hloss in Hr.
  cbn [rbind] in Hr.
  pose proof (reporting_header model (List.length loss)) as Hh.
  destruct (df_setitem (df_with_columns ["models"; "epochs"]) "epochs" _)
    as [report|e]; [|discriminate].
  cbn [rbind] in *.
  assert (Hdf : df_setitem_scalar report "models" (CInt model)
                = mkDataFrame (List.length loss)
                    [("models", repeat (CInt model) (List.length loss));
                     ("epochs",
                      map CInt (map Z.of_nat (seq 1 (List.length loss))))])
    by congruence.
  rewrite Hdf in Hr.
  rewrite (reporting_metrics (n := List.length loss)) in Hr;
    [|reflexivity | assumption | exact Hnd].
  injection Hr as <-. cbn [nrows columns List.app].
  set (cols := map (fun '(key, values) => (key, map (@CVal Metric) values))
                   results).
  assert (Hkeys : Py.keys cols = Py.keys results).
  { unfold cols, Py.keys. rewrite map_map. apply map_ext.
    intros [key values]. reflexivity. }
  split; [reflexivity|].
  split; [unfold Py.keys in *; cbn [map fst]; rewrite Hkeys; reflexivity|].
  split; [reflexivity|].
  split; [unfold column_or_nan; cbn [columns Py.getitem];
          change (String.eqb "models" "epochs") with false;
          change (String.eqb "epochs" "epochs") with true;
          cbv iota; rewrite map_map; reflexivity|].
  intros key values Hin. unfold column_or_nan. cbn [columns].
  rewrite (@getitem_in _ _ key (map (@CVal Metric) values)); [reflexivity| |].
  - unfold Py.keys in *. cbn [map fst]. rewrite Hkeys. exact Hnd.
  - right. right. unfold cols.
    apply (in_map (fun '(key, values) => (key, map (@CVal Metric) values)))
      in Hin. exact Hin.
Qed.

End ReporterFacts.

(** C5.  For every model of a batch and every number K >= 2 of folds, a
    pass of the trainer over the model that completes has made the K [fit]
    calls of the folds in order, each on the model as the previous call
    left it, and the rows appended to the report for the model are those
    of the table [reporting] builds from the history of the last fold
    alone: as many rows as that table has, holding its cells column by
    column, which, on a history whose metrics all have the epochs of its
    "loss" and other names than "models" and "epochs", are one row per
    epoch of the last fold, with the model index, the epoch counted from
    1 and the values of every metric of that history.  The histories of
    the earlier folds are not used. *)
Theorem last_fold_history_reported
    {Model Sample Target Metric Callback Rate : Type}
    (fit : Model -> fit_args Sample Target Callback
           -> result (Model * History Metric))
    (self : Model_Development Model Rate)
    (training_data : list Sample) (targets : list Target)
    (callback_list : list Callback) (series_cv : list cv_fold)
    (partition_num : Z) (now : string)
    (report report' : DataFrame Metric)
    (history history' : option (History Metric))
    (ind : Z) (m : Model)
    (w w' : world Model Sample Target Metric Callback) :
  (2 <= List.length series_cv)%nat ->
  train_models_body fit self training_data targets callback_list series_cv
    partition_num now (report, history) (ind, VModel m) w
  = (Ok (report', history'), w') ->
  exists (earlier : list (Model * History Metric)) (m_last : Model)
         (h_last : History Metric) (r : DataFrame Metric),
    let args :=
      map (fold_fit_args self training_data targets callback_list) series_cv in
    let steps := (earlier ++ [(m_last, h_last)])%list in
    run_chain fit m args = Ok steps
    /\ S (List.length earlier) = List.length series_cv
    /\ events w'
       = (events w ++ fit_events m args steps
          ++ [ESave (model_file partition_num now (ind + partition_num - 60))
                    m_last])%list
    /\ List.length (fit_events m args steps) = List.length series_cv
    /\ (forall i f, nth_error series_cv i = Some f ->
          exists mi,
            nth_error (fit_events m args steps) i
            = Some (EFit mi (fold_fit_args self training_data targets
                               callback_list f)))
    /\ reporting (ind + partition_num - 60) h_last = Ok r
    /\ report' = df_append report r
    /\ history' = Some h_last
    /\ nrows report' = (nrows report + nrows r)%nat
    /\ (forall key,
          column_or_nan report' key
          = (column_or_nan report key ++ column_or_nan r key)%list)
    /\ (forall loss,
          Py.getitem h_last "loss" = Ok loss ->
          Forall (fun kv => List.length (snd kv) = List.length loss) h_last ->
          NoDup ("models" :: "epochs" :: Py.keys h_last) ->
          nrows r = List.length loss
          /\ Py.keys (columns r) = "models" :: "epochs" :: Py.keys h_last
          /\ column_or_nan r "models"
             = repeat (CInt (ind + partition_num - 60)) (List.length loss)
          /\ column_or_nan r "epochs"
             = map (fun i => CInt (Z.of_nat i)) (seq 1 (List.length loss))
          /\ (forall key values,
                In (key, values) h_last ->
                column_or_nan r key = map (@CVal Metric) values)).
Proof.
  intros HK Hrun. apply train_models_body_ok in Hrun.
  destruct Hrun as (steps & h & r & Hchain & Hlen & Hfinal & Hr & -> & -> & ->).
  destruct (exists_last (l := steps)) as (earlier & [m_last h_last] & ->).
  { intros ->. simpl in Hlen. lia. }
  unfold final_history in Hfinal. rewrite map_app in Hfinal.
  cbn [map] in Hfinal. rewrite last_last in Hfinal. injection Hfinal as <-.
  unfold final_model. rewrite map_app. cbn [map]. rewrite last_last.
  cbn [fst snd events].
  exists earlier, m_last, h_last, r. cbn zeta.
  assert (Hargs : List.length (earlier ++ [(m_last, h_last)])
                  = List.length (map (fold_fit_args self training_data targets
                                        callback_list) series_cv))
    by (rewrite length_map; exact Hlen).
  split; [exact Hchain|].
  split; [rewrite length_app in Hlen; simpl in Hlen; lia|].
  split; [reflexivity|].
  split; [rewrite fit_events_length, length_map by exact Hargs; reflexivity|].
  split.
  { intros i f Hf. apply fit_events_nth; [exact Hargs|].
    rewrite nth_error_map, Hf. reflexivity. }
  split; [exact Hr|]. split; [reflexivity|]. split; [reflexivity|].
  split; [reflexivity|]. split; [intros key; apply append_column|].
  intros loss Hloss Hall Hnd.
  exact (reporting_columns _ Hr Hloss Hall Hnd).
Qed.

Lemma last_fold_history_reported_witness :
  (2 <= List.length Concrete.two_folds)%nat
  /\ exists (report' : DataFrame Z) (h_last : History Z),
       fst (train_models_body Concrete.fit (Concrete.instance 1)
              Concrete.series Concrete.series_targets [] Concrete.two_folds
              60 "T" (df_empty, None) (0, VModel 5) Concrete.empty_world)
       = Ok (report', Some h_last)
       /\ h_last = [("loss", [4; 2])]
       /\ nrows report' = 2%nat
       /\ column_or_nan report' "models" = [CInt 0; CInt 0]
       /\ column_or_nan report' "epochs" = [CInt 1; CInt 2]
       /\ column_or_nan report' "loss" = [CVal 4; CVal 2].
Proof.
  split; [simpl; lia|].
  pose proof
    (fun report' history' w' =>
       @last_fold_history_reported Z Z Z Z unit unit Concrete.fit
         (Concrete.instance 1) Concrete.series Concrete.series_targets
         [] Concrete.two_folds 60 "T" df_empty report' None history' 0 5
         Concrete.empty_world w' ltac:(simpl; lia)) as H.
  edestruct H
    as (earlier & m_last & h_last & r & Hchain & Hlen & _ & _ & _ & Hr
        & Hreport & Hhistory & Hrows & Hcols & Htable).
  - vm_compute. reflexivity.
  - assert (Hlast : h_last = [("loss", [4; 2])]).
    { destruct earlier as [|e1 [|e2 earlier]]; simpl in Hlen;
        try discriminate.
      vm_compute in Hchain. congruence. }
    destruct (Htable [4; 2]) as (Hn & _ & Hmodels & Hepochs & Hvalues).
    { rewrite Hlast. reflexivity. }
    { rewrite Hlast. repeat constructor. }
    { rewrite Hlast. repeat constructor; simpl; intuition discriminate. }
    eexists. exists h_last.
    split; [vm_compute; rewrite Hlast; reflexivity|].
    split; [exact Hlast|].
    split; [rewrite Hrows, Hn; reflexivity|].
    split; [rewrite Hcols, Hmodels; reflexivity|].
    split; [rewrite Hcols, Hepochs; reflexivity|].
    rewrite Hcols, (Hvalues "loss" [4; 2]); [reflexivity|].
    rewrite Hlast. left. reflexivity.
Defined.

(** ** Model indices within a batch *)

Section BatchFacts.

Context {Model Sample Target Metric Callback Rate : Type}.
Variable fit :
  Model -> fit_args Sample Target Callback -> result (Model * History Metric).
Variable self : Model_Development Model Rate.
Variable training_data : list Sample.
Variable targets : list Target.
Variable callback_list : list Callback.
Variable series_cv : list cv_fold.
Variable partition_num : Z.
Variable now : string.

Lemma saved_app (l1 l2 : list (event Model Sample Target Metric Callback)) :
  saved (l1 ++ l2) = (saved l1 ++ saved l2)%list.
Proof. apply flat_map_app. Qed.

(** The loop over the models of a partition, from enumeration index [s]:
    the final model and last history of every model, the files saved and
    the reports appended, each under the index of its model. *)
Lemma train_models_from (ms : list Model) (s : nat)
    (report report' : DataFrame Metric)
    (history history' : option (History Metric))
    (w w' : world Model Sample Target Metric Callback) :
  mfold (train_models_body fit self training_data targets callback_list
           series_cv partition_num now)
        (report, history)
        (combine (map Z.of_nat (seq s (List.length ms))) (map VModel ms)) w
  = (Ok (report', history'), w') ->
  exists (outs : list (Model * History Metric))
         (reports : list (DataFrame Metric)),
    List.length outs = List.length ms
    /\ saved (events w')
       = (saved (events w)
          ++ combine
               (map (fun i => model_file partition_num now
                                (i + partition_num - 60))
                    (map Z.of_nat (seq s (List.length ms))))
               (map fst outs))%list
    /\ rmap (fun '(i, h) => reporting (i + partition_num - 60) h)
            (combine (map Z.of_nat (seq s (List.length ms))) (map snd outs))
       = Ok reports
    /\ report' = fold_left (@df_append Metric) reports report.
Proof.
  revert s report history w.
  induction ms as [|m ms IH]; intros s report history w Hrun.
  - simpl in Hrun. injection Hrun as <- <- <-.
    exists [], []. simpl. rewrite app_nil_r. repeat split.
  - cbn [List.length seq map combine mfold] in Hrun.
    apply bind_ok in Hrun. destruct Hrun as ([report1 history1] & w1 & Hbody & Hrest).
    apply train_models_body_ok in Hbody.
    destruct Hbody as (steps & h & r & _ & _ & _ & Hr & -> & -> & ->).
    apply IH in Hrest.
    destruct Hrest as (outs & reports & Hlen & Hsaved & Hreports & ->).
    exists ((final_model m steps, h) :: outs), (r :: reports).
    split; [simpl; congruence|].
    split.
    + rewrite Hsaved. cbn [events]. rewrite !saved_app, saved_fit_events.
      cbn [List.length seq map combine fst saved flat_map app].
      rewrite <- !app_assoc. reflexivity.
    + split; [|reflexivity].
      cbn [List.length seq map combine snd rmap]. rewrite Hr. cbn [rbind].
      rewrite Hreports. reflexivity.
Qed.

End BatchFacts.

(** C4 (as amended).  For every batch key K and every enumeration index i
    within the batch, the model index used for the report and for the name
    of the saved model file is i + K - 60: the constant 60, which is the
    default partition length and the length [auto_grid_cv] always
    partitions with, is subtracted, whatever length the batch was made
    with.  Within a batch the indices are strictly increasing in i, and
    they are a function of i and K alone, so that repeated invocations give
    the same indices. *)
Theorem model_index_in_batch
    {Model Sample Target Metric Callback Rate : Type}
    (fit : Model -> fit_args Sample Target Callback
           -> result (Model * History Metric))
    (self : Model_Development Model Rate)
    (training_data : list Sample) (targets : list Target)
    (callback_list : list Callback) (series_cv : list cv_fold)
    (partition_num : Z) (now : string) (ms : list Model)
    (report report' : DataFrame Metric)
    (history history' : option (History Metric))
    (w w' : world Model Sample Target Metric Callback) :
  train_models fit self training_data targets callback_list series_cv
    partition_num now (map VModel ms) report history w
  = (Ok (report', history'), w') ->
  exists (outs : list (Model * History Metric))
         (reports : list (DataFrame Metric)),
    let indices :=
      map (fun i => i + partition_num - 60)
          (Py.range (Z.of_nat (List.length ms))) in
    List.length outs = List.length ms
    /\ saved (events w')
       = (saved (events w)
          ++ combine (map (model_file partition_num now) indices)
                     (map fst outs))%list
    /\ rmap (fun '(index, h) => reporting index h)
            (combine indices (map snd outs))
       = Ok reports
    /\ report' = fold_left (@df_append Metric) reports report
    /\ (forall i j : Z,
          i < j -> i + partition_num - 60 < j + partition_num - 60)
    /\ default_partition_length = 60.
Proof.
  unfold train_models, Py.enumerate, Py.range. rewrite length_map, Nat2Z.id.
  intros Hrun. apply train_models_from in Hrun.
  destruct Hrun as (outs & reports & Hlen & Hsaved & Hreports & ->).
  exists outs, reports. cbn zeta.
  split; [exact Hlen|]. split; [rewrite Hsaved, !map_map; reflexivity|].
  split; [|split; [reflexivity | split; [intros; lia | reflexivity]]].
  rewrite <- Hreports. clear.
  generalize (map snd outs) as hs. generalize (seq 0 (List.length ms)) as ixs.
  induction ixs as [|i ixs IH]; intros [|h hs]; simpl; try reflexivity.
  rewrite IH. reflexivity.
Qed.

Lemma model_index_in_batch_witness :
  exists (outs : list (Z * History Z)),
    saved (events
             (snd (train_models Concrete.fit (Concrete.instance 2)
                     Concrete.series Concrete.series_targets []
                     Concrete.two_folds 120 "T"
                     (map VModel [5; 6]) df_empty None
                     Concrete.empty_world)))
    = combine ["saved_models120_T/model_60.h5"; "saved_models120_T/model_61.h5"]
              (map fst outs).
Proof.
  pose proof
    (fun report' history' w' =>
       @model_index_in_batch Z Z Z Z unit unit Concrete.fit
         (Concrete.instance 2) Concrete.series Concrete.series_targets []
         Concrete.two_folds 120 "T" [5; 6] df_empty report' None history'
         Concrete.empty_world w') as H.
  edestruct H as (outs & reports & _ & Hsaved & _).
  - vm_compute. reflexivity.
  - exists outs. exact Hsaved.
Defined.

(** C4 as stated fails: a batch made with partition length 2 and keyed 2
    gets, from [manual_grid_cv], the model indices -58 and -57, not
    i + K - L = 0 and 1. *)
Lemma model_index_ignores_partition_length :
  dict_partitions (all_models (Concrete.instance 3)) 2
  = Ok [("models2", models_value [0; 100]);
        ("models4", models_value [200])]
  /\ saved (events
              (snd (manual_grid_cv Concrete.fit (Concrete.instance 3)
                      (models_value [0; 100]) 2
                      Concrete.series Concrete.series_targets [] "T"
                      Concrete.empty_world)))
     = [("saved_models2_T/model_-58.h5", 2);
        ("saved_models2_T/model_-57.h5", 102)]
  /\ 0 + 2 - 60 <> 0 + 2 - 2.
Proof. split; [reflexivity|]. split; [vm_compute; reflexivity | lia]. Qed.

(** ** The resume guard *)

(** C6.  For every batch key K, [existence_check] on the partition key
    "models<K>" returns true exactly when some name in the working
    directory starts with "report<K>"; the pass of [auto_grid_cv] over such
    a batch then only prints a message: nothing is trained, no directory is
    made, and the report and history carried by the loop are unchanged. *)
Theorem existence_check_skips
    {Model Sample Target Metric Callback : Type}
    (K : Z) (w : world Model Sample Target Metric Callback) :
  let report_prefix := "report" ++ Py.str K in
  let found :=
    existsb (fun file => Py.startswith file report_prefix)
            (filter is_top_level (Py.keys (fs w))) in
  existence_check (partition_key K) w = (Ok found, w)
  /\ (found = true <->
      exists file, In file (Py.keys (fs w)) /\ is_top_level file = true
                   /\ String.prefix report_prefix file = true)
  /\ (found = true ->
      forall (Rate : Type)
             (fit : Model -> fit_args Sample Target Callback
                    -> result (Model * History Metric))
             (self : Model_Development Model Rate)
             (training_data : list Sample) (targets : list Target)
             (callback_list : list Callback) (series_cv : list cv_fold)
             (partitions : Py.dict (value Model)) (partition_numb : list Z)
             (now : string) (numb_ind : Z) (report : DataFrame Metric)
             (history : option (History Metric)),
        auto_grid_cv_body fit self training_data targets callback_list
          series_cv partitions partition_numb now
          (numb_ind, report, history) (partition_key K) w
        = (Ok (numb_ind + 1, report, history),
           mkWorld (fs w) (events w ++ [EPrint "Report already exists"])%list)).
Proof.
  intros report_prefix found.
  assert (E : existence_check (partition_key K) w = (Ok found, w)).
  { unfold existence_check. rewrite replace_partition_key. reflexivity. }
  split; [exact E|]. split.
  - unfold found. rewrite existsb_exists. split.
    + intros (file & Hin & Hpre). apply filter_In in Hin.
      exists file. tauto.
    + intros (file & Hin & Htop & Hpre). exists file.
      split; [apply filter_In; tauto | exact Hpre].
  - intros Hfound *. unfold auto_grid_cv_body.
    unfold bind at 1. rewrite E, Hfound. reflexivity.
Qed.

Lemma existence_check_skips_witness :
  existence_check (partition_key 60)
    (mkWorld [("report60_20240101_000000.csv", OtherFile)] [])
  = (Ok true,
     mkWorld [("report60_20240101_000000.csv", OtherFile)] []
       : world Z Z Z Z unit)
  /\ auto_grid_cv_body Concrete.fit (Concrete.instance 1) Concrete.series
       Concrete.series_targets [] Concrete.two_folds
       [("models60", models_value [0])] [60] "T" (-1, df_empty, None)
       (partition_key 60)
       (mkWorld [("report60_20240101_000000.csv", OtherFile)] [])
     = (Ok (-1 + 1, df_empty, None),
        mkWorld [("report60_20240101_000000.csv", OtherFile)]
                [EPrint "Report already exists"]).
Proof.
  destruct (@existence_check_skips Z Z Z Z unit 60
              (mkWorld [("report60_20240101_000000.csv", OtherFile)] []))
    as (Hcheck & _ & Hskip).
  split; [exact Hcheck|].
  exact (Hskip eq_refl unit Concrete.fit (Concrete.instance 1) Concrete.series
           Concrete.series_targets [] Concrete.two_folds
           [("models60", models_value [0])] [60] "T" (-1) df_empty None).
Defined.

(** ** The data handed to [fit] *)

Lemma slice_to_firstn {A : Type} (l : list A) (k : nat) :
  Py.slice_to l (Z.of_nat k) = firstn k l.
Proof.
  unfold Py.slice_to, Py.slice, Py.clamp.
  destruct (Z.ltb_spec 0 0); [lia|].
  destruct (Z.ltb_spec (Z.of_nat k) 0); [lia|].
  rewrite (Z.min_l 0) by lia. rewrite Z.sub_0_r. simpl skipn.
  destruct (Nat.le_gt_cases k (List.length l)).
  - rewrite Z.min_l by lia. rewrite Nat2Z.id. reflexivity.
  - rewrite Z.min_r by lia. rewrite Nat2Z.id.
    rewrite firstn_all, firstn_all2 by lia. reflexivity.
Qed.

(** For every fold the training data is the first [len(train)] rows of the
    series, and the validation data the first [len(test)] rows of the same
    series. *)
Lemma fold_fit_args_data {Model Sample Target Callback Rate : Type}
    (self : Model_Development Model Rate)
    (training_data : list Sample) (targets : list Target)
    (callback_list : list Callback) (f : cv_fold) :
  let a := fold_fit_args self training_data targets callback_list f in
  fit_x a = firstn (List.length (fst f)) training_data
  /\ fit_y a = firstn (List.length (fst f)) targets
  /\ fit_validation_data a
     = (firstn (List.length (snd f)) training_data,
        firstn (List.length (snd f)) targets).
Proof.
  unfold fold_fit_args. cbn [fit_x fit_y fit_validation_data].
  rewrite !slice_to_firstn. repeat split.
Qed.

(** The folds of [TimeSeriesSplit]: as many as configured, each with the
    train range [0, c) and the test range [c, c + size) that follows it. *)
Lemma TimeSeriesSplit_folds (n_splits : Z) (n_samples : nat)
    (series_cv : list cv_fold) :
  TimeSeriesSplit n_splits n_samples = Ok series_cv ->
  Z.of_nat (List.length series_cv) = n_splits
  /\ Forall (fun f : cv_fold =>
               exists c size : nat,
                 f = (seq 0 c, seq c size)
                 /\ (0 < size)%nat /\ (c + size <= n_samples)%nat)
            series_cv.
Proof.
  unfold TimeSeriesSplit.
  destruct (Z.leb_spec n_splits 1) as [|Hsplits]; [discriminate|].
  destruct (Z.gtb_spec (n_splits + 1) (Z.of_nat n_samples)) as [|Hfolds];
    [discriminate|].
  intros [= <-]. split; [rewrite length_map, length_seq; lia|].
  set (k := Z.to_nat n_splits).
  replace (Z.to_nat (n_splits + 1)) with (S k) by lia.
  set (size := (n_samples / S k)%nat).
  assert (Hsize : (0 < size)%nat).
  { apply Nat.div_str_pos. lia. }
  assert (Hfit : (S k * size <= n_samples)%nat).
  { apply Nat.Div0.mul_div_le. }
  apply Forall_forall. intros f Hin. apply in_map_iff in Hin.
  destruct Hin as (j & <- & Hj). apply in_seq in Hj.
  eexists. exists size. split; [reflexivity|]. split; [assumption|].
  assert (j * size <= (k - 1) * size)%nat by (apply Nat.mul_le_mono_r; lia).
  nia.
Qed.

Lemma take_indices_seq {A : Type} (l : list A) (c size : nat) :
  (c + size <= List.length l)%nat ->
  take_indices l (seq c size) = firstn size (skipn c l).
Proof.
  revert c. induction size as [|size IH]; intros c Hle; [reflexivity|].
  destruct (nth_error l c) as [a|] eqn:Ha;
    [|apply nth_error_None in Ha; lia].
  unfold take_indices in *. cbn [seq flat_map]. rewrite Ha.
  rewrite (skipn_nth _ _ Ha). cbn [firstn app].
  rewrite IH by lia. reflexivity.
Qed.

(** What the [fit] call of a fold of [TimeSeriesSplit] is given: the rows
    of the train range as training data; as validation data the first rows
    of the series, as many as the test range has, whereas the rows of the
    test range are those that follow the train range. *)
Lemma fold_data_of_split {Model Sample Target Callback Rate : Type}
    (self : Model_Development Model Rate)
    (training_data : list Sample) (targets : list Target)
    (callback_list : list Callback) (n_splits : Z)
    (series_cv : list cv_fold) (f : cv_fold) :
  TimeSeriesSplit n_splits (List.length training_data) = Ok series_cv ->
  In f series_cv ->
  let a := fold_fit_args self training_data targets callback_list f in
  fit_x a = take_indices training_data (fst f)
  /\ fst (fit_validation_data a) = firstn (List.length (snd f)) training_data
  /\ take_indices training_data (snd f)
     = firstn (List.length (snd f))
         (skipn (List.length (fst f)) training_data).
Proof.
  intros Hsplit Hin a.
  destruct (TimeSeriesSplit_folds _ _ Hsplit) as [_ Hfolds].
  rewrite Forall_forall in Hfolds.
  destruct (Hfolds f Hin) as (c & size & -> & Hsize & Hfit).
  destruct (fold_fit_args_data self training_data targets callback_list
              (seq 0 c, seq c size)) as (Hx & _ & Hval).
  fold a in Hx, Hval. rewrite Hx, Hval. cbn [fst snd].
  rewrite !length_seq.
  rewrite (take_indices_seq training_data 0 c) by lia.
  rewrite (take_indices_seq training_data c size) by lia.
  repeat split.
Qed.

(** C3, at a series of six rows with two folds: the folds are
    (rows 0-1, rows 2-3) and (rows 0-3, rows 4-5); each [fit] call gets the
    rows of its train range as training data, but as validation data it
    gets rows 0-1 of the series in both folds, not rows 2-3 and rows 4-5.
    [auto_grid_cv] makes the same calls. *)
Lemma validation_data_is_series_prefix :
  let calls :=
    Concrete.fit_calls
      (events (snd (manual_grid_cv Concrete.fit (Concrete.instance 1)
                      (all_models (Concrete.instance 1)) 60
                      Concrete.series Concrete.series_targets [] "T"
                      Concrete.empty_world))) in
  let auto_calls :=
    Concrete.fit_calls
      (events (snd (auto_grid_cv Concrete.fit (Concrete.instance 1)
                      Concrete.series Concrete.series_targets [] "T"
                      Concrete.empty_world))) in
  TimeSeriesSplit (folds Concrete.the_params) (List.length Concrete.series)
  = Ok Concrete.two_folds
  /\ map (@fit_x Z Z unit) calls
     = map (fun f => take_indices Concrete.series (fst f)) Concrete.two_folds
  /\ map (fun a => fst (fit_validation_data a)) calls = [[10; 11]; [10; 11]]
  /\ map (fun f => take_indices Concrete.series (snd f)) Concrete.two_folds
     = [[12; 13]; [14; 15]]
  /\ auto_calls = calls.
Proof. vm_compute. repeat split. Qed.

(** ** The report files of [auto_grid_cv] *)

(** C2, at 61 models (two batches, keyed 60 and 120) with no report on
    disk: the file written for batch 120 holds the 120 rows of the 60
    models of batch 60 before the 2 rows of its own model, whereas
    [manual_grid_cv] on batch 120 alone writes the 2 rows. *)
Lemma second_report_contains_first_batch :
  let run :=
    auto_grid_cv Concrete.fit (Concrete.instance 61) Concrete.series
      Concrete.series_targets [] "T" Concrete.empty_world in
  let alone :=
    manual_grid_cv Concrete.fit (Concrete.instance 61)
      (models_value [6000]) 120 Concrete.series
      Concrete.series_targets [] "T" Concrete.empty_world in
  dict_partitions (all_models (Concrete.instance 61)) default_partition_length
  = Ok [("models60", models_value (map (fun i => Z.of_nat i * 100) (seq 0 60)));
        ("models120", models_value [6000])]
  /\ fst run = Ok tt
  /\ exists df own : DataFrame Z,
       Py.getitem (fs (snd run)) "report120_T.csv" = Ok (CsvFile df)
       /\ Py.getitem (fs (snd alone)) "report120_T.csv" = Ok (CsvFile own)
       /\ own = mkDataFrame 2 [("models", [CInt 60; CInt 60]);
                               ("epochs", [CInt 1; CInt 2]);
                               ("loss", [CVal 4; CVal 2])]
       /\ nrows df = 122%nat
       /\ firstn 1 (df_rows df)
          = [[("models", CInt 0); ("epochs", CInt 1); ("loss", CVal 4)]]
       /\ skipn 120 (df_rows df) = df_rows own.
Proof.
  cbv zeta. split; [vm_compute; reflexivity|]. split; [vm_compute; reflexivity|].
  eexists. eexists.
  split; [vm_compute; reflexivity|].
  split; [vm_compute; reflexivity|].
  split; [reflexivity|]. vm_compute. repeat split.
Qed.

(** * Further properties *)

(** ** Partition keys *)

(** X1.  The number read from a partition key by [get_partition_number]
    (split at "s", second part, [int]) is the number the key was made
    from by [dict_partitions], for every integer; distinct numbers give
    distinct keys. *)
Theorem partition_key_round_trip (n n' : Z) :
  key_number (partition_key n) = Ok n
  /\ Py.split "s" (partition_key n) = ["model"; Py.str n]
  /\ (partition_key n = partition_key n' -> n = n').
Proof.
  split; [apply key_number_partition_key|]. split.
  - unfold partition_key. simpl.
    rewrite split_numeric by apply numeric_str. reflexivity.
  - apply partition_key_inj.
Qed.

(** ** The combination generator, completed *)

Lemma flat_map_length_const {A B : Type} (f : A -> list B) (l : list A)
    (m : nat) :
  (forall a, List.length (f a) = m) ->
  List.length (flat_map f l) = (List.length l * m)%nat.
Proof.
  intros H. induction l as [|a l IH]; simpl; [reflexivity|].
  rewrite length_app, IH, H. reflexivity.
Qed.

Lemma product5_length (r1 r2 r3 r4 r5 : list Z) :
  List.length (product5 r1 r2 r3 r4 r5)
  = (List.length r1 * List.length r2 * List.length r3 * List.length r4
     * List.length r5)%nat.
Proof.
  unfold product5.
  rewrite (flat_map_length_const _ r1
             (m := (List.length r2 * (List.length r3
                     * (List.length r4 * List.length r5)))%nat)); [lia|].
  intros a.
  rewrite (flat_map_length_const _ r2
             (m := (List.length r3 * (List.length r4 * List.length r5))%nat));
    [reflexivity|].
  intros b.
  rewrite (flat_map_length_const _ r3
             (m := (List.length r4 * List.length r5)%nat)); [reflexivity|].
  intros c.
  rewrite (flat_map_length_const _ r4 (m := List.length r5)); [reflexivity|].
  intros d. apply length_map.
Qed.

Lemma product5_in (r1 r2 r3 r4 r5 : list Z) (a b c d e : Z) :
  In (a, b, c, d, e) (product5 r1 r2 r3 r4 r5)
  <-> In a r1 /\ In b r2 /\ In c r3 /\ In d r4 /\ In e r5.
Proof.
  unfold product5. split.
  - intros H.
    apply in_flat_map in H. destruct H as (a' & Ha & H).
    apply in_flat_map in H. destruct H as (b' & Hb & H).
    apply in_flat_map in H. destruct H as (c' & Hc & H).
    apply in_flat_map in H. destruct H as (d' & Hd & H).
    apply in_map_iff in H. destruct H as (e' & [= <- <- <- <- <-] & He).
    tauto.
  - intros (Ha & Hb & Hc & Hd & He).
    apply in_flat_map. exists a. split; [assumption|].
    apply in_flat_map. exists b. split; [assumption|].
    apply in_flat_map. exists c. split; [assumption|].
    apply in_flat_map. exists d. split; [assumption|].
    apply in_map. assumption.
Qed.

(** X2.  On an instance in "full" mode the generator returns as many
    combinations as the product of the lengths of the five ranges; in
    "test" mode it returns the first ten of them, or all when there are
    fewer. *)
Theorem all_combinations_count {Model Rate : Type}
    (self : Model_Development Model Rate) :
  mode self = "full" \/ mode self = "test" ->
  exists combinations,
    all_combinations self = Ok (Some combinations)
    /\ List.length combinations
       = (if String.eqb (mode self) "full"
          then product_size (hyper_params self)
          else Nat.min 10 (product_size (hyper_params self)))
    /\ combinations
       = (if String.eqb (mode self) "full" then (fun l => l) else firstn 10)
           (product5 (filter_num1 (hyper_params self))
              (filter_num2 (hyper_params self))
              (num_of_dense (hyper_params self))
              (dense_len1 (hyper_params self))
              (dense_len2 (hyper_params self))).
Proof.
  unfold all_combinations, product_size. intros [Hmode|Hmode]; rewrite Hmode.
  - simpl String.eqb. eexists. split; [reflexivity|].
    split; [apply product5_length | reflexivity].
  - simpl String.eqb. eexists. split; [reflexivity|].
    change 10 with (Z.of_nat 10). rewrite slice_to_firstn.
    split; [|reflexivity].
    rewrite length_firstn, product5_length. reflexivity.
Qed.

Lemma all_combinations_count_witness :
  exists combinations,
    all_combinations (Scenario.instance "test") = Ok (Some combinations)
    /\ List.length combinations = 2%nat.
Proof.
  destruct (@all_combinations_count Z unit (Scenario.instance "test"))
    as (combinations & E & Hlen & _).
  - right. reflexivity.
  - exists combinations. split; [exact E | exact Hlen].
Defined.

(** X3.  For ranges of 64-bit integers, in "full" mode a tuple is among
    the combinations exactly when each of its five components is in the
    corresponding range, and the combinations are pairwise distinct when
    no range repeats a value. *)
Theorem all_combinations_complete {Model Rate : Type}
    (self : Model_Development Model Rate) (combinations : list combination) :
  mode self = "full" ->
  int64_ranges (hyper_params self) ->
  all_combinations self = Ok (Some combinations) ->
  (forall a b c d e,
      In (a, b, c, d, e) combinations
      <-> In a (filter_num1 (hyper_params self))
          /\ In b (filter_num2 (hyper_params self))
          /\ In c (num_of_dense (hyper_params self))
          /\ In d (dense_len1 (hyper_params self))
          /\ In e (dense_len2 (hyper_params self)))
  /\ (NoDup (filter_num1 (hyper_params self)) ->
      NoDup (filter_num2 (hyper_params self)) ->
      NoDup (num_of_dense (hyper_params self)) ->
      NoDup (dense_len1 (hyper_params self)) ->
      NoDup (dense_len2 (hyper_params self)) ->
      NoDup combinations).
Proof.
  unfold all_combinations. intros -> _ [= <-]. split.
  - intros. apply product5_in.
  - generalize (filter_num1 (hyper_params self)) as r1.
    generalize (filter_num2 (hyper_params self)) as r2.
    generalize (num_of_dense (hyper_params self)) as r3.
    generalize (dense_len1 (hyper_params self)) as r4.
    generalize (dense_len2 (hyper_params self)) as r5.
    intros r5 r4 r3 r2 r1 H1 H2 H3 H4 H5.
    assert (Hflat : forall (A B : Type) (f : A -> list B) (l : list A),
               NoDup l -> (forall a, NoDup (f a)) ->
               (forall a a' y, In y (f a) -> In y (f a') -> a = a') ->
               NoDup (flat_map f l)).
    { intros A B f l Hl Hf Hsep. induction Hl as [|x l Hx Hl IH]; simpl.
      - constructor.
      - apply NoDup_app; [apply Hf | exact IH |].
        intros y Hy Hin. apply in_flat_map in Hin.
        destruct Hin as (x' & Hx' & Hy').
        rewrite (Hsep _ _ _ Hy Hy') in Hx. contradiction. }
    unfold product5.
    apply Hflat; [assumption | |].
    + intros a. apply Hflat; [assumption | |].
      * intros b. apply Hflat; [assumption | |].
        -- intros c. apply Hflat; [assumption | |].
           ++ intros d. apply NoDup_map_NoDup_ForallPairs; [|assumption].
              intros e e' _ _ [= ->]. reflexivity.
           ++ intros d d' y Hy Hy'.
              apply in_map_iff in Hy. destruct Hy as (e & <- & _).
              apply in_map_iff in Hy'. destruct Hy' as (e' & [= <- _] & _).
              reflexivity.
        -- intros c c' y Hy Hy'.
           apply in_flat_map in Hy. destruct Hy as (d & _ & Hy).
           apply in_map_iff in Hy. destruct Hy as (e & <- & _).
           apply in_flat_map in Hy'. destruct Hy' as (d' & _ & Hy').
           apply in_map_iff in Hy'. destruct Hy' as (e' & [= <- _ _] & _).
           reflexivity.
      * intros b b' y Hy Hy'.
        apply in_flat_map in Hy. destruct Hy as (c & _ & Hy).
        apply in_flat_map in Hy. destruct Hy as (d & _ & Hy).
        apply in_map_iff in Hy. destruct Hy as (e & <- & _).
        apply in_flat_map in Hy'. destruct Hy' as (c' & _ & Hy').
        apply in_flat_map in Hy'. destruct Hy' as (d' & _ & Hy').
        apply in_map_iff in Hy'. destruct Hy' as (e' & [= <- _ _ _] & _).
        reflexivity.
    + intros a a' y Hy Hy'.
      apply in_flat_map in Hy. destruct Hy as (b & _ & Hy).
      apply in_flat_map in Hy. destruct Hy as (c & _ & Hy).
      apply in_flat_map in Hy. destruct Hy as (d & _ & Hy).
      apply in_map_iff in Hy. destruct Hy as (e & <- & _).
      apply in_flat_map in Hy'. destruct Hy' as (b' & _ & Hy').
      apply in_flat_map in Hy'. destruct Hy' as (c' & _ & Hy').
      apply in_flat_map in Hy'. destruct Hy' as (d' & _ & Hy').
      apply in_map_iff in Hy'. destruct Hy' as (e' & [= <- _ _ _ _] & _).
      reflexivity.
Qed.

Lemma all_combinations_complete_witness :
  int64_ranges Scenario.ranges
  /\ (In (8, 2, 1, 16, 16) [(4, 2, 1, 16, 16); (8, 2, 1, 16, 16)]
      <-> In 8 [4; 8] /\ In 2 [2] /\ In 1 [1] /\ In 16 [16] /\ In 16 [16]).
Proof.
  assert (H : int64_ranges Scenario.ranges)
    by (unfold int64_ranges, int64; cbn; repeat split;
        repeat constructor; lia).
  split; [exact H|].
  exact (proj1 (@all_combinations_complete Z unit (Scenario.instance "full")
                  _ eq_refl H eq_refl) 8 2 1 16 16).
Defined.

(** The monadic map over a function that accepts some items and raises
    one error for the others. *)
Lemma rmap_accepts {A B : Type} (f : A -> result B) (p : A -> bool)
    (g : A -> B) (e : exn) (l : list A) :
  (forall a, f a = if p a then Ok (g a) else Raise e) ->
  rmap f l = if forallb p l then Ok (map g l) else Raise e.
Proof.
  intros Hf. induction l as [|a l IH]; [reflexivity|].
  cbn [rmap forallb map]. rewrite Hf, IH.
  destruct (p a); [|reflexivity].
  destruct (forallb p l); reflexivity.
Qed.

(** The models [build_all_models] makes of a list of combinations. *)
Lemma build_models {Model Init Rate : Type}
    (new_model : Sequential Init Rate -> Model)
    (shape : list Z) (model_params : CNN_params Rate)
    (initialisation : Init) (combinations : list combination) :
  exists archs : list (Sequential Init Rate),
    List.length archs = List.length combinations
    /\ rmap (fun combin : combination =>
               let '(c0, c1, c2, c3, c4) := combin in
               model <- model_builder shape model_params c0 c1 c2 c3 c4
                          initialisation default_filter_size ;;
               Ok (VModel (new_model model)))
            combinations
       = (if forallb (buildable_combination shape) combinations
          then Ok (map VModel (map new_model archs))
          else Raise ValueError)
    /\ rmap (fun combin : combination =>
               let '(c0, c1, c2, c3, c4) := combin in
               model_builder shape model_params c0 c1 c2 c3 c4
                 initialisation default_filter_size)
            combinations
       = (if forallb (buildable_combination shape) combinations
          then Ok archs
          else Raise ValueError).
Proof.
  pose (arch := fun combin : combination =>
          let '(c0, c1, c2, c3, c4) := combin in
          match model_builder shape model_params c0 c1 c2 c3 c4
                  initialisation default_filter_size with
          | Ok model => model
          | Raise _ => mkSequential [] None None
          end).
  assert (Hone : forall combin : combination,
             (let '(c0, c1, c2, c3, c4) := combin in
              model_builder shape model_params c0 c1 c2 c3 c4
                initialisation default_filter_size)
             = if buildable_combination shape combin
               then Ok (arch combin) else Raise ValueError).
  { intros [[[[c0 c1] c2] c3] c4]. unfold arch, buildable_combination.
    rewrite model_builder_returns.
    destruct (buildable _ _ _ _ _ _ _); reflexivity. }
  exists (map arch combinations). split; [apply length_map|]. split.
  - rewrite !map_map.
    apply (rmap_accepts _ (buildable_combination shape)
             (fun combin => VModel (new_model (arch combin)))).
    intros [[[[c0 c1] c2] c3] c4].
    pose proof (Hone (c0, c1, c2, c3, c4)) as H. cbv beta iota in H.
    rewrite H. destruct (buildable_combination _ _); reflexivity.
  - apply (rmap_accepts _ (buildable_combination shape) arch). exact Hone.
Qed.



(** ** The partitioner with other lengths, and positions *)

(** X5.  With a partition length that is not positive the partitioner
    does not partition: with length 0 and at least one model both
    [partitions_split] and [dict_partitions] raise ZeroDivisionError, and
    with a negative length both return nothing (no batch, an empty
    dictionary) and raise nothing, whatever the models. *)
Theorem partitions_split_nonpositive_length {Model : Type} (ms : list Model)
    (partition_length : Z) :
  (ms <> [] ->
   partitions_split (models_value ms) 0 = Raise ZeroDivisionError
   /\ dict_partitions (models_value ms) 0 = Raise ZeroDivisionError)
  /\ (partition_length < 0 ->
      partitions_split (models_value ms) partition_length = Ok []
      /\ dict_partitions (models_value ms) partition_length = Ok []).
Proof.
  split.
  - intros Hms.
    assert (E : partitions_split (models_value ms) 0 = Raise ZeroDivisionError).
    { unfold partitions_split, models_value. cbn [py_len rbind].
      rewrite length_map.
      destruct (Z.leb_spec (Z.of_nat (List.length ms)) 0) as [H|H].
      - destruct ms; [contradiction | simpl in H; lia].
      - reflexivity. }
    split; [exact E|].
    unfold dict_partitions. rewrite E. unfold models_value.
    cbn [py_len rbind]. rewrite length_map.
    destruct (Z.leb_spec (Z.of_nat (List.length ms)) 0); reflexivity.
  - intros Hneg.
    assert (E : partitions_split (models_value ms) partition_length = Ok []).
    { unfold partitions_split, models_value. cbn [py_len rbind].
      rewrite length_map.
      destruct (Z.leb_spec (Z.of_nat (List.length ms)) partition_length);
        [lia|].
      unfold Py.ceil_div. destruct (Z.eqb_spec partition_length 0); [lia|].
      cbn [rbind]. unfold Py.range.
      assert (Hq : 0 <= - Z.of_nat (List.length ms) / partition_length).
      { rewrite <- (Z.opp_involutive partition_length) at 1.
        rewrite Z.div_opp_opp by lia. apply Z.div_pos; lia. }
      replace (Z.to_nat (- (- Z.of_nat (List.length ms) / partition_length)))
        with 0%nat by lia.
      reflexivity. }
    split; [exact E|].
    unfold dict_partitions. rewrite E. unfold models_value.
    cbn [py_len rbind]. rewrite length_map.
    destruct (Z.leb_spec (Z.of_nat (List.length ms)) partition_length);
      [lia | reflexivity].
Qed.

Lemma partitions_split_nonpositive_length_witness :
  partitions_split (models_value [7; 8]%nat) 0 = Raise ZeroDivisionError
  /\ dict_partitions (models_value [7; 8]%nat) (-3) = Ok [].
Proof.
  destruct (@partitions_split_nonpositive_length nat [7; 8]%nat (-3))
    as [Hzero Hneg].
  split.
  - apply Hzero. discriminate.
  - apply Hneg. lia.
Defined.

(** The dictionary of a list of models, for any positive length: batch
    [x] is the chunk at [x], under the key of [(x + 1) * pl]. *)
Lemma dict_partitions_models {Model : Type} (ms : list Model) (pl : Z) :
  0 < pl ->
  exists k : nat,
    dict_partitions (models_value ms) pl
    = Ok (map (fun '(index, b) =>
                 (partition_key ((index + 1) * pl), models_value b))
              (Py.enumerate (map (chunk (Z.to_nat pl) ms) (seq 0 k))))
    /\ (1 <= k)%nat
    /\ (List.length ms <= k * Z.to_nat pl)%nat.
Proof.
  intros Hpl.
  destruct (Z.le_gt_cases (Z.of_nat (List.length ms)) pl) as [Hsmall|Hbig].
  - exists 1%nat. split; [|lia].
    unfold dict_partitions. rewrite partitions_split_small by assumption.
    unfold models_value at 1. cbn [py_len rbind]. rewrite length_map.
    destruct (Z.leb_spec (Z.of_nat (List.length ms)) pl); [|lia].
    change (map (chunk (Z.to_nat pl) ms) (seq 0 1))
      with [chunk (Z.to_nat pl) ms 0].
    change (Py.enumerate [chunk (Z.to_nat pl) ms 0])
      with [(0, chunk (Z.to_nat pl) ms 0)].
    cbn [rbind map]. replace ((0 + 1) * pl) with pl by lia.
    unfold chunk. simpl skipn. rewrite firstn_all2 by lia. reflexivity.
  - destruct (partitions_split_chunks ms Hpl Hbig) as (k & Hk & E).
    exists k. split; [apply (dict_partitions_large ms _ Hpl Hbig E)|].
    split; nia.
Qed.

Lemma combine_seq_nth {A : Type} (l : list A) (s x : nat) :
  nth_error (combine (map Z.of_nat (seq s (List.length l))) l) x
  = option_map (fun a => (Z.of_nat (s + x), a)) (nth_error l x).
Proof.
  revert s x. induction l as [|a l IH]; intros s x.
  - destruct x; reflexivity.
  - destruct x; simpl.
    + rewrite Nat.add_0_r. reflexivity.
    + rewrite IH. replace (S s + x)%nat with (s + S x)%nat by lia.
      reflexivity.
Qed.

Lemma enumerate_nth {A : Type} (l : list A) (x : nat) :
  nth_error (Py.enumerate l) x
  = option_map (fun a => (Z.of_nat x, a)) (nth_error l x).
Proof.
  unfold Py.enumerate, Py.range. rewrite Nat2Z.id.
  apply (combine_seq_nth l 0 x).
Qed.

(** The partitions [auto_grid_cv] works with, for a list of models. *)
Lemma default_partitions_models {Model : Type} (ms : list Model) :
  exists k : nat,
    dict_partitions (models_value ms) default_partition_length
    = Ok (map (fun '(index, b) =>
                 (partition_key ((index + 1) * 60), models_value b))
              (Py.enumerate (map (chunk 60 ms) (seq 0 k))))
    /\ get_partition_number (models_value ms)
       = Ok (map (fun x => (Z.of_nat x + 1) * 60) (seq 0 k))
    /\ (1 <= k)%nat
    /\ (List.length ms <= k * 60)%nat.
Proof.
  destruct (@dict_partitions_models Model ms 60 ltac:(lia)) as (k & E & Hk & Hn).
  change (Z.to_nat 60) with 60%nat in *.
  exists k. split; [exact E|]. split; [|split; assumption].
  unfold get_partition_number. unfold default_partition_length in *.
  rewrite E. cbn [rbind]. rewrite keys_of_partitions, rmap_key_number.
  rewrite length_map, length_seq. unfold Py.range.
  rewrite Nat2Z.id, map_map. reflexivity.
Qed.



(** ** The reporter *)

Section ReporterErrors.

Context {Metric : Type}.

Lemma reporting_raised (e : exn) (results : History Metric) :
  fold_left
    (fun acc '(key, values) =>
       rbind acc (fun report : DataFrame Metric =>
                    df_setitem report key (map (@CVal Metric) values)))
    results (Raise e)
  = Raise e.
Proof.
  induction results as [|[key values] results IH]; simpl; auto.
Qed.

Lemma reporting_mismatch (n : nat) (results : History Metric)
    (df : DataFrame Metric) :
  nrows df = n -> (0 < n)%nat ->
  Exists (fun kv => List.length (snd kv) <> n) results ->
  fold_left
    (fun acc '(key, values) =>
       rbind acc (fun report => df_setitem report key (map (@CVal Metric) values)))
    results (Ok df)
  = Raise ValueError.
Proof.
  revert df. induction results as [|[key values] results IH];
    intros df Hn Hpos Hbad; [inversion Hbad|].
  cbn [fold_left rbind].
  assert (Estep : df_setitem df key (map (@CVal Metric) values)
                  = if Nat.eqb (List.length values) n
                    then Ok (mkDataFrame n
                               (Py.setitem (columns df) key
                                  (map (@CVal Metric) values)))
                    else Raise ValueError).
  { unfold df_setitem. rewrite length_map, Hn.
    destruct (Nat.eqb_spec n 0) as [|_]; [lia|]. reflexivity. }
  rewrite Estep.
  destruct (Nat.eqb_spec (List.length values) n) as [Hv|Hv].
  - apply IH; [reflexivity | assumption |].
    inversion Hbad as [? ? Hhead|]; subst; [|assumption].
    simpl in Hhead. contradiction.
  - apply reporting_raised.
Qed.

End ReporterErrors.

(** X7.  [reporting] raises KeyError on a history without a "loss" entry,
    and ValueError on a history whose "loss" has at least one epoch and
    one of whose metrics has another number of epochs. *)
Theorem reporting_errors {Metric : Type} (model : Z)
    (results : History Metric) :
  (~ In "loss" (Py.keys results) -> reporting model results = Raise KeyError)
  /\ (forall loss,
        Py.getitem results "loss" = Ok loss -> loss <> [] ->
        Exists (fun kv => List.length (snd kv) <> List.length loss) results ->
        reporting model results = Raise ValueError).
Proof.
  split.
  - intros H. unfold reporting. rewrite (getitem_missing _ _ H). reflexivity.
  - intros loss Hloss Hne Hbad. unfold reporting. rewrite Hloss. cbn [rbind].
    pose proof (reporting_header (Metric := Metric) model (List.length loss))
      as Hh.
    destruct (df_setitem (df_with_columns ["models"; "epochs"]) "epochs" _)
      as [report|e]; [|discriminate].
    cbn [rbind] in *.
    assert (Hdf : df_setitem_scalar report "models" (CInt model)
                  = mkDataFrame (List.length loss)
                      [("models", repeat (CInt model) (List.length loss));
                       ("epochs",
                        map CInt (map Z.of_nat (seq 1 (List.length loss))))])
      by congruence.
    rewrite Hdf.
    apply (reporting_mismatch (n := List.length loss)); [reflexivity | |assumption].
    destruct loss; [contradiction | simpl; lia].
Qed.

Lemma reporting_errors_witness :
  reporting 3 [("MAE", [5; 6])] = Raise KeyError
  /\ reporting 3 [("loss", [1; 2]); ("MAE", [5; 6; 7])] = Raise ValueError.
Proof.
  split.
  - apply (proj1 (@reporting_errors Z 3 [("MAE", [5; 6])])).
    simpl. intros [H|[]]. discriminate.
  - apply (proj2 (@reporting_errors Z 3 [("loss", [1; 2]); ("MAE", [5; 6; 7])])
             [1; 2]).
    + reflexivity.
    + discriminate.
    + apply Exists_cons_tl, Exists_cons_hd. simpl. lia.
Defined.

(** X8.  On a history with a "loss" entry of [n] epochs, all of whose
    metrics have [n] epochs and are named differently from each other and
    from "models" and "epochs", [reporting] returns the table of [n] rows
    whose column "models" holds the model index in every row, whose column
    "epochs" counts from 1 to [n], followed by one column per metric, in
    the order of the history, with the values of the metric. *)
Theorem reporting_table {Metric : Type} (model : Z)
    (results : History Metric) (loss : list Metric) :
  Py.getitem results "loss" = Ok loss ->
  Forall (fun kv => List.length (snd kv) = List.length loss) results ->
  NoDup ("models" :: "epochs" :: Py.keys results) ->
  reporting model results
  = Ok (mkDataFrame (List.length loss)
          ([("models", repeat (CInt model) (List.length loss));
            ("epochs", map (fun i => CInt (Z.of_nat i))
                           (seq 1 (List.length loss)))]
           ++ map (fun '(key, values) => (key, map (@CVal Metric) values)) results)%list).
Proof.
  intros Hloss Hlen Hnd. unfold reporting. rewrite Hloss. cbn [rbind].
  pose proof (reporting_header (Metric := Metric) model (List.length loss))
    as Hh.
  destruct (df_setitem (df_with_columns ["models"; "epochs"]) "epochs" _)
    as [report|e]; [|discriminate].
  cbn [rbind] in *.
  assert (Hdf : df_setitem_scalar report "models" (CInt model)
                = mkDataFrame (List.length loss)
                    [("models", repeat (CInt model) (List.length loss));
                     ("epochs",
                      map CInt (map Z.of_nat (seq 1 (List.length loss))))])
    by congruence.
  rewrite Hdf.
  rewrite (reporting_metrics (n := List.length loss));
    [rewrite map_map; reflexivity | reflexivity | assumption | exact Hnd].
Qed.

Lemma reporting_table_witness :
  reporting 3 [("loss", [1; 2]); ("MAE", [5; 6])]
  = Ok (mkDataFrame 2 [("models", [CInt 3; CInt 3]);
                       ("epochs", [CInt 1; CInt 2]);
                       ("loss", [CVal 1; CVal 2]);
                       ("MAE", [CVal 5; CVal 6])]).
Proof.
  apply (@reporting_table Z 3 [("loss", [1; 2]); ("MAE", [5; 6])] [1; 2]).
  - reflexivity.
  - repeat constructor.
  - repeat constructor; simpl; intuition discriminate.
Defined.

(** ** The model factory, completed *)

(** The data and the combinations the factory accepts, spelled out. *)
Lemma buildable_spec (data_shape : list Z)
    (conv1_filter_num conv2_filter_num num_of_dense dense1_length
       dense2_length filter_size : Z) :
  buildable data_shape conv1_filter_num conv2_filter_num num_of_dense
    dense1_length dense2_length filter_size = true
  <-> exists steps channels,
        tl data_shape = [steps; channels]
        /\ 4 <= steps /\ 1 <= channels
        /\ 1 <= conv1_filter_num /\ 1 <= conv2_filter_num
        /\ 2 <= filter_size
        /\ (1 <= num_of_dense -> 1 <= dense1_length)
        /\ (2 <= num_of_dense -> 1 <= dense2_length).
Proof.
  unfold buildable. split.
  - destruct (tl data_shape) as [|steps [|channels [|x rest]]];
      try discriminate.
    intros H. exists steps, channels. split; [reflexivity|].
    repeat match type of H with
           | (_ && _)%bool = true =>
               apply andb_prop in H;
               let H' := fresh "H" in destruct H as [H H']
           end.
    repeat match goal with
           | H : (_ || _)%bool = true |- _ => apply orb_prop in H
           | H : (_ <=? _) = true |- _ => apply Z.leb_le in H
           end.
    repeat split; try assumption.
    + intros Hn.
      match goal with
      | H : (num_of_dense <? 1) = true \/ _ |- _ =>
          destruct H as [H|H]; [apply Z.ltb_lt in H; lia | apply Z.leb_le, H]
      end.
    + intros Hn.
      match goal with
      | H : (num_of_dense <? 2) = true \/ _ |- _ =>
          destruct H as [H|H]; [apply Z.ltb_lt in H; lia | apply Z.leb_le, H]
      end.
  - intros (steps & channels & -> & Hs & Hc & H1 & H2 & Hf & Hd1 & Hd2).
    repeat (apply andb_true_intro; split); try (apply Z.leb_le; assumption).
    + destruct (Z.ltb_spec num_of_dense 1); [reflexivity|].
      apply Z.leb_le, Hd1. lia.
    + destruct (Z.ltb_spec num_of_dense 2); [reflexivity|].
      apply Z.leb_le, Hd2. lia.
Qed.



(** ** The working directory during a run *)

Section WorldFacts.

Context {Model Sample Target Metric Callback : Type}.

Abbreviation World' := (world Model Sample Target Metric Callback).
Abbreviation Comp := (M Model Sample Target Metric Callback).

Lemma keys_setitem {V : Type} (d : Py.dict V) (k : string) (v : V) :
  Py.keys (Py.setitem d k v)
  = if existsb (String.eqb k) (Py.keys d) then Py.keys d
    else (Py.keys d ++ [k])%list.
Proof.
  induction d as [|[k' v'] d IH]; simpl; [reflexivity|].
  rewrite (String.eqb_sym k k').
  destruct (String.eqb_spec k' k) as [->|Hne]; simpl; [reflexivity|].
  rewrite IH. destruct (existsb (String.eqb k) (Py.keys d)); reflexivity.
Qed.

Lemma keys_setitem_in {V : Type} (d : Py.dict V) (k path : string) (v : V) :
  In path (Py.keys d) -> In path (Py.keys (Py.setitem d k v)).
Proof.
  intros H. rewrite keys_setitem.
  destruct (existsb (String.eqb k) (Py.keys d)); [assumption|].
  apply in_or_app. auto.
Qed.

Lemma keys_setitem_new {V : Type} (d : Py.dict V) (k : string) (v : V) :
  In k (Py.keys (Py.setitem d k v)).
Proof.
  rewrite keys_setitem.
  destruct (existsb (String.eqb k) (Py.keys d)) eqn:E.
  - apply existsb_exists in E. destruct E as (k' & Hin & Heq).
    apply String.eqb_eq in Heq. subst. assumption.
  - apply in_or_app. right. left. reflexivity.
Qed.

Lemma getitem_setitem {V : Type} (d : Py.dict V) (k : string) (v : V) :
  Py.getitem (Py.setitem d k v) k = Ok v.
Proof.
  induction d as [|[k' v'] d IH]; simpl.
  - rewrite String.eqb_refl. reflexivity.
  - destruct (String.eqb_spec k' k) as [->|Hne]; simpl.
    + rewrite String.eqb_refl. reflexivity.
    + destruct (String.eqb_spec k' k); [contradiction | exact IH].
Qed.

Lemma is_top_level_app (a b : string) :
  is_top_level (a ++ b) = is_top_level a && is_top_level b.
Proof.
  unfold is_top_level. induction a as [|c a IH]; [reflexivity|].
  cbn [append list_ascii_of_string existsb].
  destruct (Ascii.eqb "/" c); cbn [orb negb andb]; [reflexivity | exact IH].
Qed.

Lemma is_top_level_numeric (s : string) :
  numeric s = true -> is_top_level s = true.
Proof.
  unfold is_top_level. induction s as [|c s IH]; [reflexivity|].
  cbn [numeric list_ascii_of_string existsb].
  intros H. apply andb_prop in H. destruct H as [Hc Hs].
  specialize (IH Hs).
  destruct (Ascii.eqb_spec "/" c) as [<-|_]; [discriminate Hc|].
  cbn [orb]. exact IH.
Qed.

Lemma prefix_app (a b : string) : String.prefix a (a ++ b) = true.
Proof.
  induction a as [|c a IH]; simpl; [destruct b; reflexivity|].
  destruct (ascii_dec c c); [exact IH | contradiction].
Qed.

Lemma prefix_shorter (a b f : string) :
  String.prefix (a ++ b) f = true -> String.prefix a f = true.
Proof.
  revert f. induction a as [|c a IH]; intros f H.
  - destruct f; reflexivity.
  - destruct f as [|c' f]; [discriminate|].
    cbn [append String.prefix] in *.
    destruct (ascii_dec c c'); [apply IH; exact H | discriminate].
Qed.

Lemma existsb_filter {A : Type} (p q : A -> bool) (l : list A) :
  (forall x, p x = true -> q x = true) ->
  existsb p (filter q l) = existsb p l.
Proof.
  intros H. induction l as [|x l IH]; simpl; [reflexivity|].
  destruct (q x) eqn:Hq; simpl; rewrite IH; [reflexivity|].
  destruct (p x) eqn:Hp; [|reflexivity].
  rewrite (H x Hp) in Hq. discriminate.
Qed.

(** What the guard answers only depends on the names that start with
    "report". *)
Lemma guard_value (K : Z) (w : World') :
  existence_check (partition_key K) w
  = (Ok (existsb (fun file => String.prefix ("report" ++ Py.str K) file)
                 (report_names w)),
     w).
Proof.
  unfold existence_check. rewrite replace_partition_key.
  unfold bind, listdir, ret, report_names, Py.startswith. f_equal. f_equal.
  symmetry. apply existsb_filter. intros file H.
  apply (prefix_shorter "report" (Py.str K)). exact H.
Qed.

Lemma guard_reported (K : Z) (w : World') :
  reported K w <-> existence_check (partition_key K) w = (Ok true, w).
Proof.
  rewrite guard_value. unfold reported, report_names. split.
  - intros (file & Hin & Htop & Hpre). f_equal. f_equal.
    apply existsb_exists. exists file. split; [|exact Hpre].
    apply filter_In. split; [apply filter_In; tauto|].
    apply (prefix_shorter "report" (Py.str K)). exact Hpre.
  - intros [= H]. apply existsb_exists in H.
    destruct H as (file & Hin & Hpre).
    apply filter_In in Hin. destruct Hin as [Hin _].
    apply filter_In in Hin. exists file. tauto.
Qed.

Lemma report_path_reported (K : Z) (now : string) (df : DataFrame Metric)
    (w : World') :
  is_top_level now = true ->
  reported K (mkWorld (Py.setitem (fs w) (report_path K now) (CsvFile df))
                (events w ++ [ECsv (report_path K now) df])%list).
Proof.
  intros Hnow. exists (report_path K now). cbn [fs].
  split; [apply keys_setitem_new|]. split.
  - unfold report_path. rewrite !is_top_level_app, Hnow.
    rewrite (is_top_level_numeric _ (numeric_str K)). reflexivity.
  - unfold report_path. simpl. apply prefix_app.
Qed.

(** *** Relations kept by a computation *)

Lemma grows_refl (w : World') : grows w w.
Proof. intros path H. exact H. Qed.

Lemma grows_trans (w1 w2 w3 : World') :
  grows w1 w2 -> grows w2 w3 -> grows w1 w3.
Proof. intros H12 H23 path H. apply H23, H12, H. Qed.

Lemma no_report_change_refl (w : World') : no_report_change w w.
Proof. split; [apply grows_refl | split; reflexivity]. Qed.

Lemma no_report_change_trans (w1 w2 w3 : World') :
  no_report_change w1 w2 -> no_report_change w2 w3 -> no_report_change w1 w3.
Proof.
  intros (G12 & N12 & C12) (G23 & N23 & C23).
  split; [eapply grows_trans; eassumption|]. split; congruence.
Qed.

Lemma reported_grows (K : Z) (w w' : World') :
  grows w w' -> reported K w -> reported K w'.
Proof.
  intros Hg (file & Hin & Hrest). exists file. split; [apply Hg, Hin | exact Hrest].
Qed.

Section Preservation.

Variable R : World' -> World' -> Prop.
Hypothesis R_refl : forall w, R w w.
Hypothesis R_trans : forall w1 w2 w3, R w1 w2 -> R w2 w3 -> R w1 w3.

Lemma preserves_ret {A : Type} (a : A) : preserves R (ret a : Comp A).
Proof using R_refl. intros w. apply R_refl. Qed.

Lemma preserves_lift {A : Type} (r : result A) : preserves R (lift r : Comp A).
Proof using R_refl. intros w. apply R_refl. Qed.

Lemma preserves_bind {A B : Type} (m : Comp A) (k : A -> Comp B) :
  preserves R m -> (forall a, preserves R (k a)) -> preserves R (bind m k).
Proof using R_trans.
  intros Hm Hk w. unfold bind. specialize (Hm w).
  destruct (m w) as [[a|e] w1]; simpl in Hm.
  - eapply R_trans; [exact Hm | apply Hk].
  - exact Hm.
Qed.

Lemma preserves_mfold {A S : Type} (body : S -> A -> Comp S) (l : list A) :
  (forall s a, preserves R (body s a)) ->
  forall s, preserves R (mfold body s l).
Proof using R_refl R_trans.
  intros Hbody. induction l as [|a l IH]; intros s; simpl.
  - apply preserves_ret.
  - apply preserves_bind; [apply Hbody | exact IH].
Qed.

Lemma preserves_run {A : Type} (c : Comp A) (w w' : World') (r : result A) :
  preserves R c -> c w = (r, w') -> R w w'.
Proof using Type.
  intros Hc E. specialize (Hc w). rewrite E in Hc. exact Hc.
Qed.

End Preservation.

Lemma bind_raise {A B : Type} (m : Comp A) (k : A -> Comp B)
    (w w' : World') (e : exn) :
  bind m k w = (Raise e, w') ->
  m w = (Raise e, w')
  \/ exists a w1, m w = (Ok a, w1) /\ k a w1 = (Raise e, w').
Proof.
  unfold bind. destruct (m w) as [[a|e1] w1]; intros H.
  - right. exists a, w1. split; [reflexivity | exact H].
  - left. injection H as -> ->. reflexivity.
Qed.

End WorldFacts.

Section RunFacts.

Context {Model Sample Target Metric Callback Rate : Type}.
Variable fit :
  Model -> fit_args Sample Target Callback -> result (Model * History Metric).
Variable self : Model_Development Model Rate.
Variable training_data : list Sample.
Variable targets : list Target.
Variable callback_list : list Callback.

Abbreviation World'' := (world Model Sample Target Metric Callback).
Abbreviation quiet := (@no_report_change Model Sample Target Metric Callback).

Lemma csv_written_app (l1 l2 : list (event Model Sample Target Metric Callback)) :
  csv_written (l1 ++ l2) = (csv_written l1 ++ csv_written l2)%list.
Proof. apply flat_map_app. Qed.

Lemma report_names_setitem (w : World'') (path : string)
    (v : node Model Metric)
    (evs : list (event Model Sample Target Metric Callback)) :
  String.prefix "report" path = false ->
  report_names (mkWorld (Py.setitem (fs w) path v) evs) = report_names w.
Proof.
  intros Hpath. unfold report_names. cbn [fs]. rewrite keys_setitem.
  destruct (existsb (String.eqb path) (Py.keys (fs w))); [reflexivity|].
  rewrite !filter_app. cbn [filter].
  destruct (is_top_level path); cbn [filter]; rewrite ?Hpath, app_nil_r;
    reflexivity.
Qed.

Lemma quiet_events (w : World'')
    (evs : list (event Model Sample Target Metric Callback)) :
  csv_written evs = [] ->
  quiet w (mkWorld (fs w) (events w ++ evs)%list).
Proof.
  intros H. split; [intros path Hin; exact Hin|].
  split; [reflexivity|].
  cbn [events]. rewrite csv_written_app, H, app_nil_r. reflexivity.
Qed.

Lemma quiet_setitem (w : World'') (path : string) (v : node Model Metric)
    (evs : list (event Model Sample Target Metric Callback)) :
  String.prefix "report" path = false ->
  csv_written evs = [] ->
  quiet w (mkWorld (Py.setitem (fs w) path v) (events w ++ evs)%list).
Proof.
  intros Hpath Hevs. split; [intros p Hin; apply keys_setitem_in, Hin|].
  split; [apply report_names_setitem, Hpath|].
  cbn [events]. rewrite csv_written_app, Hevs, app_nil_r. reflexivity.
Qed.

Lemma print_quiet (s : string) : preserves quiet (print s).
Proof. intros w. apply (quiet_events w [EPrint s]). reflexivity. Qed.

Lemma mkdir_quiet (partition_num : Z) (now : string) :
  preserves quiet (mkdir (saved_models_dir partition_num now)).
Proof.
  intros w. unfold mkdir.
  destruct (existsb _ _); cbn [snd];
    [apply no_report_change_refl | apply quiet_setitem; reflexivity].
Qed.

Lemma save_model_quiet (m : Model) (partition_num : Z) (now : string)
    (index : Z) :
  preserves quiet (save_model m (model_file partition_num now index)).
Proof. intros w. apply quiet_setitem; reflexivity. Qed.

Lemma call_fit_quiet (m : Model) (a : fit_args Sample Target Callback) :
  preserves quiet (call_fit fit m a).
Proof.
  intros w. unfold call_fit, bind, emit, lift. cbn [snd].
  apply (quiet_events w [EFit m a]). reflexivity.
Qed.

Lemma fit_folds_quiet (series_cv : list cv_fold) (model : value Model)
    (history : option (History Metric)) :
  preserves quiet
    (fit_folds fit self training_data targets callback_list series_cv
       model history).
Proof.
  unfold fit_folds.
  apply preserves_mfold;
    [apply no_report_change_refl | apply no_report_change_trans |].
  intros [v h] i. destruct v as [m|s|l];
    try (apply preserves_lift; apply no_report_change_refl).
  apply preserves_bind; [apply no_report_change_trans | |].
  - apply preserves_lift, no_report_change_refl.
  - intros f. apply preserves_bind; [apply no_report_change_trans | |].
    + apply call_fit_quiet.
    + intros r. apply preserves_ret, no_report_change_refl.
Qed.

Lemma train_models_body_quiet (series_cv : list cv_fold) (partition_num : Z)
    (now : string) (locals : DataFrame Metric * option (History Metric))
    (item : Z * value Model) :
  preserves quiet
    (train_models_body fit self training_data targets callback_list
       series_cv partition_num now locals item).
Proof.
  destruct locals as [report history]. destruct item as [ind model].
  unfold train_models_body.
  apply preserves_bind; [apply no_report_change_trans | |].
  { apply fit_folds_quiet. }
  intros [model' history'].
  apply preserves_bind; [apply no_report_change_trans | |].
  { apply preserves_lift, no_report_change_refl. }
  intros h.
  apply preserves_bind; [apply no_report_change_trans | |].
  { apply preserves_lift, no_report_change_refl. }
  intros r.
  apply preserves_bind; [apply no_report_change_trans | |].
  { apply preserves_lift, no_report_change_refl. }
  intros m.
  apply preserves_bind; [apply no_report_change_trans | |].
  { apply save_model_quiet. }
  intros u. apply preserves_ret, no_report_change_refl.
Qed.

Lemma train_models_quiet (series_cv : list cv_fold) (partition_num : Z)
    (now : string) (partition : list (value Model))
    (report : DataFrame Metric) (history : option (History Metric)) :
  preserves quiet
    (train_models fit self training_data targets callback_list series_cv
       partition_num now partition report history).
Proof.
  unfold train_models.
  apply preserves_mfold;
    [apply no_report_change_refl | apply no_report_change_trans |].
  intros locals item. apply train_models_body_quiet.
Qed.

End RunFacts.

Lemma quiet_run {Model Sample Target Metric Callback A : Type}
    (c : M Model Sample Target Metric Callback A)
    (w w' : world Model Sample Target Metric Callback) (r : result A) :
  c w = (r, w') -> preserves (@no_report_change _ _ _ _ _) c ->
  no_report_change w w'.
Proof. intros E Hc. specialize (Hc w). rewrite E in Hc. exact Hc. Qed.

(** ** Failures of a run *)

Lemma existsb_eqb_in (path : string) (l : list string) :
  existsb (String.eqb path) l = true <-> In path l.
Proof.
  rewrite existsb_exists. split.
  - intros (x & Hin & Heq). apply String.eqb_eq in Heq. subst. exact Hin.
  - intros Hin. exists path. split; [exact Hin | apply String.eqb_refl].
Qed.

Lemma TimeSeriesSplit_raises (n_splits : Z) (n_samples : nat) :
  n_splits <= 1 \/ Z.of_nat n_samples < n_splits + 1 ->
  TimeSeriesSplit n_splits n_samples = Raise ValueError.
Proof.
  intros H. unfold TimeSeriesSplit.
  destruct (Z.leb_spec n_splits 1); [reflexivity|].
  destruct (Z.gtb_spec (n_splits + 1) (Z.of_nat n_samples)); [reflexivity|].
  lia.
Qed.

(** X10.  Configuration and persistence errors.  [manual_grid_cv] raises
    FileExistsError, having done nothing, when the directory of the batch
    exists already; with fewer than two folds configured, or more folds
    than the series allows, it raises ValueError after having made the
    directory, which stays behind, and before any training, while
    [auto_grid_cv] raises the same ValueError having touched nothing. *)
Theorem grid_cv_configuration_errors
    {Model Sample Target Metric Callback Rate : Type}
    (fit : Model -> fit_args Sample Target Callback
           -> result (Model * History Metric))
    (self : Model_Development Model Rate)
    (partition : value Model) (partition_num : Z)
    (training_data : list Sample) (targets : list Target)
    (callback_list : list Callback) (now : string)
    (w : world Model Sample Target Metric Callback) :
  let dir := saved_models_dir partition_num now in
  let bad_folds :=
    folds (params self) <= 1
    \/ Z.of_nat (List.length training_data) < folds (params self) + 1 in
  (In dir (Py.keys (fs w)) ->
   manual_grid_cv fit self partition partition_num training_data targets
     callback_list now w
   = (Raise FileExistsError, w))
  /\ (~ In dir (Py.keys (fs w)) -> bad_folds ->
      manual_grid_cv fit self partition partition_num training_data targets
        callback_list now w
      = (Raise ValueError,
         mkWorld (Py.setitem (fs w) dir Directory)
                 (events w ++ [EMkdir dir])%list))
  /\ (forall ms, all_models self = models_value ms -> bad_folds ->
      auto_grid_cv fit self training_data targets callback_list now w
      = (Raise ValueError, w)).
Proof.
  intros dir bad_folds. split; [|split].
  - intros Hin. unfold manual_grid_cv, bind, mkdir. fold dir.
    rewrite (proj2 (existsb_eqb_in dir _) Hin). reflexivity.
  - intros Hnew Hbad. unfold manual_grid_cv, bind, mkdir. fold dir.
    destruct (existsb (String.eqb dir) (Py.keys (fs w))) eqn:E;
      [apply existsb_eqb_in in E; contradiction|].
    unfold lift. rewrite (TimeSeriesSplit_raises _ Hbad). reflexivity.
  - intros ms Hms Hbad. unfold auto_grid_cv. rewrite Hms.
    destruct (default_partitions_models ms) as (k & Ed & Enums & _).
    unfold bind, lift. rewrite Ed, Enums.
    rewrite (TimeSeriesSplit_raises _ Hbad). reflexivity.
Qed.

Lemma grid_cv_configuration_errors_witness :
  manual_grid_cv Concrete.fit (Concrete.instance 1) (models_value [0]) 60
    [10; 11] [0; 1] [] "T" Concrete.empty_world
  = (Raise ValueError,
     mkWorld [("saved_models60_T", Directory)] [EMkdir "saved_models60_T"])
  /\ auto_grid_cv Concrete.fit (Concrete.instance 1) [10; 11] [0; 1] [] "T"
       Concrete.empty_world
     = (Raise ValueError, Concrete.empty_world).
Proof.
  destruct (@grid_cv_configuration_errors Z Z Z Z unit unit Concrete.fit
              (Concrete.instance 1) (models_value [0]) 60 [10; 11] [0; 1] []
              "T" Concrete.empty_world) as (_ & Hmanual & Hauto).
  split.
  - apply Hmanual; [intros [] | right; simpl; lia].
  - apply (Hauto [0]); [reflexivity | right; simpl; lia].
Defined.



(** X12.  A [manual_grid_cv] on the batch key K that completes, called at
    a time whose text has no "/", has written exactly one report, under
    the name "report<K>_<now>.csv", and the resume guard then answers true
    for the key "models<K>": [auto_grid_cv] will skip the batch. *)
Theorem manual_grid_cv_marks_batch
    {Model Sample Target Metric Callback Rate : Type}
    (fit : Model -> fit_args Sample Target Callback
           -> result (Model * History Metric))
    (self : Model_Development Model Rate)
    (partition : value Model) (partition_num : Z)
    (training_data : list Sample) (targets : list Target)
    (callback_list : list Callback) (now : string)
    (w w' : world Model Sample Target Metric Callback) :
  is_top_level now = true ->
  manual_grid_cv fit self partition partition_num training_data targets
    callback_list now w
  = (Ok tt, w') ->
  existence_check (partition_key partition_num) w' = (Ok true, w')
  /\ csv_written (events w')
     = (csv_written (events w) ++ [report_path partition_num now])%list
  /\ (exists report,
        Py.getitem (fs w') (report_path partition_num now)
        = Ok (CsvFile report))
  /\ In (saved_models_dir partition_num now) (Py.keys (fs w'))
  /\ grows w w'.
Proof.
  intros Hnow Hrun. unfold manual_grid_cv in Hrun.
  apply bind_ok in Hrun. destruct Hrun as (u & w1 & H1 & Hrun).
  apply bind_ok in Hrun. destruct Hrun as (cv & w2 & H2 & Hrun).
  apply lift_ok in H2. destruct H2 as [_ ->].
  apply bind_ok in Hrun. destruct Hrun as (models & w3 & H3 & Hrun).
  apply lift_ok in H3. destruct H3 as [_ ->].
  apply bind_ok in Hrun. destruct Hrun as (trained & w4 & H4 & Hrun).
  assert (Q1 : no_report_change w w1)
    by (eapply quiet_run; [exact H1 | apply mkdir_quiet]).
  assert (Q4 : no_report_change w1 w4)
    by (eapply quiet_run; [exact H4 | apply train_models_quiet]).
  destruct (no_report_change_trans Q1 Q4) as (Hg & _ & Hc).
  assert (Hdir : In (saved_models_dir partition_num now) (Py.keys (fs w1))).
  { unfold mkdir in H1.
    destruct (existsb _ _) in H1; [discriminate|].
    injection H1 as _ <-. cbn [fs]. apply keys_setitem_new. }
  unfold to_csv in Hrun. injection Hrun as <-.
  split; [apply guard_reported, report_path_reported, Hnow|].
  cbn [events fs]. split; [rewrite csv_written_app, Hc; reflexivity|].
  split; [eexists; apply getitem_setitem|].
  split.
  - apply keys_setitem_in. destruct Q4 as (Hg4 & _). apply Hg4, Hdir.
  - intros path Hin. apply keys_setitem_in, Hg, Hin.
Qed.

Lemma manual_grid_cv_marks_batch_witness :
  exists w' : world Z Z Z Z unit,
    manual_grid_cv Concrete.fit (Concrete.instance 1) (models_value [0]) 60
      Concrete.series Concrete.series_targets [] "T" Concrete.empty_world
    = (Ok tt, w')
    /\ existence_check (partition_key 60) w' = (Ok true, w').
Proof.
  eexists. split; [vm_compute; reflexivity|].
  edestruct (@manual_grid_cv_marks_batch Z Z Z Z unit unit Concrete.fit
               (Concrete.instance 1) (models_value [0]) 60 Concrete.series
               Concrete.series_targets [] "T" Concrete.empty_world)
    as (Hguard & _).
  - reflexivity.
  - vm_compute. reflexivity.
  - exact Hguard.
Defined.

(** ** Resuming [auto_grid_cv] *)

Section ResumeFacts.

Context {Model Sample Target Metric Callback Rate : Type}.
Variable fit :
  Model -> fit_args Sample Target Callback -> result (Model * History Metric).
Variable self : Model_Development Model Rate.
Variable training_data : list Sample.
Variable targets : list Target.
Variable callback_list : list Callback.
Variable series_cv : list cv_fold.
Variable partitions : Py.dict (value Model).
Variable partition_numb : list Z.

Abbreviation World3 := (world Model Sample Target Metric Callback).
Abbreviation body :=
  (auto_grid_cv_body fit self training_data targets callback_list series_cv
     partitions partition_numb).

Lemma existence_check_fs (part : string) (w : World3) :
  existence_check part w
  = (Ok (existsb (fun file =>
                    Py.startswith file (Py.replace part "models" "report"))
                 (filter is_top_level (Py.keys (fs w)))),
     w).
Proof. reflexivity. Qed.

Lemma guard_true_run (part : string) (w : World3) :
  fst (existence_check part w) = Ok true ->
  existence_check part w = (Ok true, w).
Proof.
  rewrite existence_check_fs. cbn [fst]. intros H. f_equal. exact H.
Qed.

Lemma guard_same_fs (part : string) (w1 w2 : World3) :
  fs w1 = fs w2 ->
  fst (existence_check part w1) = fst (existence_check part w2).
Proof.
  intros H. rewrite !existence_check_fs. cbn [fst]. rewrite H. reflexivity.
Qed.

(** The loop over the partitions when every partition has its report. *)
Lemma auto_loop_skips (now : string) (keys : list string) (numb_ind : Z)
    (report : DataFrame Metric) (history : option (History Metric))
    (w : World3) :
  (forall part, In part keys -> fst (existence_check part w) = Ok true) ->
  mfold (body now) (numb_ind, report, history) keys w
  = (Ok (numb_ind + Z.of_nat (List.length keys), report, history),
     mkWorld (fs w)
       (events w ++ repeat (EPrint "Report already exists")
                      (List.length keys))%list).
Proof.
  revert numb_ind w. induction keys as [|part keys IH]; intros numb_ind w Hall.
  - cbn [mfold List.length repeat]. unfold ret.
    rewrite app_nil_r, Z.add_0_r. destruct w; reflexivity.
  - cbn [mfold]. unfold bind at 1. unfold auto_grid_cv_body at 1.
    unfold bind at 1.
    rewrite (guard_true_run (Hall part (or_introl eq_refl))).
    unfold bind, print, emit, ret.
    rewrite IH.
    + cbn [fs events List.length repeat]. rewrite <- app_assoc.
      replace (numb_ind + 1 + Z.of_nat (List.length keys))
        with (numb_ind + Z.of_nat (S (List.length keys))) by lia.
      reflexivity.
    + intros part' Hin. rewrite <- (Hall part' (or_intror Hin)).
      apply guard_same_fs. reflexivity.
Qed.

(** A pass over a partition that completes leaves its report behind. *)
Lemma auto_body_reports (now : string) (numb_ind K : Z)
    (report : DataFrame Metric) (history : option (History Metric))
    (w w1 : World3)
    (st1 : Z * DataFrame Metric * option (History Metric)) :
  is_top_level now = true ->
  Py.index partition_numb (numb_ind + 1) = Ok K ->
  body now (numb_ind, report, history) (partition_key K) w = (Ok st1, w1) ->
  fst (fst st1) = numb_ind + 1 /\ grows w w1 /\ reported K w1.
Proof.
  intros Hnow Hidx Hrun. unfold auto_grid_cv_body in Hrun.
  apply bind_ok in Hrun. destruct Hrun as (found & w0 & Hcheck & Hrun).
  assert (Hw0 : w0 = w) by (rewrite guard_value in Hcheck; congruence).
  subst w0. destruct found.
  - apply bind_ok in Hrun. destruct Hrun as (u & w2 & Hprint & Hrun).
    unfold print, emit in Hprint. injection Hprint as _ <-.
    unfold ret in Hrun. injection Hrun as <- <-.
    split; [reflexivity|]. split; [intros path Hin; exact Hin|].
    assert (Hrep : reported K w) by (apply guard_reported; exact Hcheck).
    destruct Hrep as (file & Hin & Hrest). exists file. split; assumption.
  - apply bind_ok in Hrun. destruct Hrun as (u & w2 & Hprint & Hrun).
    assert (G2 : grows w w2).
    { unfold print, emit in Hprint. injection Hprint as _ <-.
      intros path Hin. exact Hin. }
    apply bind_ok in Hrun. destruct Hrun as (pn & w3 & Hpn & Hrun).
    apply lift_ok in Hpn. destruct Hpn as [Hpn ->].
    rewrite Hidx in Hpn. injection Hpn as <-.
    apply bind_ok in Hrun. destruct Hrun as (u' & w4 & Hmk & Hrun).
    assert (G4 : no_report_change w2 w4)
      by (eapply quiet_run; [exact Hmk | apply mkdir_quiet]).
    apply bind_ok in Hrun. destruct Hrun as (batch & w5 & Hb & Hrun).
    apply lift_ok in Hb. destruct Hb as [_ ->].
    apply bind_ok in Hrun. destruct Hrun as (models & w6 & Hm & Hrun).
    apply lift_ok in Hm. destruct Hm as [_ ->].
    apply bind_ok in Hrun. destruct Hrun as ([report' history'] & w7 & Htrain & Hrun).
    assert (G7 : no_report_change w4 w7)
      by (eapply quiet_run; [exact Htrain | apply train_models_quiet]).
    apply bind_ok in Hrun. destruct Hrun as (u'' & w8 & Hcsv & Hrun).
    unfold to_csv in Hcsv. injection Hcsv as _ <-.
    unfold ret in Hrun. injection Hrun as <- <-.
    split; [reflexivity|]. split.
    + intros path Hin. cbn [fs]. apply keys_setitem_in.
      destruct G7 as [G7 _]. destruct G4 as [G4 _].
      apply G7, G4, G2, Hin.
    + apply report_path_reported, Hnow.
Qed.

Lemma auto_loop_reports (now : string) (rest done : list Z) (numb_ind : Z)
    (report : DataFrame Metric) (history : option (History Metric))
    (w w' : World3)
    (st' : Z * DataFrame Metric * option (History Metric)) :
  is_top_level now = true ->
  partition_numb = (done ++ rest)%list ->
  numb_ind + 1 = Z.of_nat (List.length done) ->
  mfold (body now) (numb_ind, report, history) (map partition_key rest) w
  = (Ok st', w') ->
  grows w w' /\ Forall (fun K => reported K w') rest.
Proof.
  intros Hnow. revert done numb_ind report history w.
  induction rest as [|K rest IH];
    intros done numb_ind report history w Hnums Hind Hrun.
  - cbn [map mfold] in Hrun. unfold ret in Hrun. injection Hrun as _ <-.
    split; [intros path Hin; exact Hin | constructor].
  - cbn [map mfold] in Hrun.
    apply bind_ok in Hrun. destruct Hrun as ([[ni1 r1] h1] & w1 & Hbody & Hrun).
    assert (Hidx : Py.index partition_numb (numb_ind + 1) = Ok K).
    { rewrite Hind. apply index_nth. rewrite Hnums.
      rewrite nth_error_app2 by lia. rewrite Nat.sub_diag. reflexivity. }
    edestruct auto_body_reports as (Hni & G1 & R1);
      [exact Hnow | exact Hidx | exact Hbody |].
    cbn [fst] in Hni. subst ni1.
    apply (IH (done ++ [K])%list) in Hrun.
    + destruct Hrun as [G' Hrest]. split.
      * eapply grows_trans; eassumption.
      * constructor; [eapply reported_grows; eassumption | exact Hrest].
    + rewrite <- app_assoc. exact Hnums.
    + rewrite length_app. simpl. lia.
Qed.

End ResumeFacts.

Lemma dict_keys_form {Model : Type} (v : value Model) (pl : Z)
    (d : Py.dict (value Model)) :
  dict_partitions v pl = Ok d ->
  exists ns, Py.keys d = map partition_key ns.
Proof.
  unfold dict_partitions.
  destruct (py_len v) as [n|e]; [|discriminate]. cbn [rbind].
  destruct (n <=? pl).
  - destruct (partitions_split v pl) as [ps|e]; [|discriminate].
    intros [= <-]. exists [pl]. reflexivity.
  - destruct (partitions_split v pl) as [ps|e]; [|discriminate].
    intros [= <-].
    assert (H : forall (l : list (Z * value Model)) acc,
               (exists ns, Py.keys acc = map partition_key ns) ->
               exists ns,
                 Py.keys
                   (fold_left
                      (fun all_partitions '(ind, partition) =>
                         Py.setitem all_partitions
                           (partition_key ((ind + 1) * pl)) partition)
                      l acc)
                 = map partition_key ns).
    { induction l as [|[ind p] l IH]; intros acc (ns & Hns); simpl.
      - exists ns. exact Hns.
      - apply IH. rewrite keys_setitem.
        destruct (existsb _ _).
        + exists ns. exact Hns.
        + exists (ns ++ [(ind + 1) * pl])%list.
          rewrite Hns, map_app. reflexivity. }
    apply H. exists []. reflexivity.
Qed.

Lemma partition_numbers_of_keys {Model : Type} (v : value Model)
    (d : Py.dict (value Model)) :
  dict_partitions v default_partition_length = Ok d ->
  exists ns, Py.keys d = map partition_key ns
             /\ get_partition_number v = Ok ns.
Proof.
  intros Ed. destruct (dict_keys_form _ _ Ed) as (ns & Hns).
  exists ns. split; [exact Hns|].
  unfold get_partition_number. rewrite Ed. cbn [rbind].
  rewrite Hns. apply rmap_key_number.
Qed.

(** X13.  When every key of the partition dictionary has a report in the
    working directory, [auto_grid_cv] trains nothing and writes nothing:
    it leaves the files as they are and only prints "Report already
    exists" once per partition. *)
Theorem auto_grid_cv_all_reported
    {Model Sample Target Metric Callback Rate : Type}
    (fit : Model -> fit_args Sample Target Callback
           -> result (Model * History Metric))
    (self : Model_Development Model Rate)
    (training_data : list Sample) (targets : list Target)
    (callback_list : list Callback) (now : string)
    (d : Py.dict (value Model)) (series_cv : list cv_fold)
    (w : world Model Sample Target Metric Callback) :
  dict_partitions (all_models self) default_partition_length = Ok d ->
  TimeSeriesSplit (folds (params self)) (List.length training_data)
  = Ok series_cv ->
  (forall part, In part (Py.keys d) ->
                fst (existence_check part w) = Ok true) ->
  auto_grid_cv fit self training_data targets callback_list now w
  = (Ok tt,
     mkWorld (fs w)
       (events w ++ repeat (EPrint "Report already exists") (List.length d))%list).
Proof.
  intros Ed Ecv Hall.
  destruct (partition_numbers_of_keys _ Ed) as (ns & _ & Enums).
  unfold auto_grid_cv. unfold bind at 1. unfold lift at 1. rewrite Ed.
  unfold bind at 1. unfold lift at 1. rewrite Enums.
  unfold bind at 1. unfold lift at 1. rewrite Ecv.
  unfold bind at 1. rewrite auto_loop_skips by exact Hall.
  unfold ret. unfold Py.keys. rewrite length_map. reflexivity.
Qed.

Lemma auto_grid_cv_all_reported_witness :
  auto_grid_cv Concrete.fit (Concrete.instance 1) Concrete.series
    Concrete.series_targets [] "T"
    (mkWorld [("report60_20240101_000000.csv", OtherFile)] [])
  = (Ok tt,
     mkWorld [("report60_20240101_000000.csv", OtherFile)]
             [EPrint "Report already exists"]).
Proof.
  apply (@auto_grid_cv_all_reported Z Z Z Z unit unit Concrete.fit
           (Concrete.instance 1) Concrete.series Concrete.series_targets []
           "T" [("models60", models_value [0])] Concrete.two_folds).
  - reflexivity.
  - reflexivity.
  - intros part [<-|[]]. reflexivity.
Defined.

(** X14.  Resume.  After an [auto_grid_cv] that completed, called at a
    time whose text has no "/", a second call on the same instance and
    data, whatever its time, trains nothing and writes nothing: every
    partition is found reported, the files stay as they are and one
    message per partition is printed. *)
Theorem auto_grid_cv_resume
    {Model Sample Target Metric Callback Rate : Type}
    (fit : Model -> fit_args Sample Target Callback
           -> result (Model * History Metric))
    (self : Model_Development Model Rate)
    (training_data : list Sample) (targets : list Target)
    (callback_list : list Callback) (now now' : string)
    (w w1 : world Model Sample Target Metric Callback) :
  is_top_level now = true ->
  auto_grid_cv fit self training_data targets callback_list now w
  = (Ok tt, w1) ->
  exists d,
    dict_partitions (all_models self) default_partition_length = Ok d
    /\ (forall part, In part (Py.keys d) ->
                     existence_check part w1 = (Ok true, w1))
    /\ auto_grid_cv fit self training_data targets callback_list now' w1
       = (Ok tt,
          mkWorld (fs w1)
            (events w1
             ++ repeat (EPrint "Report already exists") (List.length d))%list).
Proof.
  intros Hnow Hrun. unfold auto_grid_cv in Hrun.
  apply bind_ok in Hrun. destruct Hrun as (d & w2 & Hd & Hrun).
  apply lift_ok in Hd. destruct Hd as [Ed ->].
  apply bind_ok in Hrun. destruct Hrun as (nums & w2 & Hn & Hrun).
  apply lift_ok in Hn. destruct Hn as [Enums ->].
  apply bind_ok in Hrun. destruct Hrun as (cv & w2 & Hcv & Hrun).
  apply lift_ok in Hcv. destruct Hcv as [Ecv ->].
  apply bind_ok in Hrun. destruct Hrun as (st & w2 & Hloop & Hrun).
  unfold ret in Hrun. injection Hrun as <-.
  destruct (partition_numbers_of_keys _ Ed) as (ns & Hkeys & Enums').
  assert (ns = nums) by congruence. subst ns.
  rewrite Hkeys in Hloop.
  apply auto_loop_reports with (done := []) in Hloop;
    [|exact Hnow | reflexivity | reflexivity].
  destruct Hloop as [_ Hrep]. rewrite Forall_forall in Hrep.
  assert (Hall : forall part, In part (Py.keys d) ->
                   existence_check part w2 = (Ok true, w2)).
  { intros part Hin. rewrite Hkeys in Hin. apply in_map_iff in Hin.
    destruct Hin as (K & <- & HK). apply guard_reported, Hrep, HK. }
  exists d. split; [exact Ed|]. split; [exact Hall|].
  unfold auto_grid_cv. unfold bind at 1. unfold lift at 1. rewrite Ed.
  unfold bind at 1. unfold lift at 1. rewrite Enums.
  unfold bind at 1. unfold lift at 1. rewrite Ecv.
  unfold bind at 1. rewrite auto_loop_skips.
  - unfold ret. unfold Py.keys. rewrite length_map. reflexivity.
  - intros part Hin. rewrite (Hall part Hin). reflexivity.
Qed.

Lemma auto_grid_cv_resume_witness :
  exists w1 : world Z Z Z Z unit,
    auto_grid_cv Concrete.fit (Concrete.instance 61) Concrete.series
      Concrete.series_targets [] "T" Concrete.empty_world
    = (Ok tt, w1)
    /\ auto_grid_cv Concrete.fit (Concrete.instance 61) Concrete.series
         Concrete.series_targets [] "U" w1
       = (Ok tt,
          mkWorld (fs w1)
            (events w1 ++ [EPrint "Report already exists";
                           EPrint "Report already exists"])%list).
Proof.
  eexists. split; [vm_compute; reflexivity|].
  edestruct (@auto_grid_cv_resume Z Z Z Z unit unit Concrete.fit
               (Concrete.instance 61) Concrete.series Concrete.series_targets
               [] "T" "U" Concrete.empty_world) as (d & Ed & _ & Hsecond).
  - reflexivity.
  - vm_compute. reflexivity.
  - vm_compute in Ed. injection Ed as <-. exact Hsecond.
Defined.

(** X15.  On an instance without models, be it fresh ([build_all_models]
    not called) or built from an empty product, [auto_grid_cv] with a
    valid fold configuration, no report for key 60 and no directory in
    the way trains nothing and still makes the directory of batch 60 and
    writes an empty report for it, so that the batch counts as done
    from then on. *)
Theorem auto_grid_cv_without_models
    {Model Sample Target Metric Callback Rate : Type}
    (fit : Model -> fit_args Sample Target Callback
           -> result (Model * History Metric))
    (self : Model_Development Model Rate)
    (training_data : list Sample) (targets : list Target)
    (callback_list : list Callback) (now : string)
    (series_cv : list cv_fold)
    (w : world Model Sample Target Metric Callback) :
  all_models self = VStr "" \/ all_models self = VList [] ->
  TimeSeriesSplit (folds (params self)) (List.length training_data)
  = Ok series_cv ->
  fst (existence_check "models60" w) = Ok false ->
  ~ In (saved_models_dir 60 now) (Py.keys (fs w)) ->
  auto_grid_cv fit self training_data targets callback_list now w
  = (Ok tt,
     mkWorld
       (Py.setitem (Py.setitem (fs w) (saved_models_dir 60 now) Directory)
          (report_path 60 now) (CsvFile df_empty))
       (events w ++ [EPrint "New report";
                     EMkdir (saved_models_dir 60 now);
                     ECsv (report_path 60 now) df_empty])%list).
Proof.
  intros Hmodels Ecv Hguard Hdir.
  assert (Ed : dict_partitions (all_models self) default_partition_length
               = Ok [("models60", VList [])])
    by (destruct Hmodels as [-> | ->]; reflexivity).
  assert (Enums : get_partition_number (all_models self) = Ok [60])
    by (destruct Hmodels as [-> | ->]; reflexivity).
  assert (Hcheck : existence_check "models60" w = (Ok false, w)).
  { rewrite existence_check_fs in *. cbn [fst] in Hguard.
    f_equal. exact Hguard. }
  assert (Hmk : existsb (String.eqb (saved_models_dir 60 now)) (Py.keys (fs w))
                = false).
  { destruct (existsb _ _) eqn:E; [|reflexivity].
    apply existsb_eqb_in in E. contradiction. }
  unfold auto_grid_cv. unfold bind at 1. unfold lift at 1. rewrite Ed.
  unfold bind at 1. unfold lift at 1. rewrite Enums.
  unfold bind at 1. unfold lift at 1. rewrite Ecv.
  cbn [Py.keys map fst mfold]. unfold auto_grid_cv_body.
  unfold bind at 1. unfold bind at 1. unfold bind at 1. rewrite Hcheck.
  unfold bind, print, emit, lift, mkdir, to_csv, ret, train_models.
  cbn [fs events].
  change (Py.index [60] (-1 + 1)) with (@Ok Z 60). cbv iota beta.
  rewrite Hmk. cbn. rewrite <- !app_assoc. reflexivity.
Qed.

Lemma auto_grid_cv_without_models_witness :
  exists self : Model_Development Z unit,
    __init__ [6; 8; 1] Concrete.the_params Scenario.ranges "full" = Ok self
    /\ auto_grid_cv Concrete.fit self Concrete.series Concrete.series_targets
         [] "T" Concrete.empty_world
       = (Ok tt,
          mkWorld [("saved_models60_T", Directory);
                   ("report60_T.csv", CsvFile df_empty)]
                  [EPrint "New report"; EMkdir "saved_models60_T";
                   ECsv "report60_T.csv" df_empty]).
Proof.
  eexists. split; [reflexivity|].
  apply (@auto_grid_cv_without_models Z Z Z Z unit unit Concrete.fit _
           Concrete.series Concrete.series_targets [] "T" Concrete.two_folds
           Concrete.empty_world).
  - left. reflexivity.
  - reflexivity.
  - reflexivity.
  - intros [].
Defined.

(** ** The guard and the digits of the keys *)

Lemma prefix_app_r (a b c : string) :
  String.prefix a b = true -> String.prefix a (b ++ c) = true.
Proof.
  revert b. induction a as [|x a IH]; intros b H.
  - destruct (b ++ c); reflexivity.
  - destruct b as [|y b]; [discriminate|].
    cbn [append String.prefix] in *.
    destruct (ascii_dec x y); [apply IH; exact H | discriminate].
Qed.

(** X16.  The guard compares text, not numbers: a report of a batch K'
    whose decimal text starts with the text of K makes the guard answer
    true for K as well.  With the default keys, a report of batch 600
    marks batch 60 as done. *)
Theorem existence_check_prefix_collision
    {Model Sample Target Metric Callback : Type}
    (K K' : Z) (now : string)
    (w : world Model Sample Target Metric Callback) :
  String.prefix (Py.str K) (Py.str K') = true ->
  is_top_level now = true ->
  In (report_path K' now) (Py.keys (fs w)) ->
  existence_check (partition_key K) w = (Ok true, w).
Proof.
  intros Hpre Hnow Hin. apply guard_reported.
  exists (report_path K' now). split; [exact Hin|]. split.
  - unfold report_path. rewrite !is_top_level_app, Hnow.
    rewrite (is_top_level_numeric _ (numeric_str K')). reflexivity.
  - unfold report_path. simpl. apply prefix_app_r, Hpre.
Qed.

Lemma existence_check_prefix_collision_witness :
  existence_check (partition_key 60)
    (mkWorld [("report600_T.csv", OtherFile)] [] : world Z Z Z Z unit)
  = (Ok true, mkWorld [("report600_T.csv", OtherFile)] []).
Proof.
  apply (@existence_check_prefix_collision Z Z Z Z unit 60 600 "T").
  - reflexivity.
  - reflexivity.
  - left. reflexivity.
Defined.

(** ** Test mode end to end *)

Lemma dict_partitions_small {Model : Type} (ms : list Model) (pl : Z) :
  Z.of_nat (List.length ms) <= pl ->
  dict_partitions (models_value ms) pl
  = Ok [(partition_key pl, models_value ms)].
Proof.
  intros Hsmall. unfold dict_partitions.
  rewrite partitions_split_small by assumption.
  unfold models_value at 1. cbn [py_len rbind]. rewrite length_map.
  destruct (Z.leb_spec (Z.of_nat (List.length ms)) pl); [reflexivity | lia].
Qed.

(** X17.  In "test" mode the models built from any ranges, at most ten,
    always make one batch: [dict_partitions] with the default length
    returns the single entry "models60" holding all of them, and
    [get_partition_number] the single number 60. *)
Theorem test_mode_single_batch {Model Init Rate : Type}
    (new_model : Sequential Init Rate -> Model)
    (input_data_shape : list Z) (model_params : CNN_params Rate)
    (model_hp_params : CNN_hyper_params)
    (self self' : Model_Development Model Rate) (initialisation : Init) :
  __init__ input_data_shape model_params model_hp_params "test" = Ok self ->
  build_all_models new_model self initialisation = Ok self' ->
  exists ms,
    all_models self' = models_value ms
    /\ (List.length ms <= 10)%nat
    /\ List.length ms = Nat.min 10 (product_size model_hp_params)
    /\ dict_partitions (all_models self') default_partition_length
       = Ok [("models60", models_value ms)]
    /\ get_partition_number (all_models self') = Ok [60].
Proof.
  intros Hinit Hbuild. unfold __init__ in Hinit. simpl in Hinit.
  injection Hinit as <-.
  unfold build_all_models, all_combinations in Hbuild.
  cbn [mode hyper_params data_shape params] in Hbuild.
  change (String.eqb "test" "full") with false in Hbuild.
  change (String.eqb "test" "test") with true in Hbuild.
  cbn [rbind] in Hbuild.
  change (Py.slice_to ?l 10) with (Py.slice_to l (Z.of_nat 10)) in Hbuild.
  rewrite slice_to_firstn in Hbuild.
  pose proof (product5_length (filter_num1 model_hp_params)
                (filter_num2 model_hp_params) (num_of_dense model_hp_params)
                (dense_len1 model_hp_params) (dense_len2 model_hp_params))
    as Hprod.
  fold (product_size model_hp_params) in Hprod.
  remember (product5 (filter_num1 model_hp_params)
              (filter_num2 model_hp_params) (num_of_dense model_hp_params)
              (dense_len1 model_hp_params) (dense_len2 model_hp_params))
    as full eqn:Hfull.
  remember (firstn 10 full) as cs eqn:Hcs.
  destruct (build_models new_model input_data_shape model_params
              initialisation cs) as (archs & Harchs & Emodels & _).
  rewrite Emodels in Hbuild.
  destruct (forallb (buildable_combination input_data_shape) cs);
    [|discriminate Hbuild].
  cbn [rbind] in Hbuild. injection Hbuild as <-. cbn [all_models].
  set (ms := map new_model archs).
  fold (models_value ms).
  assert (Hlen : List.length ms = Nat.min 10 (product_size model_hp_params)).
  { unfold ms. rewrite length_map, Harchs, Hcs, length_firstn, Hprod.
    reflexivity. }
  exists ms. split; [reflexivity|].
  split; [rewrite Hlen; apply Nat.le_min_l|]. split; [exact Hlen|].
  assert (Hsmall : Z.of_nat (List.length ms) <= 60).
  { rewrite Hlen. pose proof (Nat.le_min_l 10 (product_size model_hp_params)).
    lia. }
  pose proof (dict_partitions_small ms Hsmall) as Ed.
  split; [exact Ed|].
  unfold get_partition_number, default_partition_length. rewrite Ed.
  reflexivity.
Qed.

Lemma test_mode_single_batch_witness :
  exists (self' : Model_Development nat unit) (ms : list nat),
    build_all_models (fun _ : Sequential unit unit => 0%nat)
      (mkModelDevelopment [6; 8; 1] Concrete.the_params Scenario.ranges
         "test" (VStr "")) tt
    = Ok self'
    /\ dict_partitions (all_models self') default_partition_length
       = Ok [("models60", models_value ms)]
    /\ List.length ms = 2%nat.
Proof.
  eexists.
  pose proof
    (fun self' =>
       @test_mode_single_batch nat unit unit (fun _ => 0%nat) [6; 8; 1]
         Concrete.the_params Scenario.ranges
         (mkModelDevelopment [6; 8; 1] Concrete.the_params Scenario.ranges
            "test" (VStr ""))
         self' tt eq_refl) as H.
  edestruct H as (ms & _ & _ & Hlen & Ed & _).
  - reflexivity.
  - exists ms. split; [reflexivity|]. split; [exact Ed | exact Hlen].
Defined.

(** ** A failure in the middle of [auto_grid_cv] *)

Section FailureFacts.

Context {Model Sample Target Metric Callback Rate : Type}.
Variable fit :
  Model -> fit_args Sample Target Callback -> result (Model * History Metric).
Variable self : Model_Development Model Rate.
Variable training_data : list Sample.
Variable targets : list Target.
Variable callback_list : list Callback.
Variable series_cv : list cv_fold.
Variable partitions : Py.dict (value Model).
Variable partition_numb : list Z.

Abbreviation World4 := (world Model Sample Target Metric Callback).
Abbreviation pass :=
  (auto_grid_cv_body fit self training_data targets callback_list series_cv
     partitions partition_numb).

Lemma not_reported_guard (K : Z) (w : World4) :
  ~ reported K w <-> existence_check (partition_key K) w = (Ok false, w).
Proof.
  rewrite guard_reported, guard_value.
  destruct (existsb _ (report_names w)); split; intros H;
    try reflexivity; try discriminate; try (intros H'; discriminate).
  exfalso. apply H. reflexivity.
Qed.

Lemma reported_names (K : Z) (w : World4) :
  reported K w
  <-> exists file, In file (report_names w)
                   /\ String.prefix ("report" ++ Py.str K) file = true.
Proof.
  unfold reported, report_names. split.
  - intros (file & Hin & Htop & Hpre). exists file. split; [|exact Hpre].
    apply filter_In. split; [apply filter_In; tauto|].
    apply (prefix_shorter "report" (Py.str K)). exact Hpre.
  - intros (file & Hin & Hpre). apply filter_In in Hin.
    destruct Hin as [Hin _]. apply filter_In in Hin. exists file. tauto.
Qed.

Lemma reported_same_names (K : Z) (w w' : World4) :
  report_names w' = report_names w -> reported K w' -> reported K w.
Proof.
  intros Hn H. apply reported_names in H. apply reported_names.
  rewrite <- Hn. exact H.
Qed.

(** A pass over a partition that raises was not a skip, and leaves the
    partition without report. *)
Lemma auto_body_raises (now : string) (numb_ind K : Z)
    (report : DataFrame Metric) (history : option (History Metric))
    (w w1 : World4) (e : exn) :
  pass now (numb_ind, report, history) (partition_key K) w = (Raise e, w1) ->
  grows w w1 /\ ~ reported K w1.
Proof.
  intros Hrun. unfold auto_grid_cv_body in Hrun.
  apply bind_raise in Hrun. destruct Hrun as [H|(found & w0 & Hcheck & Hrun)].
  { rewrite guard_value in H. discriminate H. }
  assert (Hw0 : w0 = w) by (rewrite guard_value in Hcheck; congruence).
  subst w0. destruct found.
  { apply bind_raise in Hrun. destruct Hrun as [H|(u & w2 & _ & H)].
    - unfold print, emit in H. discriminate H.
    - unfold ret in H. discriminate H. }
  assert (Hnot : ~ reported K w) by (apply not_reported_guard; exact Hcheck).
  assert (Hq : no_report_change w w1).
  { apply bind_raise in Hrun. destruct Hrun as [H|(u & w2 & Hprint & Hrun)].
    { unfold print, emit in H. discriminate H. }
    assert (Q2 : no_report_change w w2)
      by (eapply quiet_run; [exact Hprint | apply print_quiet]).
    apply bind_raise in Hrun. destruct Hrun as [H|(pn & w3 & Hpn & Hrun)].
    { unfold lift in H. injection H as _ <-. exact Q2. }
    unfold lift in Hpn. injection Hpn as _ <-.
    apply bind_raise in Hrun. destruct Hrun as [H|(u' & w4 & Hmk & Hrun)].
    { eapply no_report_change_trans; [exact Q2|].
      eapply quiet_run; [exact H | apply mkdir_quiet]. }
    assert (Q4 : no_report_change w2 w4)
      by (eapply quiet_run; [exact Hmk | apply mkdir_quiet]).
    apply bind_raise in Hrun. destruct Hrun as [H|(batch & w5 & Hb & Hrun)].
    { unfold lift in H. injection H as _ <-.
      eapply no_report_change_trans; eassumption. }
    unfold lift in Hb. injection Hb as _ <-.
    apply bind_raise in Hrun. destruct Hrun as [H|(models & w6 & Hm & Hrun)].
    { unfold lift in H. injection H as _ <-.
      eapply no_report_change_trans; eassumption. }
    unfold lift in Hm. injection Hm as _ <-.
    apply bind_raise in Hrun.
    destruct Hrun as [H|([report' history'] & w7 & Htrain & Hrun)].
    { eapply no_report_change_trans; [exact Q2|].
      eapply no_report_change_trans; [exact Q4|].
      eapply quiet_run; [exact H | apply train_models_quiet]. }
    apply bind_raise in Hrun. destruct Hrun as [H|(u'' & w8 & _ & H)].
    - unfold to_csv in H. discriminate H.
    - unfold ret in H. discriminate H. }
  destruct Hq as (Hg & Hn & _). split; [exact Hg|].
  intros Hrep. apply Hnot. eapply reported_same_names; eassumption.
Qed.

Lemma auto_loop_raises (now : string) (rest done : list Z) (numb_ind : Z)
    (report : DataFrame Metric) (history : option (History Metric))
    (w w' : World4) (e : exn) :
  is_top_level now = true ->
  partition_numb = (done ++ rest)%list ->
  numb_ind + 1 = Z.of_nat (List.length done) ->
  mfold (pass now) (numb_ind, report, history) (map partition_key rest) w
  = (Raise e, w') ->
  exists pre K post,
    rest = (pre ++ K :: post)%list
    /\ Forall (fun K0 => reported K0 w') pre
    /\ ~ reported K w'
    /\ grows w w'.
Proof.
  intros Hnow. revert done numb_ind report history w.
  induction rest as [|K rest IH];
    intros done numb_ind report history w Hnums Hind Hrun.
  - cbn [map mfold] in Hrun. unfold ret in Hrun. discriminate Hrun.
  - cbn [map mfold] in Hrun.
    apply bind_raise in Hrun.
    destruct Hrun as [Hbody|([[ni1 r1] h1] & w1 & Hbody & Hrun)].
    + destruct (auto_body_raises _ _ _ _ _ _ Hbody) as [Hg Hnot].
      exists [], K, rest. split; [reflexivity|].
      split; [constructor|]. split; assumption.
    + assert (Hidx : Py.index partition_numb (numb_ind + 1) = Ok K).
      { rewrite Hind. apply index_nth. rewrite Hnums.
        rewrite nth_error_app2 by lia. rewrite Nat.sub_diag. reflexivity. }
      destruct (@auto_body_reports _ _ _ _ _ _ fit self training_data
                  targets callback_list series_cv partitions partition_numb
                  now numb_ind K report history w w1 (ni1, r1, h1)
                  Hnow Hidx Hbody) as (Hni & G1 & R1).
      cbn [fst] in Hni. subst ni1.
      apply (IH (done ++ [K])%list) in Hrun.
      * destruct Hrun as (pre & K' & post & -> & Hpre & Hnot & G').
        exists (K :: pre), K', post. split; [reflexivity|].
        split; [constructor;
                [eapply reported_grows; eassumption | exact Hpre]|].
        split; [exact Hnot | eapply grows_trans; eassumption].
      * rewrite <- app_assoc. exact Hnums.
      * rewrite length_app. simpl. lia.
Qed.

End FailureFacts.

(** *** The trace of a later call *)

Section TraceFacts.

Context {Model Sample Target Metric Callback Rate : Type}.
Variable fit :
  Model -> fit_args Sample Target Callback -> result (Model * History Metric).
Variable self : Model_Development Model Rate.
Variable training_data : list Sample.
Variable targets : list Target.
Variable callback_list : list Callback.
Variable series_cv : list cv_fold.
Variable partitions : Py.dict (value Model).
Variable partition_numb : list Z.

Abbreviation World5 := (world Model Sample Target Metric Callback).
Abbreviation longer := (@extends Model Sample Target Metric Callback).
Abbreviation again :=
  (auto_grid_cv_body fit self training_data targets callback_list series_cv
     partitions partition_numb).

Lemma extends_refl (w : World5) : extends w w.
Proof. exists []. rewrite app_nil_r. reflexivity. Qed.

Lemma extends_trans (w1 w2 w3 : World5) :
  extends w1 w2 -> extends w2 w3 -> extends w1 w3.
Proof.
  intros [e1 H1] [e2 H2]. exists (e1 ++ e2)%list.
  rewrite H2, H1, app_assoc. reflexivity.
Qed.

Lemma extends_events (w : World5) (files : Py.dict (node Model Metric))
    (evs : list (event Model Sample Target Metric Callback)) :
  extends w (mkWorld files (events w ++ evs)%list).
Proof. exists evs. reflexivity. Qed.

(** A run in two parts. *)
Lemma bind_run {A B : Type} (m : M Model Sample Target Metric Callback A)
    (k : A -> M Model Sample Target Metric Callback B)
    (w w' : World5) (r : result B) :
  bind m k w = (r, w') ->
  (exists e, m w = (Raise e, w') /\ r = Raise e)
  \/ exists a w1, m w = (Ok a, w1) /\ k a w1 = (r, w').
Proof.
  unfold bind. destruct (m w) as [[a|e] w1]; intros H.
  - right. exists a, w1. split; [reflexivity | exact H].
  - left. exists e. injection H as <- <-. split; reflexivity.
Qed.

Lemma mfold_app {A S : Type}
    (step : S -> A -> M Model Sample Target Metric Callback S)
    (l1 l2 : list A) (s : S) (w : World5) :
  mfold step s (l1 ++ l2) w
  = bind (mfold step s l1) (fun s' => mfold step s' l2) w.
Proof.
  revert s w. induction l1 as [|a l1 IH]; intros s w; [reflexivity|].
  cbn [List.app mfold]. unfold bind.
  destruct (step s a w) as [[s1|e] w1]; [|reflexivity].
  rewrite IH. reflexivity.
Qed.

Lemma print_extends (s : string) : preserves longer (print s).
Proof. intros w. apply extends_events. Qed.

Lemma mkdir_extends (path : string) : preserves longer (mkdir path).
Proof.
  intros w. unfold mkdir. destruct (existsb _ _); cbn [snd];
    [apply extends_refl | apply extends_events].
Qed.

Lemma save_model_extends (m : Model) (path : string) :
  preserves longer (save_model m path).
Proof. intros w. apply extends_events. Qed.

Lemma to_csv_extends (df : DataFrame Metric) (path : string) :
  preserves longer (to_csv df path).
Proof. intros w. apply extends_events. Qed.

Lemma call_fit_extends (m : Model) (a : fit_args Sample Target Callback) :
  preserves longer (call_fit fit m a).
Proof.
  intros w. unfold call_fit, bind, emit, lift. cbn [snd].
  apply extends_events.
Qed.

Lemma existence_check_extends (part : string) :
  preserves longer (existence_check part).
Proof. intros w. apply extends_refl. Qed.

(** Every computation of the trainer made of the steps above. *)
Ltac extends_steps :=
  repeat first
    [ apply preserves_ret, extends_refl
    | apply preserves_lift, extends_refl
    | apply print_extends
    | apply mkdir_extends
    | apply save_model_extends
    | apply to_csv_extends
    | apply call_fit_extends
    | apply existence_check_extends
    | apply preserves_bind; [apply extends_trans | | intros ?] ].

Lemma fit_folds_extends (model : value Model)
    (history : option (History Metric)) :
  preserves longer
    (fit_folds fit self training_data targets callback_list series_cv
       model history).
Proof.
  unfold fit_folds.
  apply preserves_mfold; [apply extends_refl | apply extends_trans |].
  intros [v h] i. destruct v as [m|s|l]; extends_steps.
Qed.

Lemma train_models_extends (partition_num : Z) (now : string)
    (partition : list (value Model))
    (report : DataFrame Metric) (history : option (History Metric)) :
  preserves longer
    (train_models fit self training_data targets callback_list series_cv
       partition_num now partition report history).
Proof.
  unfold train_models.
  apply preserves_mfold; [apply extends_refl | apply extends_trans |].
  intros [report0 history0] [ind model]. unfold train_models_body.
  apply preserves_bind; [apply extends_trans | apply fit_folds_extends|].
  intros [model' history']. extends_steps.
Qed.

(** What a pass does after the directory of its partition is made. *)
Lemma training_extends (now : string) (numb_ind partition_num : Z)
    (part : string) (report : DataFrame Metric)
    (history : option (History Metric)) :
  preserves longer
    (bind (lift (Py.getitem partitions part))
       (fun batch =>
          bind (lift (py_list batch))
            (fun models =>
               bind (train_models fit self training_data targets
                       callback_list series_cv partition_num now models
                       report history)
                 (fun trained =>
                    let '(report, history) := trained in
                    bind (to_csv report (report_path partition_num now))
                      (fun _ => ret (numb_ind, report, history)))))).
Proof.
  apply preserves_bind; [apply extends_trans | extends_steps|].
  intros batch.
  apply preserves_bind; [apply extends_trans | extends_steps|].
  intros models.
  apply preserves_bind; [apply extends_trans | apply train_models_extends|].
  intros [report' history']. extends_steps.
Qed.

Lemma auto_body_extends (now : string)
    (locals : Z * DataFrame Metric * option (History Metric))
    (part : string) :
  preserves longer (again now locals part).
Proof.
  destruct locals as [[numb_ind report] history].
  unfold auto_grid_cv_body.
  apply preserves_bind; [apply extends_trans | extends_steps|].
  intros [|]; [extends_steps|].
  apply preserves_bind; [apply extends_trans | extends_steps|].
  intros _.
  apply preserves_bind; [apply extends_trans | extends_steps|].
  intros partition_num.
  apply preserves_bind; [apply extends_trans | extends_steps|].
  intros _. apply training_extends.
Qed.

(** A pass over a partition without report announces the training and
    makes the directory of the partition first. *)
Lemma auto_body_starts (now : string) (numb_ind K : Z)
    (report : DataFrame Metric) (history : option (History Metric))
    (w w1 : World5)
    (r : result (Z * DataFrame Metric * option (History Metric))) :
  Py.index partition_numb (numb_ind + 1) = Ok K ->
  ~ reported K w ->
  again now (numb_ind, report, history) (partition_key K) w = (r, w1) ->
  exists tail,
    events w1 = (events w ++ EPrint "New report" :: tail)%list
    /\ (~ In (saved_models_dir K now) (Py.keys (fs w)) ->
        exists tail', tail = EMkdir (saved_models_dir K now) :: tail').
Proof.
  intros Hidx Hnot Hrun. unfold auto_grid_cv_body in Hrun.
  unfold bind at 1 in Hrun.
  rewrite (proj1 (not_reported_guard K w) Hnot) in Hrun.
  unfold bind at 1, print at 1, emit at 1 in Hrun.
  unfold bind at 1, lift at 1 in Hrun. rewrite Hidx in Hrun.
  apply bind_run in Hrun.
  destruct Hrun as [(e & Hmk & _)|(u & w2 & Hmk & Hrun)].
  - unfold mkdir in Hmk. cbn [fs events] in Hmk.
    destruct (existsb _ _) eqn:E; [|discriminate Hmk].
    injection Hmk as _ <-. cbn [events]. exists []. split; [reflexivity|].
    intros Hfresh. exfalso. apply Hfresh. apply existsb_eqb_in. exact E.
  - unfold mkdir in Hmk. cbn [fs events] in Hmk.
    destruct (existsb _ _); [discriminate Hmk|].
    injection Hmk as _ <-.
    assert (Hext : extends
                     (mkWorld
                        (Py.setitem (fs w) (saved_models_dir K now) Directory)
                        ((events w ++ [EPrint "New report"])
                         ++ [EMkdir (saved_models_dir K now)])%list)
                     w1).
    { eapply preserves_run; [|exact Hrun]. apply training_extends. }
    destruct Hext as [evs Hevs]. cbn [events] in Hevs.
    exists (EMkdir (saved_models_dir K now) :: evs). split.
    + rewrite Hevs, <- !app_assoc. reflexivity.
    + intros _. exists evs. reflexivity.
Qed.

(** The loop over the partitions when the first partitions have their
    reports and the next one has none. *)
Lemma auto_loop_resumes (now : string) (pre post : list Z) (K : Z)
    (w w2 : World5)
    (r : result (Z * DataFrame Metric * option (History Metric))) :
  partition_numb = (pre ++ K :: post)%list ->
  (forall K0, In K0 pre -> reported K0 w) ->
  ~ reported K w ->
  mfold (again now) (-1, df_empty, None)
    (map partition_key (pre ++ K :: post)) w
  = (r, w2) ->
  exists tail,
    events w2
    = (events w
       ++ repeat (EPrint "Report already exists") (List.length pre)
       ++ EPrint "New report" :: tail)%list
    /\ (~ In (saved_models_dir K now) (Py.keys (fs w)) ->
        exists tail', tail = EMkdir (saved_models_dir K now) :: tail').
Proof.
  intros Hnums Hpre Hnot Hrun.
  rewrite map_app, mfold_app in Hrun. unfold bind at 1 in Hrun.
  rewrite (@auto_loop_skips _ _ _ _ _ _ fit self training_data targets
             callback_list series_cv partitions partition_numb now)
    in Hrun.
  2: { intros part Hin. apply in_map_iff in Hin.
       destruct Hin as (K0 & <- & HK0).
       rewrite (proj1 (guard_reported K0 w) (Hpre K0 HK0)). reflexivity. }
  rewrite length_map in Hrun. cbn [map mfold] in Hrun.
  apply bind_run in Hrun.
  set (w0 := mkWorld (fs w)
               (events w ++ repeat (EPrint "Report already exists")
                              (List.length pre))%list) in *.
  assert (Hidx : Py.index partition_numb
                   (-1 + Z.of_nat (List.length pre) + 1) = Ok K).
  { replace (-1 + Z.of_nat (List.length pre) + 1)
      with (Z.of_nat (List.length pre)) by lia.
    apply index_nth. rewrite Hnums, nth_error_app2 by lia.
    rewrite Nat.sub_diag. reflexivity. }
  assert (Hnot0 : ~ reported K w0) by exact Hnot.
  destruct Hrun as [(e & Hbody & _)|(s1 & w1 & Hbody & Hrest)].
  - edestruct auto_body_starts as (tail & Hev & Hdir);
      [exact Hidx | exact Hnot0 | exact Hbody |].
    exists tail. split; [|exact Hdir].
    rewrite Hev. unfold w0. cbn [events]. rewrite <- app_assoc. reflexivity.
  - edestruct auto_body_starts as (tail & Hev & Hdir);
      [exact Hidx | exact Hnot0 | exact Hbody |].
    assert (Hext : extends w1 w2).
    { eapply preserves_run; [|exact Hrest].
      apply preserves_mfold; [apply extends_refl | apply extends_trans |].
      intros locals part. apply auto_body_extends. }
    destruct Hext as [evs Hevs].
    exists (tail ++ evs)%list. split.
    + rewrite Hevs, Hev. unfold w0. cbn [events].
      rewrite <- !app_assoc. reflexivity.
    + intros Hfresh. destruct (Hdir Hfresh) as (tail' & ->).
      exists (tail' ++ evs)%list. reflexivity.
Qed.

End TraceFacts.

Lemma map_partition_key_inj (l l' : list Z) :
  map partition_key l = map partition_key l' -> l = l'.
Proof.
  revert l'. induction l as [|a l IH]; intros [|b l'] H;
    try discriminate; [reflexivity|].
  cbn [map] in H.
  assert (Hab : partition_key a = partition_key b)
    by exact (f_equal (fun keys => hd "" keys) H).
  assert (Hrest : map partition_key l = map partition_key l')
    by exact (f_equal (@tl string) H).
  apply partition_key_inj in Hab.
  rewrite Hab, (IH _ Hrest). reflexivity.
Qed.


